(** * Blood-donation coordination backend (backend/server.py)

    A shallow embedding of the FastAPI handlers of [backend/server.py] over an
    explicit model of the four MongoDB collections, followed by the theorems
    that settle the claims of the specification.

    Conventions of the embedding.
    - A [datetime] is an integer count of microseconds; [timedelta] values are
      integers of the same unit.  The store keeps a datetime as whole
      milliseconds: what is written, or sent in a query, is cut to the
      millisecond ([bson_datetime]), and an integer must fit 64 bits.
    - A collection is the list of its documents in insertion order; a query
      document is a boolean predicate on documents.
    - [datetime.utcnow()] and [uuid.uuid4()] read from two oracles carried by
      the world: every call consumes one reading.  The password context and
      the case mapping of [str.upper()] are functions carried by the world
      too.
    - An [HTTPException] is the [Raise] result of the handler monad; writes
      made before it are kept (the store has no transactions).
    - A pydantic [float] is an IEEE value of [SpecFloat.spec_float]; no
      arithmetic is ever done on one by the handlers. *)

From Stdlib Require Import ZArith List Bool Lia.
From Stdlib Require Import Strings.String Strings.Ascii.
From Stdlib Require Import Numbers.DecimalString.
From Stdlib Require Import Floats.SpecFloat.
From Stdlib Require Import Sorting.Sorted Sorting.Permutation.
Import ListNotations.

Local Open Scope string_scope.
Local Open Scope list_scope.
Local Open Scope Z_scope.

(** ** Dates and durations *)

Definition datetime := Z.
Definition timedelta := Z.

Definition timedelta_minutes (m : Z) : timedelta := m * 60000000.
Definition timedelta_hours (h : Z) : timedelta := h * 3600000000.
Definition timedelta_days (d : Z) : timedelta := d * 86400000000.

Definition ACCESS_TOKEN_EXPIRE_MINUTES : Z := 1440.

(** What the store keeps of a datetime: the whole milliseconds (the
    microseconds below are dropped, also before 1970). *)
Definition bson_datetime (t : datetime) : datetime := 1000 * (t / 1000).

(** The integers the store can hold: 8 bytes. *)
Definition bson_int_ok (z : Z) : bool :=
  (- 2 ^ 63 <=? z) && (z <? 2 ^ 63).

(** ** Values of the documents *)

(** A key of a stored document: absent, present with [null], or present with
    a value.  The query operators tell the three apart. *)
Inductive field (A : Type) : Type :=
| Missing
| Null
| Val (a : A).
Arguments Missing {A}.
Arguments Null {A}.
Arguments Val {A} a.

Definition field_of_option {A} (o : option A) : field A :=
  match o with
  | Some a => Val a
  | None => Null
  end.

(** What a pydantic model with an [Optional] attribute (default [None])
    reads from such a key. *)
Definition option_of_field {A} (f : field A) : option A :=
  match f with
  | Val a => Some a
  | Null | Missing => None
  end.

(** A JSON number inside a [Dict[str, Any]]. *)
Inductive number : Type :=
| Int (z : Z)
| Float (f : spec_float).

(** A GeoJSON dictionary with the two keys the code writes. *)
Record GeoJSON : Type := mkGeoJSON {
  geo_type : string;
  coordinates : list number
}.

(** Python truthiness of the optional values the handlers test. *)
Definition str_truthy (o : option string) : bool :=
  match o with
  | Some s => negb (s =? "")%string
  | None => false
  end.

Definition float_truthy (o : option spec_float) : bool :=
  match o with
  | Some (S754_zero _) => false
  | Some _ => true
  | None => false
  end.

Definition datetime_truthy (o : option datetime) : bool :=
  match o with
  | Some _ => true
  | None => false
  end.

(** ** Pydantic models and stored documents *)

Module UserRegistration.
Record t : Type := mk {
  email : string;
  password : string;
  name : string;
  role : string;
  phone : option string;
  hospital_name : option string;
  hospital_address : option string;
  blood_type : option string;
  city : option string;
  latitude : option spec_float;
  longitude : option spec_float;
  last_donation_date : option datetime
}.
End UserRegistration.

Module UserLogin.
Record t : Type := mk {
  email : string;
  password : string
}.
End UserLogin.

(** The dictionary [register] inserts into [db.users]: the registration
    attributes, the hashed password, and the keys added by the handler.
    [location] is [None] when the key was never written. *)
Module UserDoc.
Record t : Type := mk {
  email : string;
  password : string;
  name : string;
  role : string;
  phone : option string;
  hospital_name : option string;
  hospital_address : option string;
  blood_type : option string;
  city : option string;
  latitude : option spec_float;
  longitude : option spec_float;
  last_donation_date : field datetime;
  id : string;
  created_at : datetime;
  is_available : bool;
  location : option GeoJSON
}.

(** [{"$set": {"is_available": a, "last_donation_date": d}}] *)
Definition set_donation (a : bool) (d : datetime) (u : t) : t :=
  mk (email u) (password u) (name u) (role u) (phone u) (hospital_name u)
     (hospital_address u) (blood_type u) (city u) (latitude u) (longitude u)
     (Val d) (id u) (created_at u) a (location u).
End UserDoc.

Module User.
Record t : Type := mk {
  id : string;
  email : string;
  name : string;
  role : string;
  phone : option string;
  hospital_name : option string;
  hospital_address : option string;
  blood_type : option string;
  city : option string;
  location : option GeoJSON;
  last_donation_date : option datetime;
  is_available : bool;
  created_at : datetime
}.

(** The [User] model built from a stored dictionary (its keys passed as
    keyword arguments): extra keys are ignored. *)
Definition of_doc (d : UserDoc.t) : t :=
  mk (UserDoc.id d) (UserDoc.email d) (UserDoc.name d) (UserDoc.role d)
     (UserDoc.phone d) (UserDoc.hospital_name d) (UserDoc.hospital_address d)
     (UserDoc.blood_type d) (UserDoc.city d) (UserDoc.location d)
     (option_of_field (UserDoc.last_donation_date d))
     (UserDoc.is_available d) (UserDoc.created_at d).
End User.

Module BloodAlert.
Record t : Type := mk {
  id : string;
  hospital_id : string;
  hospital_name : string;
  blood_type : string;
  units_needed : Z;
  urgency_level : string;
  description : option string;
  location : GeoJSON;
  radius_km : spec_float;
  status : string;
  created_at : datetime;
  expires_at : option datetime
}.

(** [alert.expires_at = e] *)
Definition set_expires_at (e : datetime) (a : t) : t :=
  mk (id a) (hospital_id a) (hospital_name a) (blood_type a) (units_needed a)
     (urgency_level a) (description a) (location a) (radius_km a) (status a)
     (created_at a) (Some e).
End BloodAlert.

Module BloodAlertCreate.
Record t : Type := mk {
  blood_type : string;
  units_needed : Z;
  urgency_level : string;
  description : option string;
  radius_km : spec_float
}.
End BloodAlertCreate.

Module DonorResponse.
Record t : Type := mk {
  id : string;
  alert_id : string;
  donor_id : string;
  donor_name : string;
  donor_email : string;
  donor_phone : option string;
  response : string;
  message : option string;
  responded_at : datetime
}.
End DonorResponse.

Module DonorResponseCreate.
Record t : Type := mk {
  response : string;
  message : option string
}.
End DonorResponseCreate.

Module MockEmailNotification.
Record t : Type := mk {
  id : string;
  to_email : string;
  to_name : string;
  subject : string;
  body : string;
  alert_id : string;
  sent_at : datetime;
  status : string
}.
End MockEmailNotification.

(** ** What the store keeps of a document

    A document is encoded when it is written: every datetime in it is cut
    to the millisecond. *)

Definition bson_user (u : UserDoc.t) : UserDoc.t :=
  UserDoc.mk (UserDoc.email u) (UserDoc.password u) (UserDoc.name u)
    (UserDoc.role u) (UserDoc.phone u) (UserDoc.hospital_name u)
    (UserDoc.hospital_address u) (UserDoc.blood_type u) (UserDoc.city u)
    (UserDoc.latitude u) (UserDoc.longitude u)
    (match UserDoc.last_donation_date u with
     | Val d => Val (bson_datetime d)
     | Null => Null
     | Missing => Missing
     end)
    (UserDoc.id u) (bson_datetime (UserDoc.created_at u))
    (UserDoc.is_available u) (UserDoc.location u).

Definition bson_blood_alert (a : BloodAlert.t) : BloodAlert.t :=
  BloodAlert.mk (BloodAlert.id a) (BloodAlert.hospital_id a)
    (BloodAlert.hospital_name a) (BloodAlert.blood_type a)
    (BloodAlert.units_needed a) (BloodAlert.urgency_level a)
    (BloodAlert.description a) (BloodAlert.location a) (BloodAlert.radius_km a)
    (BloodAlert.status a) (bson_datetime (BloodAlert.created_at a))
    (option_map bson_datetime (BloodAlert.expires_at a)).

Definition bson_donor_response (r : DonorResponse.t) : DonorResponse.t :=
  DonorResponse.mk (DonorResponse.id r) (DonorResponse.alert_id r)
    (DonorResponse.donor_id r) (DonorResponse.donor_name r)
    (DonorResponse.donor_email r) (DonorResponse.donor_phone r)
    (DonorResponse.response r) (DonorResponse.message r)
    (bson_datetime (DonorResponse.responded_at r)).

Definition bson_email_notification (n : MockEmailNotification.t)
  : MockEmailNotification.t :=
  MockEmailNotification.mk (MockEmailNotification.id n)
    (MockEmailNotification.to_email n) (MockEmailNotification.to_name n)
    (MockEmailNotification.subject n) (MockEmailNotification.body n)
    (MockEmailNotification.alert_id n)
    (bson_datetime (MockEmailNotification.sent_at n))
    (MockEmailNotification.status n).

(** ** The world: the four collections, the clock and the UUID source *)

Record DB : Type := mkDB {
  users : list UserDoc.t;
  blood_alerts : list BloodAlert.t;
  donor_responses : list DonorResponse.t;
  email_notifications : list MockEmailNotification.t
}.

Record World : Type := mkWorld {
  db : DB;
  clock : nat -> datetime;      (* the k-th reading of [datetime.utcnow()] *)
  clock_reads : nat;            (* readings consumed so far *)
  uuid_source : nat -> string;  (* the k-th value of [str(uuid.uuid4())] *)
  uuid_reads : nat;
  pwd_hash : string -> string;            (* [pwd_context.hash] *)
  pwd_verify : string -> string -> bool;  (* [pwd_context.verify] *)
  unicode_upper : string -> string        (* [str.upper] *)
}.

Definition with_db (d : DB) (w : World) : World :=
  mkWorld d (clock w) (clock_reads w) (uuid_source w) (uuid_reads w)
          (pwd_hash w) (pwd_verify w) (unicode_upper w).

(** ** The handler monad: state passing with exceptions *)

Inductive exception : Type :=
| HTTPException (status_code : Z) (detail : string)
| ValidationError    (* pydantic refuses the attributes of a model *)
| OverflowError.     (* the store refuses an integer beyond 8 bytes *)

Inductive result (A : Type) : Type :=
| Ok (a : A)
| Raise (e : exception).
Arguments Ok {A} a.
Arguments Raise {A} e.

Definition M (A : Type) : Type := World -> result A * World.

Definition ret {A} (a : A) : M A := fun w => (Ok a, w).

Definition bind {A B} (m : M A) (k : A -> M B) : M B :=
  fun w =>
    match m w with
    | (Ok a, w') => k a w'
    | (Raise e, w') => (Raise e, w')
    end.

Definition raise {A} (e : exception) : M A := fun w => (Raise e, w).

Notation "x <- m ;; k" := (bind m (fun x => k))
  (at level 61, m at next level, right associativity).
Notation "m ;;; k" := (bind m (fun _ => k))
  (at level 61, right associativity).

Definition utcnow : M datetime :=
  fun w =>
    (Ok (clock w (clock_reads w)),
     mkWorld (db w) (clock w) (S (clock_reads w)) (uuid_source w) (uuid_reads w)
             (pwd_hash w) (pwd_verify w) (unicode_upper w)).

Definition uuid4 : M string :=
  fun w =>
    (Ok (uuid_source w (uuid_reads w)),
     mkWorld (db w) (clock w) (clock_reads w) (uuid_source w) (S (uuid_reads w))
             (pwd_hash w) (pwd_verify w) (unicode_upper w)).

Definition get_db : M DB := fun w => (Ok (db w), w).

Definition verify_password (plain_password hashed_password : string) : M bool :=
  fun w => (Ok (pwd_verify w plain_password hashed_password), w).

Definition get_password_hash (password : string) : M string :=
  fun w => (Ok (pwd_hash w password), w).

(** [s.upper()] *)
Definition str_upper (s : string) : M string :=
  fun w => (Ok (unicode_upper w s), w).

Definition modify_db (f : DB -> DB) : M unit :=
  fun w => (Ok tt, with_db (f (db w)) w).

(** ** Collection operations *)

(** [find_one(q)]: the first document satisfying the query. *)
Definition find_one {A} (q : A -> bool) (c : list A) : option A := find q c.

(** [find(q)]: the cursor over the satisfying documents, in collection order. *)
Definition find_all {A} (q : A -> bool) (c : list A) : list A := filter q c.

(** [cursor.to_list(n)]: at most [n] documents of the cursor. *)
Definition to_list {A} (n : nat) (cursor : list A) : list A := firstn n cursor.

(** [count_documents(q)] *)
Definition count_documents {A} (q : A -> bool) (c : list A) : Z :=
  Z.of_nat (List.length (filter q c)).

(** [update_one(q, upd)]: the update applied to the first satisfying
    document; nothing happens when there is none. *)
Fixpoint update_one {A} (q : A -> bool) (upd : A -> A) (c : list A) : list A :=
  match c with
  | [] => []
  | d :: c' => if q d then upd d :: c' else d :: update_one q upd c'
  end.

(** [cursor.sort(key, -1)]: descending on a datetime key (insertion sort;
    documents with equal keys come out in the reverse of their cursor order,
    an order the store leaves open). *)
Fixpoint insert_desc {A} (key : A -> datetime) (d : A) (l : list A) : list A :=
  match l with
  | [] => [d]
  | x :: l' => if key x <? key d then d :: l else x :: insert_desc key d l'
  end.

Definition sort_desc {A} (key : A -> datetime) (cursor : list A) : list A :=
  fold_right (insert_desc key) [] cursor.

(** [insert_one] on each collection: the encoded document is appended. *)
Definition insert_user (u : UserDoc.t) : M unit :=
  modify_db (fun d => mkDB (users d ++ [bson_user u]) (blood_alerts d)
                           (donor_responses d) (email_notifications d)).

(** [units_needed] is the one integer of a document: beyond 8 bytes the
    store refuses the document. *)
Definition insert_blood_alert (a : BloodAlert.t) : M unit :=
  if bson_int_ok (BloodAlert.units_needed a) then
    modify_db (fun d => mkDB (users d) (blood_alerts d ++ [bson_blood_alert a])
                             (donor_responses d) (email_notifications d))
  else raise OverflowError.

Definition insert_donor_response (r : DonorResponse.t) : M unit :=
  modify_db (fun d => mkDB (users d) (blood_alerts d)
                           (donor_responses d ++ [bson_donor_response r])
                           (email_notifications d)).

Definition insert_email_notification (n : MockEmailNotification.t) : M unit :=
  modify_db (fun d => mkDB (users d) (blood_alerts d) (donor_responses d)
                           (email_notifications d
                            ++ [bson_email_notification n])).

(** [update_one(q, {"$set": {"is_available": a, "last_donation_date": d}})]:
    the date is encoded like any stored datetime. *)
Definition update_one_user (q : UserDoc.t -> bool) (is_available : bool)
  (last_donation_date : datetime) : M unit :=
  modify_db (fun d =>
               mkDB (update_one q
                       (UserDoc.set_donation is_available
                          (bson_datetime last_donation_date))
                       (users d))
                    (blood_alerts d) (donor_responses d)
                    (email_notifications d)).

(** ** Authentication *)

(** The claims of a bearer token: [sub] and [exp]. *)
Record access_token : Type := mkToken {
  sub : string;
  exp : datetime
}.

Definition create_access_token (subject : string) : M access_token :=
  now <- utcnow ;;
  ret (mkToken subject (now + timedelta_minutes ACCESS_TOKEN_EXPIRE_MINUTES)).

(** What a request presents.  [HTTPBearer] wants an Authorization header
    with the scheme Bearer and refuses a request without one before
    [get_current_user] runs; of a bearer token [jwt.decode] makes a
    [PyJWTError] (bad signature, expired, malformed), or a payload whose [sub]
    may be absent. *)
Inductive credentials : Type :=
| NoCredentials    (* no Authorization header, or one without a token *)
| NotBearer        (* another scheme than Bearer *)
| InvalidToken
| Payload (sub : option string).

Definition get_current_user (c : credentials) : M User.t :=
  match c with
  | NoCredentials => raise (HTTPException 403 "Not authenticated")
  | NotBearer =>
      raise (HTTPException 403 "Invalid authentication credentials")
  | InvalidToken =>
      raise (HTTPException 401 "Invalid authentication credentials")
  | Payload None =>
      raise (HTTPException 401 "Invalid authentication credentials")
  | Payload (Some email) =>
      d <- get_db ;;
      match find_one (fun u => String.eqb (UserDoc.email u) email) (users d) with
      | None => raise (HTTPException 401 "User not found")
      | Some user => ret (User.of_doc user)
      end
  end.

(** ** Text of the mock e-mail *)

Definition nl : string := String (ascii_of_nat 10) "".

(** U+1FA78 in UTF-8. *)
Definition drop_of_blood : string :=
  String (ascii_of_nat 240) (String (ascii_of_nat 159)
    (String (ascii_of_nat 169) (String (ascii_of_nat 184) ""))).

(** The case mapping of the sample worlds: ASCII letters are upper-cased,
    other bytes are left as they are. *)
Definition upper_ascii (c : ascii) : ascii :=
  let n := nat_of_ascii c in
  if (Nat.leb 97 n && Nat.leb n 122)%bool then ascii_of_nat (n - 32) else c.

Fixpoint ascii_upper (s : string) : string :=
  match s with
  | EmptyString => EmptyString
  | String c s' => String (upper_ascii c) (ascii_upper s')
  end.

Definition str_of_int (z : Z) : string := NilZero.string_of_int (Z.to_int z).

Definition str_or (o : option string) (default : string) : string :=
  if str_truthy o then match o with Some s => s | None => default end
  else default.

Definition email_subject (alert : BloodAlert.t) : string :=
  drop_of_blood ++ " URGENT: " ++ BloodAlert.blood_type alert
    ++ " Blood Needed at " ++ BloodAlert.hospital_name alert.

(** [urgency] is [alert.urgency_level.upper()]. *)
Definition email_body (donor : User.t) (alert : BloodAlert.t)
  (urgency : string) : string :=
  nl ++ "Dear " ++ User.name donor ++ "," ++ nl ++ nl
  ++ "We urgently need your help! " ++ BloodAlert.hospital_name alert
  ++ " has requested " ++ str_of_int (BloodAlert.units_needed alert)
  ++ " units of " ++ BloodAlert.blood_type alert ++ " blood." ++ nl ++ nl
  ++ "Urgency Level: " ++ urgency ++ nl
  ++ "Description: "
  ++ str_or (BloodAlert.description alert) "Emergency blood requirement"
  ++ nl ++ nl
  ++ "Your blood type matches and you are within the search radius. "
  ++ "If you are available to donate, please respond as soon as possible."
  ++ nl ++ nl
  ++ "To respond to this alert, please log in to the Blood Donation Portal."
  ++ nl ++ nl
  ++ "Thank you for your willingness to save lives!" ++ nl ++ nl
  ++ "Best regards," ++ nl ++ "Blood Donation Alert System" ++ nl
  ++ "        ".

(** ** Donor matching and notification

    [calculate_distance], the haversine helper of the source, is called by
    no handler; it has no counterpart below. *)

Definition send_mock_email_notification (donor : User.t) (alert : BloodAlert.t)
  : M MockEmailNotification.t :=
  urgency <- str_upper (BloodAlert.urgency_level alert) ;;
  id <- uuid4 ;;
  sent_at <- utcnow ;;
  let email_notification :=
    MockEmailNotification.mk id (User.email donor) (User.name donor)
      (email_subject alert) (email_body donor alert urgency)
      (BloodAlert.id alert) sent_at "sent" in
  insert_email_notification email_notification ;;;
  ret email_notification.

(** Equality of a stored optional string with a string: [null] equals none. *)
Definition opt_str_eqb (o : option string) (s : string) : bool :=
  match o with
  | Some x => String.eqb x s
  | None => false
  end.

(** [{"$lt": t}]: only a stored date compares with a date. *)
Definition field_lt (f : field datetime) (t : datetime) : bool :=
  match f with
  | Val d => d <? t
  | Null | Missing => false
  end.

(** [{"$exists": False}] *)
Definition field_not_exists {A} (f : field A) : bool :=
  match f with
  | Missing => true
  | Null | Val _ => false
  end.

(** The query document of [notify_matching_donors]; its datetime is encoded
    like a stored one when the query is sent. *)
Definition donor_query (blood_type : string) (three_months_ago : datetime)
  (u : UserDoc.t) : bool :=
  String.eqb (UserDoc.role u) "donor"
  && opt_str_eqb (UserDoc.blood_type u) blood_type
  && Bool.eqb (UserDoc.is_available u) true
  && (field_lt (UserDoc.last_donation_date u) (bson_datetime three_months_ago)
      || field_not_exists (UserDoc.last_donation_date u)).

(** [for x in l: body(x)] *)
Fixpoint for_each {A B} (l : list A) (body : A -> M B) : M unit :=
  match l with
  | [] => ret tt
  | x :: l' => body x ;;; for_each l' body
  end.

Definition notify_matching_donors (alert : BloodAlert.t) : M unit :=
  now <- utcnow ;;
  let three_months_ago := now - timedelta_days 90 in
  d <- get_db ;;
  let matching_donors :=
    to_list 100
      (find_all (donor_query (BloodAlert.blood_type alert) three_months_ago)
                (users d)) in
  for_each matching_donors (fun donor_data =>
    let donor := User.of_doc donor_data in
    send_mock_email_notification donor alert).

(** ** Authentication routes *)

Definition register (user_data : UserRegistration.t)
  : M (access_token * User.t) :=
  d <- get_db ;;
  let existing_user :=
    find_one (fun u => String.eqb (UserDoc.email u)
                                  (UserRegistration.email user_data))
             (users d) in
  match existing_user with
  | Some _ => raise (HTTPException 400 "Email already registered")
  | None =>
    (if String.eqb (UserRegistration.role user_data) "hospital_staff" then
       if negb (str_truthy (UserRegistration.hospital_name user_data)) then
         raise (HTTPException 400
                  "Hospital name is required for hospital staff")
       else ret tt
     else if String.eqb (UserRegistration.role user_data) "donor" then
       if negb (str_truthy (UserRegistration.blood_type user_data))
          || negb (str_truthy (UserRegistration.city user_data)) then
         raise (HTTPException 400
                  "Blood type and city are required for donors")
       else ret tt
     else
       raise (HTTPException 400 "Role must be 'hospital_staff' or 'donor'")) ;;;
    hashed_password <- get_password_hash (UserRegistration.password user_data) ;;
    id <- uuid4 ;;
    created_at <- utcnow ;;
    let location :=
      if String.eqb (UserRegistration.role user_data) "donor"
         && float_truthy (UserRegistration.latitude user_data)
         && float_truthy (UserRegistration.longitude user_data) then
        match UserRegistration.longitude user_data,
              UserRegistration.latitude user_data with
        | Some lon, Some lat => Some (mkGeoJSON "Point" [Float lon; Float lat])
        | _, _ => None
        end
      else None in
    let user_dict :=
      UserDoc.mk (UserRegistration.email user_data) hashed_password
        (UserRegistration.name user_data) (UserRegistration.role user_data)
        (UserRegistration.phone user_data)
        (UserRegistration.hospital_name user_data)
        (UserRegistration.hospital_address user_data)
        (UserRegistration.blood_type user_data)
        (UserRegistration.city user_data)
        (UserRegistration.latitude user_data)
        (UserRegistration.longitude user_data)
        (field_of_option (UserRegistration.last_donation_date user_data))
        id created_at true location in
    insert_user user_dict ;;;
    access_token <- create_access_token (UserRegistration.email user_data) ;;
    ret (access_token, User.of_doc user_dict)
  end.

Definition login (login_data : UserLogin.t) : M (access_token * User.t) :=
  d <- get_db ;;
  match find_one (fun u => String.eqb (UserDoc.email u)
                                      (UserLogin.email login_data))
                 (users d) with
  | None => raise (HTTPException 401 "Invalid email or password")
  | Some user =>
    ok <- verify_password (UserLogin.password login_data)
                          (UserDoc.password user) ;;
    if negb ok then raise (HTTPException 401 "Invalid email or password")
    else
      access_token <- create_access_token (UserLogin.email login_data) ;;
      ret (access_token, User.of_doc user)
  end.

Definition get_current_user_info (current_user : User.t) : M User.t :=
  ret current_user.

(** ** Blood alert routes *)

Definition create_blood_alert (alert_data : BloodAlertCreate.t)
  (current_user : User.t) : M BloodAlert.t :=
  if negb (String.eqb (User.role current_user) "hospital_staff") then
    raise (HTTPException 403 "Only hospital staff can create alerts")
  else
    (* the model runs the default factories of [id] and [created_at] also
       when it refuses an attribute *)
    id <- uuid4 ;;
    created_at <- utcnow ;;
    match User.hospital_name current_user with
    | None => raise ValidationError   (* [hospital_name: str] refuses [None] *)
    | Some hospital_name =>
      let alert :=
        BloodAlert.mk id (User.id current_user) hospital_name
          (BloodAlertCreate.blood_type alert_data)
          (BloodAlertCreate.units_needed alert_data)
          (BloodAlertCreate.urgency_level alert_data)
          (BloodAlertCreate.description alert_data)
          (mkGeoJSON "Point" [Int 0; Int 0])
          (BloodAlertCreate.radius_km alert_data)
          "active" created_at None in
      alert <-
        (if String.eqb (BloodAlertCreate.urgency_level alert_data) "critical"
         then now <- utcnow ;;
              ret (BloodAlert.set_expires_at (now + timedelta_hours 2) alert)
         else if String.eqb (BloodAlertCreate.urgency_level alert_data) "high"
         then now <- utcnow ;;
              ret (BloodAlert.set_expires_at (now + timedelta_hours 6) alert)
         else now <- utcnow ;;
              ret (BloodAlert.set_expires_at (now + timedelta_hours 24) alert)) ;;
      insert_blood_alert alert ;;;
      notify_matching_donors alert ;;;
      ret alert
    end.

Definition get_blood_alerts (current_user : User.t) : M (list BloodAlert.t) :=
  d <- get_db ;;
  if String.eqb (User.role current_user) "hospital_staff" then
    ret (to_list 100
           (sort_desc BloodAlert.created_at
              (find_all (fun a => String.eqb (BloodAlert.hospital_id a)
                                             (User.id current_user))
                        (blood_alerts d))))
  else
    ret (to_list 50
           (sort_desc BloodAlert.created_at
              (find_all (fun a =>
                           opt_str_eqb (User.blood_type current_user)
                                       (BloodAlert.blood_type a)
                           && String.eqb (BloodAlert.status a) "active")
                        (blood_alerts d)))).

Definition get_alert_details (alert_id : string) (current_user : User.t)
  : M BloodAlert.t :=
  d <- get_db ;;
  match find_one (fun a => String.eqb (BloodAlert.id a) alert_id)
                 (blood_alerts d) with
  | None => raise (HTTPException 404 "Alert not found")
  | Some alert => ret alert
  end.

(** ** Donor response routes *)

Definition respond_to_alert (alert_id : string)
  (response_data : DonorResponseCreate.t) (current_user : User.t)
  : M (string * DonorResponse.t) :=
  if negb (String.eqb (User.role current_user) "donor") then
    raise (HTTPException 403 "Only donors can respond to alerts")
  else
    d <- get_db ;;
    match find_one (fun a => String.eqb (BloodAlert.id a) alert_id)
                   (blood_alerts d) with
    | None => raise (HTTPException 404 "Alert not found")
    | Some alert =>
      match find_one (fun r => String.eqb (DonorResponse.alert_id r) alert_id
                               && String.eqb (DonorResponse.donor_id r)
                                             (User.id current_user))
                     (donor_responses d) with
      | Some _ =>
          raise (HTTPException 400 "You have already responded to this alert")
      | None =>
        id <- uuid4 ;;
        responded_at <- utcnow ;;
        let response :=
          DonorResponse.mk id alert_id (User.id current_user)
            (User.name current_user) (User.email current_user)
            (User.phone current_user)
            (DonorResponseCreate.response response_data)
            (DonorResponseCreate.message response_data) responded_at in
        insert_donor_response response ;;;
        (if String.eqb (DonorResponseCreate.response response_data) "available"
         then now <- utcnow ;;
              update_one_user
                (fun u => String.eqb (UserDoc.id u) (User.id current_user))
                false now
         else ret tt) ;;;
        ret ("Response recorded successfully", response)
      end
    end.

Definition get_alert_responses (alert_id : string) (current_user : User.t)
  : M (list DonorResponse.t) :=
  if negb (String.eqb (User.role current_user) "hospital_staff") then
    raise (HTTPException 403 "Access denied")
  else
    d <- get_db ;;
    match find_one (fun a => String.eqb (BloodAlert.id a) alert_id
                             && String.eqb (BloodAlert.hospital_id a)
                                           (User.id current_user))
                   (blood_alerts d) with
    | None => raise (HTTPException 404 "Alert not found or access denied")
    | Some alert =>
      ret (to_list 100
             (sort_desc DonorResponse.responded_at
                (find_all (fun r => String.eqb (DonorResponse.alert_id r)
                                               alert_id)
                          (donor_responses d))))
    end.

(** ** Dashboard routes *)

(** The [$group] stage with [{"_id": "$response", "count": {"$sum": 1}}]:
    one pair per distinct key, here in order of first occurrence. *)
Fixpoint incr_count (k : string) (groups : list (string * Z))
  : list (string * Z) :=
  match groups with
  | [] => [(k, 1)]
  | (k', n) :: g =>
      if String.eqb k' k then (k', n + 1) :: g else (k', n) :: incr_count k g
  end.

Definition group_count (keys : list string) : list (string * Z) :=
  fold_left (fun g k => incr_count k g) keys [].

(** [dict.get(k, default)] on the dictionary built from the groups. *)
Fixpoint dict_get (k : string) (default : Z) (dict : list (string * Z)) : Z :=
  match dict with
  | [] => default
  | (k', v) :: dict' => if String.eqb k' k then v else dict_get k default dict'
  end.

Definition sum_values (dict : list (string * Z)) : Z :=
  fold_right (fun kv acc => snd kv + acc) 0 dict.

Record HospitalStats : Type := mkHospitalStats {
  total_alerts : Z;
  active_alerts : Z;
  total_responses : Z;
  available_responses : Z;
  not_available_responses : Z
}.

Record DonorStats : Type := mkDonorStats {
  donor_total_responses : Z;
  donor_available_responses : Z;
  active_alerts_for_blood_type : Z;
  last_donation : option datetime   (* rendered by [isoformat()] *)
}.

Definition get_dashboard_stats (current_user : User.t)
  : M (HospitalStats + DonorStats) :=
  d <- get_db ;;
  if String.eqb (User.role current_user) "hospital_staff" then
    let total_alerts :=
      count_documents (fun a => String.eqb (BloodAlert.hospital_id a)
                                           (User.id current_user))
                      (blood_alerts d) in
    let active_alerts :=
      count_documents (fun a => String.eqb (BloodAlert.hospital_id a)
                                           (User.id current_user)
                                && String.eqb (BloodAlert.status a) "active")
                      (blood_alerts d) in
    let responses :=
      to_list 10
        (group_count
           (map DonorResponse.response
              (filter
                 (fun r =>
                    (* [$lookup] then [$match] on "alert.hospital_id" *)
                    existsb (fun a => String.eqb (BloodAlert.hospital_id a)
                                                 (User.id current_user))
                            (filter (fun a => String.eqb (BloodAlert.id a)
                                                (DonorResponse.alert_id r))
                                    (blood_alerts d)))
                 (donor_responses d)))) in
    let response_stats := responses in
    ret (inl (mkHospitalStats total_alerts active_alerts
                (sum_values response_stats)
                (dict_get "available" 0 response_stats)
                (dict_get "not_available" 0 response_stats)))
  else
    let total_responses :=
      count_documents (fun r => String.eqb (DonorResponse.donor_id r)
                                           (User.id current_user))
                      (donor_responses d) in
    let available_responses :=
      count_documents (fun r => String.eqb (DonorResponse.donor_id r)
                                           (User.id current_user)
                                && String.eqb (DonorResponse.response r)
                                              "available")
                      (donor_responses d) in
    let active_alerts :=
      count_documents (fun a => opt_str_eqb (User.blood_type current_user)
                                            (BloodAlert.blood_type a)
                                && String.eqb (BloodAlert.status a) "active")
                      (blood_alerts d) in
    ret (inr (mkDonorStats total_responses available_responses active_alerts
                (if datetime_truthy (User.last_donation_date current_user)
                 then User.last_donation_date current_user else None))).

(** ** Mock e-mail route *)

Definition get_mock_emails (current_user : User.t)
  : M (list MockEmailNotification.t) :=
  d <- get_db ;;
  if String.eqb (User.role current_user) "donor" then
    ret (to_list 50
           (sort_desc MockEmailNotification.sent_at
              (find_all (fun n => String.eqb (MockEmailNotification.to_email n)
                                             (User.email current_user))
                        (email_notifications d))))
  else
    ret (to_list 100
           (sort_desc MockEmailNotification.sent_at
              (find_all (fun _ => true) (email_notifications d)))).

(** ** The API: one request, one response *)

Inductive Request : Type :=
| POST_register (user_data : UserRegistration.t)
| POST_login (login_data : UserLogin.t)
| GET_me (c : credentials)
| POST_alerts (c : credentials) (alert_data : BloodAlertCreate.t)
| GET_alerts (c : credentials)
| GET_alert (c : credentials) (alert_id : string)
| POST_respond (c : credentials) (alert_id : string)
               (response_data : DonorResponseCreate.t)
| GET_alert_responses (c : credentials) (alert_id : string)
| GET_dashboard_stats (c : credentials)
| GET_mock_emails (c : credentials).

Inductive Response : Type :=
| TokenResponse (t : access_token) (u : User.t)
| UserResponse (u : User.t)
| AlertResponse (a : BloodAlert.t)
| AlertsResponse (l : list BloodAlert.t)
| RespondResponse (message : string) (r : DonorResponse.t)
| ResponsesResponse (l : list DonorResponse.t)
| StatsResponse (s : HospitalStats + DonorStats)
| EmailsResponse (l : list MockEmailNotification.t).

Definition handle (r : Request) : M Response :=
  match r with
  | POST_register user_data =>
      p <- register user_data ;; ret (TokenResponse (fst p) (snd p))
  | POST_login login_data =>
      p <- login login_data ;; ret (TokenResponse (fst p) (snd p))
  | GET_me c =>
      current_user <- get_current_user c ;;
      u <- get_current_user_info current_user ;; ret (UserResponse u)
  | POST_alerts c alert_data =>
      current_user <- get_current_user c ;;
      a <- create_blood_alert alert_data current_user ;; ret (AlertResponse a)
  | GET_alerts c =>
      current_user <- get_current_user c ;;
      l <- get_blood_alerts current_user ;; ret (AlertsResponse l)
  | GET_alert c alert_id =>
      current_user <- get_current_user c ;;
      a <- get_alert_details alert_id current_user ;; ret (AlertResponse a)
  | POST_respond c alert_id response_data =>
      current_user <- get_current_user c ;;
      p <- respond_to_alert alert_id response_data current_user ;;
      ret (RespondResponse (fst p) (snd p))
  | GET_alert_responses c alert_id =>
      current_user <- get_current_user c ;;
      l <- get_alert_responses alert_id current_user ;;
      ret (ResponsesResponse l)
  | GET_dashboard_stats c =>
      current_user <- get_current_user c ;;
      s <- get_dashboard_stats current_user ;; ret (StatsResponse s)
  | GET_mock_emails c =>
      current_user <- get_current_user c ;;
      l <- get_mock_emails current_user ;; ret (EmailsResponse l)
  end.

(** A run of the system: the requests served one after the other. *)
Fixpoint run (rs : list Request) (w : World) : World :=
  match rs with
  | [] => w
  | r :: rs' => run rs' (snd (handle r w))
  end.

(** * Specification-side definitions and sample worlds

    The predicates in which the properties below are stated, the closed
    forms of what the handlers compute, and a sample run of the API. *)

(** The notifications the loop of [notify_matching_donors] leaves in the
    store for the donors [l], from the [cr]-th clock reading and the [ur]-th
    UUID on, with [up] for [str.upper]. *)
Fixpoint sent_notifications (up : string -> string) (alert : BloodAlert.t)
  (l : list UserDoc.t) (clk : nat -> datetime) (uuids : nat -> string)
  (cr ur : nat) : list MockEmailNotification.t :=
  match l with
  | [] => []
  | u :: l' =>
      MockEmailNotification.mk (uuids ur) (UserDoc.email u)
        (UserDoc.name u) (email_subject alert)
        (email_body (User.of_doc u) alert (up (BloodAlert.urgency_level alert)))
        (BloodAlert.id alert) (bson_datetime (clk cr)) "sent"
      :: sent_notifications up alert l' clk uuids (S cr) (S ur)
  end.

(** The donors a call of [notify_matching_donors] selects in [w]. *)
Definition matching_donors (alert : BloodAlert.t) (w : World) : list UserDoc.t :=
  to_list 100
    (find_all (donor_query (BloodAlert.blood_type alert)
                           (clock w (clock_reads w) - timedelta_days 90))
              (users (db w))).

(** Eligibility as the specification words it: a donor of the alert's blood
    type who is available and has no last donation recorded, or one strictly
    earlier than 90 days before [now]. *)
Definition eligible (blood_type : string) (now : datetime) (u : UserDoc.t)
  : bool :=
  String.eqb (UserDoc.role u) "donor"
  && opt_str_eqb (UserDoc.blood_type u) blood_type
  && UserDoc.is_available u
  && match UserDoc.last_donation_date u with
     | Val d => d <? now - timedelta_days 90
     | Null | Missing => true
     end.

(** The notification [n] is the one addressed to [u] for [alert]. *)
Definition addressed_to (alert : BloodAlert.t) (u : UserDoc.t)
  (n : MockEmailNotification.t) : Prop :=
  MockEmailNotification.to_email n = UserDoc.email u
  /\ MockEmailNotification.to_name n = UserDoc.name u
  /\ MockEmailNotification.alert_id n = BloodAlert.id alert.

(** One notification for each user of [who], in order, and no other. *)
Definition notifies_exactly (alert : BloodAlert.t) (who : list UserDoc.t)
  (ns : list MockEmailNotification.t) : Prop :=
  Forall2 (addressed_to alert) who ns.

(** The notifications a call of [notify_matching_donors] adds in [w]. *)
Definition notifications_added (alert : BloodAlert.t) (w : World)
  : list MockEmailNotification.t :=
  skipn (List.length (email_notifications (db w)))
        (email_notifications (db (snd (notify_matching_donors alert w)))).

(** The user [u] passes the clauses of the donor query that do not look at
    the last donation date. *)
Definition donor_of_type (blood_type : string) (u : UserDoc.t) : bool :=
  String.eqb (UserDoc.role u) "donor"
  && opt_str_eqb (UserDoc.blood_type u) blood_type
  && UserDoc.is_available u.

(** Eligibility with the threshold as the store compares it: 90 days before
    [now], cut to the millisecond. *)
Definition eligible_to_the_ms (blood_type : string) (now : datetime)
  (u : UserDoc.t) : bool :=
  donor_of_type blood_type u
  && match UserDoc.last_donation_date u with
     | Val d => d <? bson_datetime (now - timedelta_days 90)
     | Null | Missing => true
     end.

(** The clock of the samples: one reading per second from a fixed instant
    (which is not a whole millisecond), tabulated. *)
Definition sample_clock_table : list datetime :=
  Eval vm_compute in
    map (fun k => 1700000000123456 + 1000000 * Z.of_nat k) (seq 0 128).

Definition sample_clock (k : nat) : datetime :=
  nth k sample_clock_table 1700000128123456.

(** The UUID source of the samples: "uuid-0", "uuid-1", ..., tabulated. *)
Definition sample_uuid_table : list string :=
  Eval vm_compute in
    map (fun k => ("uuid-" ++ str_of_int (Z.of_nat k))%string) (seq 0 128).

Definition sample_uuids (k : nat) : string := nth k sample_uuid_table "uuid-x".

Definition sample_pwd_hash (password : string) : string :=
  ("bcrypt:" ++ password)%string.

Definition sample_pwd_verify (plain_password hashed_password : string) : bool :=
  String.eqb hashed_password (sample_pwd_hash plain_password).

(** A store with 101 eligible donors of blood type O+. *)
Definition donor_number (k : nat) : UserDoc.t :=
  UserDoc.mk ("donor" ++ str_of_int (Z.of_nat k) ++ "@example.org") "hash"
    ("Donor " ++ str_of_int (Z.of_nat k)) "donor" None None None (Some "O+")
    (Some "Springfield") None None (Val 0)
    ("user-" ++ str_of_int (Z.of_nat k)) 0 true None.

Definition crowded_world : World :=
  mkWorld (mkDB (map donor_number (seq 0 101)) [] [] [])
          sample_clock 0 sample_uuids 0 sample_pwd_hash sample_pwd_verify ascii_upper.

Definition alert_O_pos : BloodAlert.t :=
  BloodAlert.mk "alert-1" "hospital-1" "General Hospital" "O+" 2 "critical"
    None (mkGeoJSON "Point" [Int 0; Int 0]) (S754_finite false 50 0)
    "active" 1700000000123000 (Some 1700007200123000).

(** A staff user whose last donation date is [null], and two donors. *)
Definition two_donor_world : World :=
  mkWorld
    (mkDB [UserDoc.mk "sam@example.org" "hash" "Sam" "hospital_staff" None
             (Some "General Hospital") None None None None None Null
             "user-s" 0 true None;
           UserDoc.mk "ann@example.org" "hash" "Ann" "donor" None None None
             (Some "O+") (Some "Springfield") None None (Val 0) "user-a" 0
             true None;
           UserDoc.mk "bob@example.org" "hash" "Bob" "donor" None None None
             (Some "O+") (Some "Springfield") None None
             (Val 1699999999000000) "user-b" 0 true None]
          [] [] [])
    sample_clock 0 sample_uuids 0 sample_pwd_hash sample_pwd_verify ascii_upper.

(** A store whose one donor gave blood 90 days and 456 microseconds before
    the clock's reading. *)
Definition boundary_world : World :=
  mkWorld
    (mkDB [UserDoc.mk "cat@example.org" "hash" "Cat" "donor" None None None
             (Some "O+") (Some "Springfield") None None
             (Val 1692224000123000) "user-c" 0 true None]
          [] [] [])
    sample_clock 0 sample_uuids 0 sample_pwd_hash sample_pwd_verify
    ascii_upper.

Definition alert_query (alert_id : string) (a : BloodAlert.t) : bool :=
  String.eqb (BloodAlert.id a) alert_id.

Definition response_query (alert_id donor_id : string) (r : DonorResponse.t)
  : bool :=
  String.eqb (DonorResponse.alert_id r) alert_id
  && String.eqb (DonorResponse.donor_id r) donor_id.

(** The response [respond_to_alert] builds in [w] and returns; the store
    keeps its encoding. *)
Definition new_response (alert_id : string) (rd : DonorResponseCreate.t)
  (cu : User.t) (w : World) : DonorResponse.t :=
  DonorResponse.mk (uuid_source w (uuid_reads w)) alert_id (User.id cu)
    (User.name cu) (User.email cu) (User.phone cu)
    (DonorResponseCreate.response rd) (DonorResponseCreate.message rd)
    (clock w (clock_reads w)).

(** The world a successful [respond_to_alert] leaves. *)
Definition responded_world (alert_id : string) (rd : DonorResponseCreate.t)
  (cu : User.t) (w : World) : World :=
  if String.eqb (DonorResponseCreate.response rd) "available" then
    mkWorld
      (mkDB (update_one (fun u => String.eqb (UserDoc.id u) (User.id cu))
                        (UserDoc.set_donation false
                           (bson_datetime (clock w (S (clock_reads w)))))
                        (users (db w)))
            (blood_alerts (db w))
            (donor_responses (db w)
             ++ [bson_donor_response (new_response alert_id rd cu w)])
            (email_notifications (db w)))
      (clock w) (S (S (clock_reads w))) (uuid_source w) (S (uuid_reads w))
      (pwd_hash w) (pwd_verify w) (unicode_upper w)
  else
    mkWorld
      (mkDB (users (db w)) (blood_alerts (db w))
            (donor_responses (db w)
             ++ [bson_donor_response (new_response alert_id rd cu w)])
            (email_notifications (db w)))
      (clock w) (S (clock_reads w)) (uuid_source w) (S (uuid_reads w))
      (pwd_hash w) (pwd_verify w) (unicode_upper w).

Inductive respond_outcome (alert_id : string) (rd : DonorResponseCreate.t)
  (cu : User.t) (w : World) : result (string * DonorResponse.t) * World -> Prop :=
| respond_forbidden :
    User.role cu <> "donor" ->
    respond_outcome alert_id rd cu w
      (Raise (HTTPException 403 "Only donors can respond to alerts"), w)
| respond_not_found :
    User.role cu = "donor" ->
    find_one (alert_query alert_id) (blood_alerts (db w)) = None ->
    respond_outcome alert_id rd cu w
      (Raise (HTTPException 404 "Alert not found"), w)
| respond_duplicate r a :
    User.role cu = "donor" ->
    find_one (alert_query alert_id) (blood_alerts (db w)) = Some a ->
    find_one (response_query alert_id (User.id cu)) (donor_responses (db w))
    = Some r ->
    respond_outcome alert_id rd cu w
      (Raise (HTTPException 400 "You have already responded to this alert"), w)
| respond_recorded a :
    User.role cu = "donor" ->
    find_one (alert_query alert_id) (blood_alerts (db w)) = Some a ->
    find_one (response_query alert_id (User.id cu)) (donor_responses (db w))
    = None ->
    respond_outcome alert_id rd cu w
      (Ok ("Response recorded successfully", new_response alert_id rd cu w),
       responded_world alert_id rd cu w).

(** [u'] is [u] with at most [is_available] and [last_donation_date]
    changed. *)
Definition same_but_donation (u u' : UserDoc.t) : Prop :=
  UserDoc.email u' = UserDoc.email u
  /\ UserDoc.password u' = UserDoc.password u
  /\ UserDoc.name u' = UserDoc.name u
  /\ UserDoc.role u' = UserDoc.role u
  /\ UserDoc.phone u' = UserDoc.phone u
  /\ UserDoc.hospital_name u' = UserDoc.hospital_name u
  /\ UserDoc.hospital_address u' = UserDoc.hospital_address u
  /\ UserDoc.blood_type u' = UserDoc.blood_type u
  /\ UserDoc.city u' = UserDoc.city u
  /\ UserDoc.latitude u' = UserDoc.latitude u
  /\ UserDoc.longitude u' = UserDoc.longitude u
  /\ UserDoc.id u' = UserDoc.id u
  /\ UserDoc.created_at u' = UserDoc.created_at u
  /\ UserDoc.location u' = UserDoc.location u.

(** The recency clause of the donor query at time [query_time]. *)
Definition recency_clause (query_time : datetime) (u : UserDoc.t) : bool :=
  field_lt (UserDoc.last_donation_date u)
           (bson_datetime (query_time - timedelta_days 90))
  || field_not_exists (UserDoc.last_donation_date u).

(** The expiry delay the specification gives for an urgency level, in
    hours. *)
Definition expiry_hours (urgency_level : string) : Z :=
  if String.eqb urgency_level "critical" then 2
  else if String.eqb urgency_level "high" then 6
  else 24.

(** The alert [create_blood_alert] builds in [w] for a hospital user, and
    returns once it is stored; the store keeps its encoding. *)
Definition created_alert (alert_data : BloodAlertCreate.t) (cu : User.t)
  (hospital_name : string) (w : World) : BloodAlert.t :=
  BloodAlert.mk (uuid_source w (uuid_reads w)) (User.id cu) hospital_name
    (BloodAlertCreate.blood_type alert_data)
    (BloodAlertCreate.units_needed alert_data)
    (BloodAlertCreate.urgency_level alert_data)
    (BloodAlertCreate.description alert_data)
    (mkGeoJSON "Point" [Int 0; Int 0])
    (BloodAlertCreate.radius_km alert_data)
    "active" (clock w (clock_reads w))
    (Some (clock w (S (clock_reads w))
           + timedelta_hours
               (expiry_hours (BloodAlertCreate.urgency_level alert_data)))).

(** The world after [clock_n] more readings of the clock and [uuid_n] more
    UUIDs, the store being as it was. *)
Definition after_readings (clock_n uuid_n : nat) (w : World) : World :=
  mkWorld (db w) (clock w) (clock_n + clock_reads w)
          (uuid_source w) (uuid_n + uuid_reads w)
          (pwd_hash w) (pwd_verify w) (unicode_upper w).

(** The world in which the new alert [a] has just been inserted. *)
Definition alert_inserted (a : BloodAlert.t) (w : World) : World :=
  mkWorld
    (mkDB (users (db w)) (blood_alerts (db w) ++ [bson_blood_alert a])
          (donor_responses (db w)) (email_notifications (db w)))
    (clock w) (S (S (clock_reads w))) (uuid_source w) (S (uuid_reads w))
    (pwd_hash w) (pwd_verify w) (unicode_upper w).

(** A user document with its three coordinate keys blanked. *)
Definition forget_location (u : UserDoc.t) : UserDoc.t :=
  UserDoc.mk (UserDoc.email u) (UserDoc.password u) (UserDoc.name u)
    (UserDoc.role u) (UserDoc.phone u) (UserDoc.hospital_name u)
    (UserDoc.hospital_address u) (UserDoc.blood_type u) (UserDoc.city u)
    None None (UserDoc.last_donation_date u) (UserDoc.id u)
    (UserDoc.created_at u) (UserDoc.is_available u) None.

(** An alert with its search radius blanked. *)
Definition forget_radius (a : BloodAlert.t) : BloodAlert.t :=
  BloodAlert.mk (BloodAlert.id a) (BloodAlert.hospital_id a)
    (BloodAlert.hospital_name a) (BloodAlert.blood_type a)
    (BloodAlert.units_needed a) (BloodAlert.urgency_level a)
    (BloodAlert.description a) (BloodAlert.location a) (S754_zero false)
    (BloodAlert.status a) (BloodAlert.created_at a) (BloodAlert.expires_at a).

Inductive db_step (d : DB) : DB -> Prop :=
| step_read :
    db_step d d
| step_register u :
    db_step d (mkDB (users d ++ [u]) (blood_alerts d) (donor_responses d)
                    (email_notifications d))
| step_alert a ns :
    BloodAlert.status a = "active" ->
    db_step d (mkDB (users d) (blood_alerts d ++ [a]) (donor_responses d)
                    (email_notifications d ++ ns))
| step_respond r us :
    find_one (response_query (DonorResponse.alert_id r)
                             (DonorResponse.donor_id r))
             (donor_responses d) = None ->
    db_step d (mkDB us (blood_alerts d) (donor_responses d ++ [r])
                    (email_notifications d)).

(** The key under which [respond_to_alert] looks for an earlier response. *)
Definition response_key (r : DonorResponse.t) : string * string :=
  (DonorResponse.alert_id r, DonorResponse.donor_id r).

Definition one_response_per_pair (l : list DonorResponse.t) : Prop :=
  NoDup (map response_key l).

(** An alert with its expiry blanked. *)
Definition forget_expiry (a : BloodAlert.t) : BloodAlert.t :=
  BloodAlert.mk (BloodAlert.id a) (BloodAlert.hospital_id a)
    (BloodAlert.hospital_name a) (BloodAlert.blood_type a)
    (BloodAlert.units_needed a) (BloodAlert.urgency_level a)
    (BloodAlert.description a) (BloodAlert.location a) (BloodAlert.radius_km a)
    (BloodAlert.status a) (BloodAlert.created_at a) None.

Definition forget_expiry_db (d : DB) : DB :=
  mkDB (users d) (map forget_expiry (blood_alerts d)) (donor_responses d)
       (email_notifications d).

Definition forget_expiry_world (w : World) : World :=
  with_db (forget_expiry_db (db w)) w.

Definition forget_expiry_response (r : Response) : Response :=
  match r with
  | AlertResponse a => AlertResponse (forget_expiry a)
  | AlertsResponse l => AlertsResponse (map forget_expiry l)
  | _ => r
  end.

Definition map_result {A B} (f : A -> B) (r : result A) : result B :=
  match r with
  | Ok a => Ok (f a)
  | Raise e => Raise e
  end.

(** What is left of an outcome once every expiry in it is blanked: the
    status (success or the exception raised), the payload and the world. *)
Definition outcome_up_to_expiry (p : result Response * World)
  : result Response * World :=
  (map_result forget_expiry_response (fst p), forget_expiry_world (snd p)).

Definition handler_up_to_expiry {A} (g : A -> A) (p : result A * World)
  : result A * World :=
  (map_result g (fst p), forget_expiry_world (snd p)).

Definition initial_world : World :=
  mkWorld (mkDB [] [] [] []) sample_clock 0 sample_uuids 0
          sample_pwd_hash sample_pwd_verify ascii_upper.

Definition staff_registration : UserRegistration.t :=
  UserRegistration.mk "staff@general.example" "StaffPass1" "Sam Staff"
    "hospital_staff" None (Some "General Hospital") (Some "1 Main Street")
    None None None None None.

(** A donor whose last donation is long past. *)
Definition dana_registration : UserRegistration.t :=
  UserRegistration.mk "dana@mail.example" "DonorPass1" "Dana Donor" "donor"
    (Some "+1-555-0100") None None (Some "O+") (Some "Springfield")
    (Some (S754_finite false 5 3)) (Some (S754_finite true 9 3))
    (Some 1600000000000789).

(** A donor who registers without a last donation date. *)
Definition eli_registration : UserRegistration.t :=
  UserRegistration.mk "eli@mail.example" "DonorPass2" "Eli Donor" "donor"
    None None None (Some "O+") (Some "Springfield") None None None.

Definition staff_credentials : credentials :=
  Payload (Some "staff@general.example").
Definition dana_credentials : credentials := Payload (Some "dana@mail.example").
Definition eli_credentials : credentials := Payload (Some "eli@mail.example").

Definition alert_request : BloodAlertCreate.t :=
  BloodAlertCreate.mk "O+" 3 "critical" None (S754_finite false 25 0).

(** Three registrations and one alert; the alert gets the id "uuid-3". *)
Definition clinic_world : World :=
  run [POST_register staff_registration; POST_register dana_registration;
       POST_register eli_registration; POST_alerts staff_credentials alert_request]
      initial_world.

Definition staff_user : User.t :=
  User.mk "uuid-0" "staff@general.example" "Sam Staff" "hospital_staff" None
    (Some "General Hospital") (Some "1 Main Street") None None None None true
    1700000000123000.

Definition dana_user : User.t :=
  User.mk "uuid-1" "dana@mail.example" "Dana Donor" "donor"
    (Some "+1-555-0100") None None (Some "O+") (Some "Springfield")
    (Some (mkGeoJSON "Point" [Float (S754_finite true 9 3);
                              Float (S754_finite false 5 3)]))
    (Some 1600000000000000) true 1700000002123000.

Definition eli_user : User.t :=
  User.mk "uuid-2" "eli@mail.example" "Eli Donor" "donor" None None None
    (Some "O+") (Some "Springfield") None None true 1700000004123000.

Definition accept : DonorResponseCreate.t :=
  DonorResponseCreate.mk "available" (Some "On my way").

Definition maybe : DonorResponseCreate.t :=
  DonorResponseCreate.mk "maybe" None.

(** Dana has accepted the alert. *)
Definition accepted_world : World :=
  run [POST_respond dana_credentials "uuid-3" accept] clinic_world.

(** Eli has answered the alert with "maybe". *)
Definition maybe_world : World :=
  run [POST_respond eli_credentials "uuid-3" maybe] clinic_world.

(** The clinic, with the stored alert cancelled and long expired. *)
Definition stale_world : World :=
  with_db
    (mkDB (users (db clinic_world))
          (map (fun a =>
                  BloodAlert.mk (BloodAlert.id a) (BloodAlert.hospital_id a)
                    (BloodAlert.hospital_name a) (BloodAlert.blood_type a)
                    (BloodAlert.units_needed a) (BloodAlert.urgency_level a)
                    (BloodAlert.description a) (BloodAlert.location a)
                    (BloodAlert.radius_km a) "cancelled"
                    (BloodAlert.created_at a) (Some 0))
               (blood_alerts (db clinic_world)))
          (donor_responses (db clinic_world))
          (email_notifications (db clinic_world)))
    clinic_world.

(** The three registrations of the sample run, before any alert. *)
Definition registered_world : World :=
  run [POST_register staff_registration; POST_register dana_registration;
       POST_register eli_registration]
      initial_world.

(** The same world with every user moved to other coordinates. *)
Definition relocated_world : World :=
  with_db
    (mkDB (map (fun u =>
                  UserDoc.mk (UserDoc.email u) (UserDoc.password u)
                    (UserDoc.name u) (UserDoc.role u) (UserDoc.phone u)
                    (UserDoc.hospital_name u) (UserDoc.hospital_address u)
                    (UserDoc.blood_type u) (UserDoc.city u)
                    (Some (S754_finite true 33 0)) (Some (S754_finite false 151 0))
                    (UserDoc.last_donation_date u) (UserDoc.id u)
                    (UserDoc.created_at u) (UserDoc.is_available u)
                    (Some (mkGeoJSON "Point"
                             [Float (S754_finite false 151 0);
                              Float (S754_finite true 33 0)])))
               (users (db registered_world)))
          (blood_alerts (db registered_world))
          (donor_responses (db registered_world))
          (email_notifications (db registered_world)))
    registered_world.

Definition alert_with_radius (radius_km : spec_float) : BloodAlert.t :=
  BloodAlert.mk "alert-1" "uuid-0" "General Hospital" "O+" 3 "critical" None
    (mkGeoJSON "Point" [Int 0; Int 0]) radius_km "active" 1700000006123000
    (Some 1700007207123000).

(** The clinic with the expiry of its alert long past. *)
Definition expired_world : World :=
  with_db
    (mkDB (users (db clinic_world))
          (map (BloodAlert.set_expires_at 0) (blood_alerts (db clinic_world)))
          (donor_responses (db clinic_world))
          (email_notifications (db clinic_world)))
    clinic_world.

(** Every stored user id is a value the UUID source has already issued, and
    no two users share one. *)
Definition ids_issued (w : World) : Prop :=
  NoDup (map UserDoc.id (users (db w)))
  /\ Forall (fun u => exists k, (k < uuid_reads w)%nat
                                /\ UserDoc.id u = uuid_source w k)
            (users (db w)).

(** What a request may do to the user ids and to the UUID source. *)
Inductive ids_step (w w' : World) : Prop :=
| ids_kept :
    map UserDoc.id (users (db w')) = map UserDoc.id (users (db w)) ->
    uuid_source w' = uuid_source w ->
    (uuid_reads w <= uuid_reads w')%nat ->
    ids_step w w'
| ids_extended u :
    users (db w') = users (db w) ++ [u] ->
    UserDoc.id u = uuid_source w (uuid_reads w) ->
    uuid_source w' = uuid_source w ->
    (uuid_reads w < uuid_reads w')%nat ->
    ids_step w w'.

(** The dictionary [register] builds for [user_data] in [w]; the store keeps
    its encoding. *)
Definition registered_doc (user_data : UserRegistration.t) (w : World)
  : UserDoc.t :=
  UserDoc.mk (UserRegistration.email user_data)
    (pwd_hash w (UserRegistration.password user_data))
    (UserRegistration.name user_data) (UserRegistration.role user_data)
    (UserRegistration.phone user_data)
    (UserRegistration.hospital_name user_data)
    (UserRegistration.hospital_address user_data)
    (UserRegistration.blood_type user_data)
    (UserRegistration.city user_data)
    (UserRegistration.latitude user_data)
    (UserRegistration.longitude user_data)
    (field_of_option (UserRegistration.last_donation_date user_data))
    (uuid_source w (uuid_reads w)) (clock w (clock_reads w)) true
    (if String.eqb (UserRegistration.role user_data) "donor"
        && float_truthy (UserRegistration.latitude user_data)
        && float_truthy (UserRegistration.longitude user_data) then
       match UserRegistration.longitude user_data,
             UserRegistration.latitude user_data with
       | Some lon, Some lat => Some (mkGeoJSON "Point" [Float lon; Float lat])
       | _, _ => None
       end
     else None).

(** The world a successful [register] leaves. *)
Definition registered_world_of (user_data : UserRegistration.t) (w : World)
  : World :=
  mkWorld
    (mkDB (users (db w) ++ [bson_user (registered_doc user_data w)])
          (blood_alerts (db w)) (donor_responses (db w))
          (email_notifications (db w)))
    (clock w) (S (S (clock_reads w))) (uuid_source w) (S (uuid_reads w))
    (pwd_hash w) (pwd_verify w) (unicode_upper w).

(** The role-specific fields [register] insists on. *)
Definition role_fields_ok (user_data : UserRegistration.t) : bool :=
  if String.eqb (UserRegistration.role user_data) "hospital_staff" then
    str_truthy (UserRegistration.hospital_name user_data)
  else if String.eqb (UserRegistration.role user_data) "donor" then
    str_truthy (UserRegistration.blood_type user_data)
    && str_truthy (UserRegistration.city user_data)
  else false.

Definition email_query (email : string) (u : UserDoc.t) : bool :=
  String.eqb (UserDoc.email u) email.

(** A user document as [register] accepts it: a hospital-staff record with
    a hospital name, or a donor record with a blood type and a city. *)
Definition user_valid (u : UserDoc.t) : Prop :=
  (UserDoc.role u = "hospital_staff"
   /\ str_truthy (UserDoc.hospital_name u) = true)
  \/ (UserDoc.role u = "donor"
      /\ str_truthy (UserDoc.blood_type u) = true
      /\ str_truthy (UserDoc.city u) = true).

(** The response [r] was written for the stored donor [doc]. *)
Definition response_of (doc : UserDoc.t) (r : DonorResponse.t) : Prop :=
  DonorResponse.donor_id r = UserDoc.id doc
  /\ DonorResponse.donor_name r = UserDoc.name doc
  /\ DonorResponse.donor_email r = UserDoc.email doc
  /\ DonorResponse.donor_phone r = UserDoc.phone doc.

(** Everything a single request can do to the store of [w]. *)
Inductive api_step (w : World) : DB -> Prop :=
| api_read :
    api_step w (db w)
| api_register user_data :
    find_one (email_query (UserRegistration.email user_data)) (users (db w))
    = None ->
    role_fields_ok user_data = true ->
    api_step w (mkDB (users (db w) ++ [bson_user (registered_doc user_data w)])
                     (blood_alerts (db w)) (donor_responses (db w))
                     (email_notifications (db w)))
| api_alert doc a t ns :
    In doc (users (db w)) ->
    UserDoc.role doc = "hospital_staff" ->
    BloodAlert.hospital_id a = UserDoc.id doc ->
    BloodAlert.status a = "active" ->
    BloodAlert.id a = uuid_source w (uuid_reads w) ->
    notifies_exactly a
      (to_list 100 (find_all (donor_query (BloodAlert.blood_type a) t)
                             (users (db w))))
      ns ->
    Forall (fun n => MockEmailNotification.status n = "sent") ns ->
    api_step w (mkDB (users (db w)) (blood_alerts (db w) ++ [a])
                     (donor_responses (db w))
                     (email_notifications (db w) ++ ns))
| api_respond doc a r us :
    In doc (users (db w)) ->
    UserDoc.role doc = "donor" ->
    response_of doc r ->
    In a (blood_alerts (db w)) ->
    BloodAlert.id a = DonorResponse.alert_id r ->
    find_one (response_query (DonorResponse.alert_id r) (UserDoc.id doc))
             (donor_responses (db w)) = None ->
    (DonorResponse.response r <> "available" /\ us = users (db w)
     \/ exists now,
          DonorResponse.response r = "available"
          /\ us = update_one
                    (fun u => String.eqb (UserDoc.id u) (UserDoc.id doc))
                    (UserDoc.set_donation false now) (users (db w))) ->
    api_step w (mkDB us (blood_alerts (db w)) (donor_responses (db w) ++ [r])
                     (email_notifications (db w))).

(** The user [u] as it is rebuilt from the stored copy of its document:
    the two datetimes are cut to the millisecond. *)
Definition as_stored (u : User.t) : User.t :=
  User.mk (User.id u) (User.email u) (User.name u) (User.role u)
    (User.phone u) (User.hospital_name u) (User.hospital_address u)
    (User.blood_type u) (User.city u) (User.location u)
    (option_map bson_datetime (User.last_donation_date u))
    (User.is_available u) (bson_datetime (User.created_at u)).

(** The credentials a request carries, if its route is protected. *)
Definition credentials_of (r : Request) : option credentials :=
  match r with
  | POST_register _ | POST_login _ => None
  | GET_me c | POST_alerts c _ | GET_alerts c | GET_alert c _
  | POST_respond c _ _ | GET_alert_responses c _ | GET_dashboard_stats c
  | GET_mock_emails c => Some c
  end.

(** The request presents a bearer token. *)
Definition bearer (c : credentials) : bool :=
  match c with
  | NoCredentials | NotBearer => false
  | InvalidToken | Payload _ => true
  end.

(** The status with which credentials that are not accepted are refused. *)
Definition refusal_status (c : credentials) : Z :=
  if bearer c then 401 else 403.

(** Some stored user has the id [id] and the role [role]. *)
Definition stored_user_with (d : DB) (id role : string) : Prop :=
  exists u, In u (users d) /\ UserDoc.id u = id /\ UserDoc.role u = role.

(** Every alert is owned by a stored hospital-staff user. *)
Definition alerts_owned (d : DB) : Prop :=
  Forall (fun a => stored_user_with d (BloodAlert.hospital_id a)
                                    "hospital_staff")
         (blood_alerts d).

(** Every response answers a stored alert and was written by a stored
    donor, whose name, e-mail address and phone it carries. *)
Definition responses_linked (d : DB) : Prop :=
  Forall (fun r =>
            (exists a, In a (blood_alerts d)
                       /\ BloodAlert.id a = DonorResponse.alert_id r)
            /\ exists u, In u (users d) /\ UserDoc.role u = "donor"
                         /\ response_of u r)
         (donor_responses d).

(** Every notification is about a stored alert and addressed to a stored
    donor. *)
Definition notifications_linked (d : DB) : Prop :=
  Forall (fun n =>
            MockEmailNotification.status n = "sent"
            /\ (exists a, In a (blood_alerts d)
                          /\ BloodAlert.id a = MockEmailNotification.alert_id n)
            /\ exists u, In u (users d) /\ UserDoc.role u = "donor"
                         /\ UserDoc.email u = MockEmailNotification.to_email n
                         /\ UserDoc.name u = MockEmailNotification.to_name n)
         (email_notifications d).

(** Users are only added or rewritten by a donation: whoever was stored
    remains, up to the two fields of the donation. *)
Definition users_kept (us us' : list UserDoc.t) : Prop :=
  forall u, In u us -> exists u', In u' us' /\ same_but_donation u u'.

(** A user record the donor query can never select: its last donation date
    is stored as [null], or it is marked unavailable. *)
Definition never_matched (u : UserDoc.t) : Prop :=
  UserDoc.last_donation_date u = Null \/ UserDoc.is_available u = false.

(** Some user is stored under [email], and every such user is out of reach
    of the donor query. *)
Definition shielded (email : string) (d : DB) : Prop :=
  (exists u, In u (users d) /\ UserDoc.email u = email)
  /\ Forall (fun u => UserDoc.email u = email -> never_matched u) (users d).

Definition sent_to (email : string) (n : MockEmailNotification.t) : bool :=
  String.eqb (MockEmailNotification.to_email n) email.

(** The record [u'] is the record [u] as it was, or after a donation: the
    same but for [is_available], now false, and [last_donation_date], now a
    date. *)
Definition user_evolves (u u' : UserDoc.t) : Prop :=
  u' = u
  \/ (same_but_donation u u'
      /\ UserDoc.is_available u' = false
      /\ exists d, UserDoc.last_donation_date u' = Val d).

(** [l] is in descending order of [key]. *)
Definition newest_first {A} (key : A -> datetime) (l : list A) : Prop :=
  StronglySorted (fun x y => key y <= key x) l.

(** [res] is what a listing returns of the documents of [coll] satisfying
    [q] when it is cut at [n]: at most [n] of them, all satisfying [q],
    newest first, none of them older than any of the satisfying documents
    [rest] that were cut off, and nothing is cut off unless more than [n]
    documents satisfy [q]. *)
Definition listing_of {A} (n : nat) (key : A -> datetime) (q : A -> bool)
  (coll res : list A) : Prop :=
  (List.length res <= n)%nat
  /\ Forall (fun x => In x coll /\ q x = true) res
  /\ exists rest,
       Permutation (res ++ rest) (filter q coll)
       /\ newest_first key (res ++ rest)
       /\ ((List.length (filter q coll) <= n)%nat -> rest = []).

(** How often [k] occurs in [l]. *)
Definition occurrences (k : string) (l : list string) : Z :=
  Z.of_nat (List.length (filter (String.eqb k) l)).

(** The groups have distinct keys and positive counts. *)
Definition groups_ok (g : list (string * Z)) : Prop :=
  NoDup (map fst g) /\ Forall (fun kv => 0 < snd kv) g.

(** The stored responses to the alerts owned by the user [id]. *)
Definition responses_to_hospital (id : string) (d : DB)
  : list DonorResponse.t :=
  filter (fun r =>
            existsb (fun a => String.eqb (BloodAlert.hospital_id a) id)
                    (filter (fun a => String.eqb (BloodAlert.id a)
                                        (DonorResponse.alert_id r))
                            (blood_alerts d)))
         (donor_responses d).

(** The exceptions the handlers raise: an HTTP error with status 400, 401,
    403 or 404, the validation error of [create_blood_alert], or the
    overflow error of the store. *)
Definition api_error (e : exception) : Prop :=
  e = ValidationError
  \/ e = OverflowError
  \/ exists code detail,
       e = HTTPException code detail
       /\ (code = 400 \/ code = 401 \/ code = 403 \/ code = 404).

(** The world a request leaves when it fails with [e]: an HTTP error is
    raised before anything is drawn; the validation error of
    [create_blood_alert] after one UUID and one reading of the clock, the
    overflow error of the store after one UUID and two readings. *)
Definition failure_world (e : exception) (w : World) : World :=
  match e with
  | HTTPException _ _ => w
  | ValidationError => after_readings 1 1 w
  | OverflowError => after_readings 2 1 w
  end.

(** A registration under a role the system does not know. *)
Definition admin_registration : UserRegistration.t :=
  UserRegistration.mk "root@mail.example" "AdminPass1" "Ada Admin" "admin"
    None (Some "General Hospital") None (Some "O+") (Some "Springfield")
    None None None.

(** The sample run in full: three registrations, an alert, an acceptance. *)
Definition sample_requests : list Request :=
  [POST_register staff_registration; POST_register dana_registration;
   POST_register eli_registration; POST_alerts staff_credentials alert_request;
   POST_respond dana_credentials "uuid-3" accept].

(** The staff user and Dana are registered, Eli is not yet. *)
Definition two_users_world : World :=
  run [POST_register staff_registration; POST_register dana_registration]
      initial_world.

(** The second alert of the clinic, and the world it is created in. *)
Definition second_alert : BloodAlert.t :=
  created_alert alert_request staff_user "General Hospital" clinic_world.

Definition second_alert_world : World :=
  snd (create_blood_alert alert_request staff_user clinic_world).

(** A request for more units than 8 bytes can count. *)
Definition huge_request : BloodAlertCreate.t :=
  BloodAlertCreate.mk "O+" 9223372036854775808 "critical" None
    (S754_finite false 25 0).

(** Only the staff user is registered. *)
Definition one_user_world : World :=
  run [POST_register staff_registration] initial_world.

(** Dana as [register] returns her: the datetimes are those of the request
    and of the clock, to the microsecond. *)
Definition dana_as_registered : User.t :=
  User.mk "uuid-1" "dana@mail.example" "Dana Donor" "donor"
    (Some "+1-555-0100") None None (Some "O+") (Some "Springfield")
    (Some (mkGeoJSON "Point" [Float (S754_finite true 9 3);
                              Float (S754_finite false 5 3)]))
    (Some 1600000000000789) true 1700000002123456.

(** * Properties *)

Arguments email_body : simpl never.
Arguments email_subject : simpl never.
Arguments to_list : simpl never.
Arguments find_all : simpl never.
Arguments sort_desc : simpl never.
Arguments count_documents : simpl never.

(** ** Running the monad *)

Ltac unfold_monad :=
  unfold bind, ret, raise, get_db, modify_db, utcnow, uuid4, with_db,
    insert_user, insert_blood_alert, insert_donor_response,
    insert_email_notification, update_one_user, verify_password,
    get_password_hash, create_access_token in *.

Lemma world_eta (w : World) :
  mkWorld (db w) (clock w) (clock_reads w) (uuid_source w) (uuid_reads w)
          (pwd_hash w) (pwd_verify w) (unicode_upper w) = w.
Proof. destruct w; reflexivity. Qed.

Lemma db_eta (d : DB) :
  mkDB (users d) (blood_alerts d) (donor_responses d) (email_notifications d)
  = d.
Proof. destruct d; reflexivity. Qed.

(** ** The notification loop *)

Lemma for_each_send alert l :
  forall w,
    for_each l (fun donor_data =>
                  send_mock_email_notification (User.of_doc donor_data) alert) w
    = (Ok tt,
       mkWorld
         (mkDB (users (db w)) (blood_alerts (db w)) (donor_responses (db w))
               (email_notifications (db w)
                ++ sent_notifications (unicode_upper w) alert l (clock w)
                     (uuid_source w) (clock_reads w) (uuid_reads w)))
         (clock w) (clock_reads w + List.length l)
         (uuid_source w) (uuid_reads w + List.length l)
         (pwd_hash w) (pwd_verify w) (unicode_upper w)).
Proof.
  induction l as [|u l IH]; intro w.
  - simpl. rewrite app_nil_r, !Nat.add_0_r, db_eta, world_eta. reflexivity.
  - cbn [for_each]. unfold bind at 1.
    unfold send_mock_email_notification at 1. unfold str_upper.
    unfold_monad. simpl.
    rewrite IH. simpl.
    rewrite <- app_assoc. simpl.
    rewrite !Nat.add_succ_r. reflexivity.
Qed.

Lemma notify_matching_donors_eq alert w :
  notify_matching_donors alert w
  = (Ok tt,
     mkWorld
       (mkDB (users (db w)) (blood_alerts (db w)) (donor_responses (db w))
             (email_notifications (db w)
              ++ sent_notifications (unicode_upper w) alert
                   (matching_donors alert w) (clock w) (uuid_source w)
                   (S (clock_reads w)) (uuid_reads w)))
       (clock w) (S (clock_reads w) + List.length (matching_donors alert w))
       (uuid_source w) (uuid_reads w + List.length (matching_donors alert w))
       (pwd_hash w) (pwd_verify w) (unicode_upper w)).
Proof.
  unfold notify_matching_donors. unfold bind at 1. unfold utcnow at 1.
  unfold bind at 1. unfold get_db at 1. cbn [db].
  rewrite for_each_send. reflexivity.
Qed.

(** ** Who is notified *)

Lemma sent_notifications_addressed up alert clk uuids l :
  forall cr ur,
    notifies_exactly alert l (sent_notifications up alert l clk uuids cr ur).
Proof.
  induction l as [|u l IH]; intros cr ur; simpl.
  - constructor.
  - constructor.
    + repeat split.
    + apply IH.
Qed.

Lemma notifications_added_eq alert w :
  notifications_added alert w
  = sent_notifications (unicode_upper w) alert (matching_donors alert w)
      (clock w) (uuid_source w) (S (clock_reads w)) (uuid_reads w).
Proof.
  unfold notifications_added. rewrite notify_matching_donors_eq. simpl.
  rewrite skipn_app, skipn_all, Nat.sub_diag. reflexivity.
Qed.

Lemma donor_query_eligible blood_type now u :
  (donor_of_type blood_type u = true -> UserDoc.last_donation_date u <> Null) ->
  donor_query blood_type (now - timedelta_days 90) u
  = eligible_to_the_ms blood_type now u.
Proof.
  unfold donor_query, eligible_to_the_ms, donor_of_type. intro Hnull.
  destruct (String.eqb (UserDoc.role u) "donor"); simpl; [|reflexivity].
  destruct (opt_str_eqb (UserDoc.blood_type u) blood_type); simpl;
    [|reflexivity].
  destruct (UserDoc.is_available u); simpl; [|reflexivity].
  destruct (UserDoc.last_donation_date u); simpl;
    rewrite ?orb_false_r; try reflexivity.
  exfalso. apply Hnull; reflexivity.
Qed.

Lemma filter_ext_Forall {A} (p q : A -> bool) (P : A -> Prop) l :
  (forall x, P x -> p x = q x) -> Forall P l -> filter p l = filter q l.
Proof.
  intros Hpq Hl. induction Hl as [|x l Hx Hl IH]; simpl.
  - reflexivity.
  - rewrite (Hpq x Hx), IH. reflexivity.
Qed.

(** C1, as stated, fails: with 101 eligible donors in the store only 100
    notifications are written, so one eligible donor gets none. *)
Lemma notify_matching_donors_not_every_eligible :
  ~ notifies_exactly alert_O_pos
      (filter (eligible (BloodAlert.blood_type alert_O_pos)
                        (clock crowded_world (clock_reads crowded_world)))
              (users (db crowded_world)))
      (notifications_added alert_O_pos crowded_world).
Proof.
  intro H. apply Forall2_length in H. vm_compute in H. discriminate H.
Qed.

(** C1 (amended): [notify_matching_donors] returns, and the notifications it
    appends are exactly one (with the alert's id) for each of the first 100
    eligible users in collection order, and none for anybody else, where the
    threshold of the last donation date is 90 days before the current time
    cut to the millisecond, in every store whose available donors of the
    alert's blood type have their last donation date either absent or set to
    a date. *)
Theorem notify_matching_donors_first_100 (alert : BloodAlert.t) (w : World) :
  Forall (fun u => donor_of_type (BloodAlert.blood_type alert) u = true ->
                   UserDoc.last_donation_date u <> Null)
         (users (db w)) ->
  exists w' ns,
    notify_matching_donors alert w = (Ok tt, w')
    /\ email_notifications (db w') = email_notifications (db w) ++ ns
    /\ notifies_exactly alert
         (to_list 100
            (filter (eligible_to_the_ms (BloodAlert.blood_type alert)
                                        (clock w (clock_reads w)))
                    (users (db w))))
         ns.
Proof.
  intro Hnull. rewrite notify_matching_donors_eq.
  eexists. eexists. split; [reflexivity|]. split; [reflexivity|].
  unfold matching_donors, find_all.
  rewrite (filter_ext_Forall
             (donor_query (BloodAlert.blood_type alert)
                          (clock w (clock_reads w) - timedelta_days 90))
             (eligible_to_the_ms (BloodAlert.blood_type alert)
                                 (clock w (clock_reads w)))
             _ _ (donor_query_eligible _ _) Hnull).
  apply sent_notifications_addressed.
Qed.

Lemma notify_matching_donors_first_100_witness :
  exists w' ns,
    notify_matching_donors alert_O_pos two_donor_world = (Ok tt, w')
    /\ email_notifications (db w')
       = email_notifications (db two_donor_world) ++ ns
    /\ notifies_exactly alert_O_pos
         (to_list 100
            (filter (eligible_to_the_ms (BloodAlert.blood_type alert_O_pos)
                       (clock two_donor_world (clock_reads two_donor_world)))
                    (users (db two_donor_world))))
         ns.
Proof.
  apply (notify_matching_donors_first_100 alert_O_pos two_donor_world).
  vm_compute.
  repeat (apply Forall_cons;
          [intros H H'; first [discriminate H | discriminate H'] |]).
  apply Forall_nil.
Defined.

(** The donor's last donation is strictly earlier than 90 days before the
    current time, yet no notification is written: the query compares with the
    threshold cut to the millisecond. *)
Example threshold_is_cut_to_the_ms :
  forallb (eligible "O+" (clock boundary_world (clock_reads boundary_world)))
          (users (db boundary_world)) = true
  /\ notifications_added alert_O_pos boundary_world = [].
Proof. split; vm_compute; reflexivity. Qed.

(** ** [respond_to_alert], case by case *)

Lemma respond_to_alert_outcome alert_id rd cu w :
  respond_outcome alert_id rd cu w (respond_to_alert alert_id rd cu w).
Proof.
  unfold respond_to_alert.
  destruct (String.eqb (User.role cu) "donor") eqn:Hrole; simpl.
  - apply String.eqb_eq in Hrole.
    unfold bind at 1. unfold get_db at 1.
    fold (alert_query alert_id). fold (response_query alert_id (User.id cu)).
    destruct (find_one (alert_query alert_id) (blood_alerts (db w)))
      as [a|] eqn:Ha.
    + destruct (find_one (response_query alert_id (User.id cu))
                         (donor_responses (db w))) as [r|] eqn:Hr.
      * eapply respond_duplicate; eassumption.
      * replace (_ w) with
          (Ok ("Response recorded successfully", new_response alert_id rd cu w),
           responded_world alert_id rd cu w).
        { eapply respond_recorded; eassumption. }
        unfold responded_world, new_response. unfold_monad. simpl.
        destruct (String.eqb (DonorResponseCreate.response rd) "available");
          reflexivity.
    + apply respond_not_found; assumption.
  - apply String.eqb_neq in Hrole. apply respond_forbidden; assumption.
Qed.

Lemma respond_to_alert_ok_inv alert_id rd cu w p w' :
  respond_to_alert alert_id rd cu w = (Ok p, w') ->
  User.role cu = "donor"
  /\ (exists a, find_one (alert_query alert_id) (blood_alerts (db w)) = Some a)
  /\ find_one (response_query alert_id (User.id cu)) (donor_responses (db w))
     = None
  /\ p = ("Response recorded successfully", new_response alert_id rd cu w)
  /\ w' = responded_world alert_id rd cu w.
Proof.
  intro H. pose proof (respond_to_alert_outcome alert_id rd cu w) as Ho.
  rewrite H in Ho. inversion Ho; subst. eauto 10.
Qed.

Lemma respond_to_alert_ok alert_id rd cu w a :
  User.role cu = "donor" ->
  find_one (alert_query alert_id) (blood_alerts (db w)) = Some a ->
  find_one (response_query alert_id (User.id cu)) (donor_responses (db w))
  = None ->
  respond_to_alert alert_id rd cu w
  = (Ok ("Response recorded successfully", new_response alert_id rd cu w),
     responded_world alert_id rd cu w).
Proof.
  intros Hrole Ha Hr.
  pose proof (respond_to_alert_outcome alert_id rd cu w) as Ho.
  inversion Ho; try congruence.
Qed.

(** ** Lookups and [update_one] *)

Lemma get_current_user_ok_inv c w cu w' :
  get_current_user c w = (Ok cu, w') ->
  w' = w
  /\ exists email doc,
       c = Payload (Some email)
       /\ find_one (fun u => String.eqb (UserDoc.email u) email) (users (db w))
          = Some doc
       /\ cu = User.of_doc doc.
Proof.
  unfold get_current_user. destruct c as [| | |[email|]]; unfold_monad; simpl;
    try discriminate.
  destruct (find_one _ (users (db w))) as [doc|] eqn:Hdoc; simpl;
    try discriminate.
  intro H. inversion H; subst. split; [reflexivity|].
  exists email, doc. auto.
Qed.

Lemma get_current_user_world c w : snd (get_current_user c w) = w.
Proof.
  unfold get_current_user. destruct c as [| | |[email|]]; unfold_monad; simpl;
    try reflexivity.
  destruct (find_one _ (users (db w))); reflexivity.
Qed.

Lemma find_split {A} (q : A -> bool) l x :
  find q l = Some x ->
  exists l1 l2, l = l1 ++ x :: l2 /\ q x = true
                /\ Forall (fun y => q y = false) l1.
Proof.
  induction l as [|y l IH]; simpl; [discriminate|].
  destruct (q y) eqn:Hy.
  - intro H. inversion H; subst. exists [], l. auto.
  - intro H. destruct (IH H) as (l1 & l2 & -> & Hx & Hl1).
    exists (y :: l1), l2. auto.
Qed.

Lemma update_one_skip {A} (q : A -> bool) upd l1 l2 :
  Forall (fun y => q y = false) l1 ->
  update_one q upd (l1 ++ l2) = l1 ++ update_one q upd l2.
Proof.
  induction 1 as [|y l1 Hy _ IH]; simpl; [reflexivity|].
  rewrite Hy, IH. reflexivity.
Qed.

Lemma unique_id_before l1 doc l2 :
  NoDup (map UserDoc.id (l1 ++ doc :: l2)) ->
  Forall (fun y => String.eqb (UserDoc.id y) (UserDoc.id doc) = false) l1.
Proof.
  rewrite map_app. simpl. intro Hnd.
  apply Forall_forall. intros y Hy.
  apply String.eqb_neq. intro Heq.
  apply NoDup_remove_2 in Hnd. apply Hnd.
  apply in_or_app. left. rewrite <- Heq. apply in_map. exact Hy.
Qed.

(** With distinct ids, the update of [respond_to_alert] rewrites the record
    found under the donor's e-mail address and nothing else. *)
Lemma update_donor_record email doc upd l :
  NoDup (map UserDoc.id l) ->
  find_one (fun u => String.eqb (UserDoc.email u) email) l = Some doc ->
  exists l1 l2,
    l = l1 ++ doc :: l2
    /\ update_one (fun u => String.eqb (UserDoc.id u) (UserDoc.id doc)) upd l
       = l1 ++ upd doc :: l2
    /\ Forall (fun y => String.eqb (UserDoc.email y) email = false) l1
    /\ Forall (fun y => String.eqb (UserDoc.id y) (UserDoc.id doc) = false) l1
    /\ UserDoc.email doc = email.
Proof.
  intros Hnd Hfind.
  destruct (find_split _ _ _ Hfind) as (l1 & l2 & -> & Hdoc & Hl1).
  pose proof (unique_id_before _ _ _ Hnd) as Hid.
  exists l1, l2. split; [reflexivity|]. split.
  - rewrite update_one_skip by assumption.
    simpl. rewrite String.eqb_refl. reflexivity.
  - repeat split; try assumption. apply String.eqb_eq. assumption.
Qed.

Lemma find_after {A} (q : A -> bool) l1 x l2 :
  Forall (fun y => q y = false) l1 -> q x = true ->
  find q (l1 ++ x :: l2) = Some x.
Proof.
  induction 1 as [|y l1 Hy _ IH]; simpl; intro Hx.
  - rewrite Hx. reflexivity.
  - rewrite Hy. apply IH, Hx.
Qed.

(** ** Effects of a recorded response *)

(** C3: when a donor's [respond_to_alert] call succeeds with the response
    value "available", the donor's stored user record (the one under the
    donor's id, which is also the one the donor's credentials resolve to)
    has [is_available] false afterwards. *)
Theorem available_response_clears_availability
  (c : credentials) (alert_id : string) (rd : DonorResponseCreate.t)
  (cu : User.t) (p : string * DonorResponse.t) (w w' : World) :
  NoDup (map UserDoc.id (users (db w))) ->
  get_current_user c w = (Ok cu, w) ->
  DonorResponseCreate.response rd = "available" ->
  respond_to_alert alert_id rd cu w = (Ok p, w') ->
  exists doc',
    find_one (fun u => String.eqb (UserDoc.id u) (User.id cu)) (users (db w'))
    = Some doc'
    /\ get_current_user c w' = (Ok (User.of_doc doc'), w')
    /\ UserDoc.is_available doc' = false.
Proof.
  intros Hnd Hcu Havail Hresp.
  apply get_current_user_ok_inv in Hcu.
  destruct Hcu as (_ & email & doc & -> & Hfind & ->).
  apply respond_to_alert_ok_inv in Hresp.
  destruct Hresp as (_ & _ & _ & _ & ->).
  unfold responded_world. rewrite Havail. simpl.
  destruct (update_donor_record email doc
              (UserDoc.set_donation false
                 (bson_datetime (clock w (S (clock_reads w)))))
              _ Hnd Hfind)
    as (l1 & l2 & Hl & Hupd & Hemail & Hid & Hdoc).
  exists (UserDoc.set_donation false
            (bson_datetime (clock w (S (clock_reads w)))) doc).
  rewrite Hupd. split; [|split].
  - apply find_after; [assumption|]. simpl. apply String.eqb_refl.
  - unfold get_current_user, find_one. unfold_monad. simpl.
    rewrite find_after; [reflexivity|assumption|].
    simpl. apply String.eqb_eq. assumption.
  - reflexivity.
Qed.

Lemma bson_datetime_bounds (t : datetime) :
  t - 1000 < bson_datetime t <= t.
Proof.
  unfold bson_datetime.
  pose proof (Z.mul_div_le t 1000 ltac:(lia)).
  pose proof (Z.mul_succ_div_gt t 1000 ltac:(lia)).
  lia.
Qed.

Lemma bson_datetime_mono (s t : datetime) :
  s <= t -> bson_datetime s <= bson_datetime t.
Proof.
  intro H. unfold bson_datetime.
  apply Z.mul_le_mono_nonneg_l; [lia|]. apply Z.div_le_mono; lia.
Qed.

Lemma bson_datetime_idem (t : datetime) :
  bson_datetime (bson_datetime t) = bson_datetime t.
Proof.
  unfold bson_datetime. rewrite (Z.mul_comm 1000 (t / 1000)).
  rewrite Z.div_mul by lia. apply Z.mul_comm.
Qed.

(** C8: a successful [respond_to_alert] leaves the alerts as they are; with
    the value "available" it rewrites exactly the responding donor's record,
    setting [is_available] to false and [last_donation_date] to the time read
    for the update, as the store keeps it (cut to the millisecond, so less
    than a millisecond before the reading), and keeping every other field,
    which fails the recency clause of the donor query for the next 90 days;
    every other user record is unchanged; with any other value no user record
    changes at all. *)
Theorem respond_to_alert_frame
  (c : credentials) (alert_id : string) (rd : DonorResponseCreate.t)
  (cu : User.t) (p : string * DonorResponse.t) (w w' : World) :
  NoDup (map UserDoc.id (users (db w))) ->
  get_current_user c w = (Ok cu, w) ->
  respond_to_alert alert_id rd cu w = (Ok p, w') ->
  blood_alerts (db w') = blood_alerts (db w)
  /\ (DonorResponseCreate.response rd <> "available" ->
      users (db w') = users (db w))
  /\ (DonorResponseCreate.response rd = "available" ->
      let now := clock w (S (clock_reads w)) in
      exists before doc doc' after,
        users (db w) = before ++ doc :: after
        /\ users (db w') = before ++ doc' :: after
        /\ UserDoc.id doc = User.id cu
        /\ UserDoc.email doc = User.email cu
        /\ UserDoc.is_available doc' = false
        /\ UserDoc.last_donation_date doc' = Val (bson_datetime now)
        /\ now - 1000 < bson_datetime now <= now
        /\ same_but_donation doc doc'
        /\ forall blood_type query_time,
             query_time <= now + timedelta_days 90 ->
             recency_clause query_time doc' = false
             /\ donor_query blood_type (query_time - timedelta_days 90) doc'
                = false).
Proof.
  intros Hnd Hcu Hresp.
  apply get_current_user_ok_inv in Hcu.
  destruct Hcu as (_ & email & doc & -> & Hfind & ->).
  apply respond_to_alert_ok_inv in Hresp.
  destruct Hresp as (_ & _ & _ & _ & ->).
  unfold responded_world.
  destruct (String.eqb (DonorResponseCreate.response rd) "available") eqn:Hav;
    simpl.
  - apply String.eqb_eq in Hav. split; [reflexivity|]. split; [congruence|].
    intros _.
    destruct (update_donor_record email doc
                (UserDoc.set_donation false
                   (bson_datetime (clock w (S (clock_reads w)))))
                _ Hnd Hfind)
      as (l1 & l2 & Hl & Hupd & _ & _ & Hdoc).
    exists l1, doc,
      (UserDoc.set_donation false
         (bson_datetime (clock w (S (clock_reads w)))) doc), l2.
    rewrite Hupd. repeat split; try assumption;
      try apply bson_datetime_bounds.
    + unfold recency_clause. simpl. rewrite orb_false_r.
      apply Z.ltb_ge. apply bson_datetime_mono. lia.
    + unfold donor_query. simpl.
      rewrite andb_false_r. reflexivity.
  - apply String.eqb_neq in Hav. split; [reflexivity|].
    split; [reflexivity|]. intro; contradiction.
Qed.

(** [respond_to_alert] accepts any response string.  Once
    the role, alert and duplicate checks pass it appends a [DonorResponse]
    carrying the string as given, and it touches the user records only when
    the string is exactly "available". *)
Lemma respond_to_alert_any_string
  (alert_id : string) (rd : DonorResponseCreate.t) (cu : User.t)
  (a : BloodAlert.t) (w : World) :
  User.role cu = "donor" ->
  find_one (alert_query alert_id) (blood_alerts (db w)) = Some a ->
  find_one (response_query alert_id (User.id cu)) (donor_responses (db w))
  = None ->
  exists msg r w',
    respond_to_alert alert_id rd cu w = (Ok (msg, r), w')
    /\ DonorResponse.response r = DonorResponseCreate.response rd
    /\ donor_responses (db w')
       = donor_responses (db w) ++ [bson_donor_response r]
    /\ DonorResponse.response (bson_donor_response r)
       = DonorResponseCreate.response rd
    /\ (DonorResponseCreate.response rd <> "available" ->
        users (db w') = users (db w))
    /\ (DonorResponseCreate.response rd = "available" ->
        users (db w')
        = update_one (fun u => String.eqb (UserDoc.id u) (User.id cu))
            (UserDoc.set_donation false
               (bson_datetime (clock w (S (clock_reads w)))))
            (users (db w))).
Proof.
  intros Hrole Ha Hr. do 3 eexists.
  split; [eapply respond_to_alert_ok; eassumption|].
  unfold responded_world.
  destruct (String.eqb (DonorResponseCreate.response rd) "available") eqn:Hav;
    simpl.
  - apply String.eqb_eq in Hav. repeat split; congruence.
  - apply String.eqb_neq in Hav. repeat split; congruence.
Qed.

(** ** [create_blood_alert] *)

Lemma create_blood_alert_eq alert_data cu w :
  create_blood_alert alert_data cu w
  = if negb (String.eqb (User.role cu) "hospital_staff") then
      (Raise (HTTPException 403 "Only hospital staff can create alerts"), w)
    else
      match User.hospital_name cu with
      | None => (Raise ValidationError, after_readings 1 1 w)
      | Some h =>
          let a := created_alert alert_data cu h w in
          if bson_int_ok (BloodAlertCreate.units_needed alert_data) then
            (Ok a, snd (notify_matching_donors a (alert_inserted a w)))
          else (Raise OverflowError, after_readings 2 1 w)
      end.
Proof.
  unfold create_blood_alert.
  destruct (negb (String.eqb (User.role cu) "hospital_staff"));
    [reflexivity|].
  destruct (User.hospital_name cu) as [h|]; [|reflexivity].
  unfold created_alert, alert_inserted, after_readings, expiry_hours.
  destruct (String.eqb (BloodAlertCreate.urgency_level alert_data) "critical");
    [|destruct (String.eqb (BloodAlertCreate.urgency_level alert_data) "high")];
    unfold_monad; simpl;
    destruct (bson_int_ok (BloodAlertCreate.units_needed alert_data));
    simpl; rewrite ?notify_matching_donors_eq; reflexivity.
Qed.

Lemma create_blood_alert_db alert_data cu w r w' :
  create_blood_alert alert_data cu w = (r, w') ->
  (db w' = db w /\ exists e, r = Raise e)
  \/ exists h ns,
       User.role cu = "hospital_staff"
       /\ User.hospital_name cu = Some h
       /\ bson_int_ok (BloodAlertCreate.units_needed alert_data) = true
       /\ r = Ok (created_alert alert_data cu h w)
       /\ db w'
          = mkDB (users (db w))
                 (blood_alerts (db w)
                  ++ [bson_blood_alert (created_alert alert_data cu h w)])
                 (donor_responses (db w))
                 (email_notifications (db w) ++ ns).
Proof.
  rewrite create_blood_alert_eq.
  destruct (String.eqb (User.role cu) "hospital_staff") eqn:Hrole; simpl.
  - destruct (User.hospital_name cu) as [h|] eqn:Hh.
    + destruct (bson_int_ok (BloodAlertCreate.units_needed alert_data))
        eqn:Hunits.
      * rewrite notify_matching_donors_eq. simpl.
        intro H. inversion H; subst. right.
        apply String.eqb_eq in Hrole. exists h. eexists.
        split; [assumption|]. split; [reflexivity|].
        split; [reflexivity|]. split; reflexivity.
      * intro H. inversion H; subst. left. eauto.
    + intro H. inversion H; subst. left. eauto.
  - intro H. inversion H; subst. left. eauto.
Qed.

(** C5: for a hospital user and a number of units the store can hold,
    [create_blood_alert] returns and stores an alert whose [expires_at] is
    the time read when the expiry is set plus 2 hours for "critical", 6 hours
    for "high" and 24 hours for every other urgency level; the stored copy
    has that very time cut to the millisecond. *)
Theorem create_blood_alert_expiry
  (alert_data : BloodAlertCreate.t) (cu : User.t) (h : string) (w : World) :
  User.role cu = "hospital_staff" ->
  User.hospital_name cu = Some h ->
  bson_int_ok (BloodAlertCreate.units_needed alert_data) = true ->
  exists a w',
    create_blood_alert alert_data cu w = (Ok a, w')
    /\ (exists ns, blood_alerts (db w')
                   = blood_alerts (db w) ++ [bson_blood_alert a]
                   /\ email_notifications (db w')
                      = email_notifications (db w) ++ ns)
    /\ BloodAlert.expires_at a
       = Some (clock w (S (clock_reads w))
               + timedelta_hours
                   (if String.eqb (BloodAlertCreate.urgency_level alert_data)
                                  "critical" then 2
                    else if String.eqb
                              (BloodAlertCreate.urgency_level alert_data)
                              "high" then 6
                    else 24))
    /\ BloodAlert.expires_at (bson_blood_alert a)
       = option_map bson_datetime (BloodAlert.expires_at a)
    /\ BloodAlert.created_at a = clock w (clock_reads w).
Proof.
  intros Hrole Hh Hunits.
  destruct (create_blood_alert alert_data cu w) as [r w'] eqn:Hc.
  destruct (create_blood_alert_db _ _ _ _ _ Hc)
    as [[_ [e ->]] | (h' & ns & _ & Hh' & _ & -> & Hdb)].
  - rewrite create_blood_alert_eq, Hrole, Hh, Hunits in Hc. simpl in Hc.
    discriminate Hc.
  - exists (created_alert alert_data cu h' w), w'.
    split; [reflexivity|]. rewrite Hdb. simpl. split; [eauto|].
    split; [reflexivity|]. split; reflexivity.
Qed.

(** ** [get_alert_details] *)

Lemma find_some_iff {A} (q : A -> bool) l :
  (exists x, find q l = Some x) <-> (exists x, In x l /\ q x = true).
Proof.
  split.
  - intros [x Hx]. exists x. apply find_some in Hx. exact Hx.
  - intros [x [Hin Hq]]. destruct (find q l) as [y|] eqn:Hf; [eauto|].
    pose proof (find_none _ _ Hf x Hin) as Hn. congruence.
Qed.

(** C10: [get_alert_details] checks neither role nor ownership.  Its result
    is the same for every current user; for the id of any stored alert it
    returns the stored alert with that id and leaves the world as it is;
    and it raises, with status 404, exactly when no stored alert has the
    id.  Through the API this holds for every authenticated caller. *)
Theorem get_alert_details_any_user (alert_id : string) (w : World) :
  (forall cu cu',
     get_alert_details alert_id cu w = get_alert_details alert_id cu' w)
  /\ (forall cu,
        (exists a, In a (blood_alerts (db w)) /\ BloodAlert.id a = alert_id) ->
        exists a,
          get_alert_details alert_id cu w = (Ok a, w)
          /\ In a (blood_alerts (db w)) /\ BloodAlert.id a = alert_id)
  /\ (forall cu e,
        fst (get_alert_details alert_id cu w) = Raise e ->
        e = HTTPException 404 "Alert not found"
        /\ forall a, In a (blood_alerts (db w)) -> BloodAlert.id a <> alert_id)
  /\ (forall c cu,
        get_current_user c w = (Ok cu, w) ->
        (exists a, In a (blood_alerts (db w)) /\ BloodAlert.id a = alert_id) ->
        exists a,
          handle (GET_alert c alert_id) w = (Ok (AlertResponse a), w)
          /\ In a (blood_alerts (db w)) /\ BloodAlert.id a = alert_id).
Proof.
  assert (Hfound : forall cu,
            (exists a, In a (blood_alerts (db w))
                       /\ BloodAlert.id a = alert_id) ->
            exists a,
              get_alert_details alert_id cu w = (Ok a, w)
              /\ In a (blood_alerts (db w)) /\ BloodAlert.id a = alert_id).
  { intros cu [a [Hin Hid]].
    destruct (proj2 (find_some_iff (alert_query alert_id) (blood_alerts (db w))))
      as [a' Ha'].
    { exists a. split; [assumption|]. apply String.eqb_eq. assumption. }
    exists a'. unfold get_alert_details. unfold_monad.
    fold (alert_query alert_id). unfold find_one. rewrite Ha'.
    apply find_some in Ha'. destruct Ha' as [Hin' Hq'].
    apply String.eqb_eq in Hq'. auto. }
  split; [reflexivity|]. split; [exact Hfound|]. split.
  - intros cu e. unfold get_alert_details. unfold_monad.
    fold (alert_query alert_id). unfold find_one.
    destruct (find (alert_query alert_id) (blood_alerts (db w))) as [a|] eqn:Hf;
      simpl; [discriminate|].
    intro H. inversion H; subst. split; [reflexivity|].
    intros a Hin Hid. pose proof (find_none _ _ Hf a Hin) as Hn.
    apply String.eqb_neq in Hn. contradiction.
  - intros c cu Hcu Hex. destruct (Hfound cu Hex) as (a & Ha & Hin & Hid).
    exists a. unfold handle. unfold bind at 1. rewrite Hcu.
    unfold bind at 1. rewrite Ha. auto.
Qed.

(** ** Matching ignores coordinates and radius *)

Lemma map_filter_commute {A} (f : A -> A) (q : A -> bool) l :
  (forall x, q (f x) = q x) ->
  map f (filter q l) = filter q (map f l).
Proof.
  intro Hq. induction l as [|x l IH]; simpl; [reflexivity|].
  rewrite Hq. destruct (q x); simpl; rewrite IH; reflexivity.
Qed.

Lemma map_firstn {A B} (f : A -> B) n l :
  map f (firstn n l) = firstn n (map f l).
Proof.
  revert l. induction n as [|n IH]; intros [|x l]; simpl; try reflexivity.
  rewrite IH. reflexivity.
Qed.

Lemma sent_notifications_forget up a clk uuids l :
  forall cr ur,
    sent_notifications up a l clk uuids cr ur
    = sent_notifications up (forget_radius a) (map forget_location l)
        clk uuids cr ur.
Proof.
  induction l as [|u l IH]; intros cr ur; simpl; [reflexivity|].
  rewrite IH. reflexivity.
Qed.

Lemma matching_donors_forget a w :
  map forget_location (matching_donors a w)
  = to_list 100
      (find_all (donor_query (BloodAlert.blood_type (forget_radius a))
                             (clock w (clock_reads w) - timedelta_days 90))
                (map forget_location (users (db w)))).
Proof.
  unfold matching_donors, to_list, find_all.
  rewrite map_firstn, map_filter_commute; reflexivity.
Qed.

(** C6: every alert [create_blood_alert] returns is located at the GeoJSON
    point [0, 0]; and [notify_matching_donors] selects the same donors and
    writes the same notifications in two worlds that differ only in the
    coordinate keys of the user documents, for two alerts that differ only in
    [radius_km]. *)
Theorem matching_ignores_location :
  (forall alert_data cu w a w',
     create_blood_alert alert_data cu w = (Ok a, w') ->
     BloodAlert.location a = mkGeoJSON "Point" [Int 0; Int 0])
  /\ (forall a1 a2 w1 w2,
        forget_radius a1 = forget_radius a2 ->
        map forget_location (users (db w1))
        = map forget_location (users (db w2)) ->
        email_notifications (db w1) = email_notifications (db w2) ->
        clock w1 = clock w2 -> clock_reads w1 = clock_reads w2 ->
        uuid_source w1 = uuid_source w2 -> uuid_reads w1 = uuid_reads w2 ->
        unicode_upper w1 = unicode_upper w2 ->
        map forget_location (matching_donors a1 w1)
        = map forget_location (matching_donors a2 w2)
        /\ notifications_added a1 w1 = notifications_added a2 w2
        /\ email_notifications (db (snd (notify_matching_donors a1 w1)))
           = email_notifications (db (snd (notify_matching_donors a2 w2)))).
Proof.
  split.
  - intros alert_data cu w a w' Hc.
    destruct (create_blood_alert_db _ _ _ _ _ Hc)
      as [[_ [e He]] | (h & ns & _ & _ & _ & Ha & _)]; [discriminate|].
    inversion Ha; subst. reflexivity.
  - intros a1 a2 w1 w2 Ha Hu He Hc Hcr Hs Hur Hup.
    assert (Hm : map forget_location (matching_donors a1 w1)
                 = map forget_location (matching_donors a2 w2)).
    { rewrite !matching_donors_forget. rewrite Ha, Hu, Hc, Hcr. reflexivity. }
    assert (Hn : notifications_added a1 w1 = notifications_added a2 w2).
    { rewrite !notifications_added_eq.
      rewrite (sent_notifications_forget _ a1),
        (sent_notifications_forget _ a2).
      rewrite Ha, Hm, Hc, Hcr, Hs, Hur, Hup. reflexivity. }
    split; [exact Hm|]. split; [exact Hn|].
    rewrite !notify_matching_donors_eq. simpl.
    rewrite <- !notifications_added_eq. rewrite He, Hn. reflexivity.
Qed.

(** ** One request at a time: what a handler may do to the store *)

Lemma register_db user_data w :
  db (snd (register user_data w)) = db w
  \/ exists u,
       db (snd (register user_data w))
       = mkDB (users (db w) ++ [u]) (blood_alerts (db w))
              (donor_responses (db w)) (email_notifications (db w)).
Proof.
  unfold register. unfold_monad. cbv beta.
  destruct (find_one _ (users (db w))); [left; reflexivity|].
  destruct (String.eqb (UserRegistration.role user_data) "hospital_staff").
  - destruct (negb (str_truthy (UserRegistration.hospital_name user_data)));
      [left; reflexivity|].
    right. simpl. eexists. reflexivity.
  - destruct (String.eqb (UserRegistration.role user_data) "donor");
      [|left; reflexivity].
    destruct (negb (str_truthy (UserRegistration.blood_type user_data))
              || negb (str_truthy (UserRegistration.city user_data)));
      [left; reflexivity|].
    right. simpl. eexists. reflexivity.
Qed.

Lemma login_db login_data w : db (snd (login login_data w)) = db w.
Proof.
  unfold login. unfold_monad. simpl.
  destruct (find_one _ (users (db w))) as [user|]; [|reflexivity].
  simpl. destruct (pwd_verify w _ _); reflexivity.
Qed.

Lemma get_blood_alerts_world cu w : snd (get_blood_alerts cu w) = w.
Proof.
  unfold get_blood_alerts. unfold_monad. simpl.
  destruct (String.eqb (User.role cu) "hospital_staff"); reflexivity.
Qed.

Lemma get_alert_details_world alert_id cu w :
  snd (get_alert_details alert_id cu w) = w.
Proof.
  unfold get_alert_details. unfold_monad. simpl.
  destruct (find_one _ (blood_alerts (db w))); reflexivity.
Qed.

Lemma get_alert_responses_world alert_id cu w :
  snd (get_alert_responses alert_id cu w) = w.
Proof.
  unfold get_alert_responses. unfold_monad.
  destruct (negb (String.eqb (User.role cu) "hospital_staff"));
    [reflexivity|].
  simpl. destruct (find_one _ (blood_alerts (db w))); reflexivity.
Qed.

Lemma get_dashboard_stats_world cu w : snd (get_dashboard_stats cu w) = w.
Proof.
  unfold get_dashboard_stats. unfold_monad. simpl.
  destruct (String.eqb (User.role cu) "hospital_staff"); reflexivity.
Qed.

Lemma get_mock_emails_world cu w : snd (get_mock_emails cu w) = w.
Proof.
  unfold get_mock_emails. unfold_monad. simpl.
  destruct (String.eqb (User.role cu) "donor"); reflexivity.
Qed.

(** A handler behind [Depends(get_current_user)]: either authentication
    fails and the world is untouched, or the handler runs in that world. *)
Lemma authenticated_world {A B} c (k : User.t -> M A) (f : A -> B) w :
  snd ((current_user <- get_current_user c ;;
        x <- k current_user ;; ret (f x)) w) = w
  \/ exists cu,
       get_current_user c w = (Ok cu, w)
       /\ snd ((current_user <- get_current_user c ;;
                x <- k current_user ;; ret (f x)) w) = snd (k cu w).
Proof.
  pose proof (get_current_user_world c w) as Hw.
  unfold bind, ret.
  destruct (get_current_user c w) as [[cu|e] w1]; simpl in Hw; subst w1.
  - right. exists cu. split; [reflexivity|].
    destruct (k cu w) as [[x|e] w2]; reflexivity.
  - left. reflexivity.
Qed.

Lemma respond_to_alert_db alert_id rd cu w :
  db_step (db w) (db (snd (respond_to_alert alert_id rd cu w))).
Proof.
  destruct (respond_to_alert_outcome alert_id rd cu w); simpl;
    try apply step_read.
  unfold responded_world.
  destruct (String.eqb (DonorResponseCreate.response rd) "available"); simpl;
    apply (step_respond (db w)
             (bson_donor_response (new_response alert_id rd cu w)));
    assumption.
Qed.

Lemma create_blood_alert_step alert_data cu w :
  db_step (db w) (db (snd (create_blood_alert alert_data cu w))).
Proof.
  destruct (create_blood_alert alert_data cu w) as [r w'] eqn:Hc. simpl.
  destruct (create_blood_alert_db _ _ _ _ _ Hc)
    as [[-> _] | (h & ns & _ & _ & _ & _ & ->)].
  - apply step_read.
  - apply step_alert. reflexivity.
Qed.

Lemma handle_db_step r w : db_step (db w) (db (snd (handle r w))).
Proof.
  destruct r; unfold handle.
  - replace (db (snd _)) with (db (snd (register user_data w))).
    + destruct (register_db user_data w) as [-> | [u ->]];
        [apply step_read | apply step_register].
    + unfold bind, ret. destruct (register user_data w) as [[x|e] w']; reflexivity.
  - replace (db (snd _)) with (db (snd (login login_data w))).
    + rewrite login_db. apply step_read.
    + unfold bind, ret. destruct (login login_data w) as [[x|e] w']; reflexivity.
  - destruct (authenticated_world c get_current_user_info UserResponse w)
      as [-> | (cu & _ & ->)]; apply step_read.
  - destruct (authenticated_world c (create_blood_alert alert_data)
                                  AlertResponse w)
      as [-> | (cu & _ & ->)];
      [apply step_read | apply create_blood_alert_step].
  - destruct (authenticated_world c get_blood_alerts AlertsResponse w)
      as [-> | (cu & _ & ->)]; [apply step_read|].
    rewrite get_blood_alerts_world. apply step_read.
  - destruct (authenticated_world c (get_alert_details alert_id)
                                  AlertResponse w)
      as [-> | (cu & _ & ->)]; [apply step_read|].
    rewrite get_alert_details_world. apply step_read.
  - destruct (authenticated_world c (respond_to_alert alert_id response_data)
                (fun p => RespondResponse (fst p) (snd p)) w)
      as [-> | (cu & _ & ->)];
      [apply step_read | apply respond_to_alert_db].
  - destruct (authenticated_world c (get_alert_responses alert_id)
                                  ResponsesResponse w)
      as [-> | (cu & _ & ->)]; [apply step_read|].
    rewrite get_alert_responses_world. apply step_read.
  - destruct (authenticated_world c get_dashboard_stats StatsResponse w)
      as [-> | (cu & _ & ->)]; [apply step_read|].
    rewrite get_dashboard_stats_world. apply step_read.
  - destruct (authenticated_world c get_mock_emails EmailsResponse w)
      as [-> | (cu & _ & ->)]; [apply step_read|].
    rewrite get_mock_emails_world. apply step_read.
Qed.

(** ** Invariants of a run *)

(** C4: whatever requests are served, the stored alerts are still there
    afterwards, each exactly as it was (so with the [status] and [expires_at]
    it had), followed by the alerts created meanwhile, all of which have
    status "active". *)
Theorem alerts_never_transition (rs : list Request) (w : World) :
  exists added,
    blood_alerts (db (run rs w)) = blood_alerts (db w) ++ added
    /\ Forall (fun a => BloodAlert.status a = "active") added.
Proof.
  revert w. induction rs as [|r rs IH]; intro w; simpl.
  - exists []. rewrite app_nil_r. auto.
  - destruct (IH (snd (handle r w))) as (added & -> & Hadded).
    destruct (handle_db_step r w); simpl.
    + eauto.
    + eauto.
    + exists (a :: added). rewrite <- app_assoc. simpl. auto.
    + eauto.
Qed.

Lemma response_query_key alert_id donor_id r :
  response_query alert_id donor_id r = true
  <-> response_key r = (alert_id, donor_id).
Proof.
  unfold response_query, response_key. rewrite andb_true_iff, !String.eqb_eq.
  split.
  - intros [-> ->]. reflexivity.
  - intro H. inversion H. auto.
Qed.

Lemma one_response_per_pair_snoc l r :
  one_response_per_pair l ->
  find_one (response_query (DonorResponse.alert_id r) (DonorResponse.donor_id r))
           l = None ->
  one_response_per_pair (l ++ [r]).
Proof.
  unfold one_response_per_pair. intros Hnd Hfind. rewrite map_app. simpl.
  apply NoDup_app; [assumption | repeat constructor; simpl; tauto |].
  intros k Hk [<- | []].
  apply in_map_iff in Hk. destruct Hk as (x & Hx & Hin).
  pose proof (find_none _ _ Hfind x Hin) as Hq.
  apply response_query_key in Hx. congruence.
Qed.

Lemma run_responses_grow rs :
  forall w,
    exists added,
      donor_responses (db (run rs w)) = donor_responses (db w) ++ added.
Proof.
  induction rs as [|r rs IH]; intro w; simpl.
  - exists []. rewrite app_nil_r. reflexivity.
  - destruct (IH (snd (handle r w))) as (added & ->).
    destruct (handle_db_step r w) as [ | | | r0 us _]; simpl; eauto.
    exists (r0 :: added). rewrite <- app_assoc. reflexivity.
Qed.

Lemma run_one_response_per_pair rs :
  forall w,
    one_response_per_pair (donor_responses (db w)) ->
    one_response_per_pair (donor_responses (db (run rs w))).
Proof.
  induction rs as [|r rs IH]; intros w Hw; simpl; [assumption|].
  apply IH. destruct (handle_db_step r w); simpl; try assumption.
  apply one_response_per_pair_snoc; assumption.
Qed.

(** C2: for a donor and an existing alert, [respond_to_alert] raises with
    status 400 exactly when a response for the pair (alert id, donor id) is
    already stored, and then leaves the whole world untouched; over any run
    of the API the stored responses are never changed or removed, only
    appended to, and no pair ever gets a second response. *)
Theorem respond_to_alert_once :
  (forall alert_id rd cu w,
     User.role cu = "donor" ->
     (exists a, In a (blood_alerts (db w)) /\ BloodAlert.id a = alert_id) ->
     ((exists detail,
         fst (respond_to_alert alert_id rd cu w)
         = Raise (HTTPException 400 detail))
      <-> (exists r, In r (donor_responses (db w))
                     /\ DonorResponse.alert_id r = alert_id
                     /\ DonorResponse.donor_id r = User.id cu))
     /\ (forall detail,
           fst (respond_to_alert alert_id rd cu w)
           = Raise (HTTPException 400 detail) ->
           snd (respond_to_alert alert_id rd cu w) = w))
  /\ (forall rs w,
        exists added,
          donor_responses (db (run rs w)) = donor_responses (db w) ++ added)
  /\ (forall rs w,
        one_response_per_pair (donor_responses (db w)) ->
        one_response_per_pair (donor_responses (db (run rs w)))).
Proof.
  split; [|split; [intros; apply run_responses_grow
                  | intros; apply run_one_response_per_pair; assumption]].
  intros alert_id rd cu w Hrole [a [Hin Hid]].
  assert (Hsome : exists a', find_one (alert_query alert_id)
                                      (blood_alerts (db w)) = Some a').
  { apply find_some_iff. exists a. split; [assumption|].
    apply String.eqb_eq. assumption. }
  destruct Hsome as [a' Ha'].
  destruct (respond_to_alert_outcome alert_id rd cu w)
    as [Hno | _ Hnone | r a0 _ _ Hr | a0 _ _ Hr]; simpl; try congruence.
  - split; [|reflexivity]. split; [|eauto].
    intros _. apply find_some in Hr. destruct Hr as [Hinr Hq].
    apply response_query_key in Hq. inversion Hq. eauto.
  - split; [|discriminate]. split; [intros [d Hd]; discriminate|].
    intros (r & Hinr & Hra & Hrd).
    pose proof (find_none _ _ Hr r Hinr) as Hq.
    unfold response_query in Hq. rewrite Hra, Hrd, !String.eqb_refl in Hq.
    discriminate.
Qed.

(** ** No handler reads [expires_at] *)

Lemma forget_expiry_idem l :
  map forget_expiry (map forget_expiry l) = map forget_expiry l.
Proof. rewrite map_map. reflexivity. Qed.

Lemma forget_expiry_world_idem w :
  forget_expiry_world (forget_expiry_world w) = forget_expiry_world w.
Proof.
  unfold forget_expiry_world, forget_expiry_db, with_db. simpl.
  rewrite forget_expiry_idem. reflexivity.
Qed.

Lemma map_find_commute {A} (f : A -> A) (q : A -> bool) l :
  (forall x, q (f x) = q x) ->
  find q (map f l) = option_map f (find q l).
Proof.
  intro Hq. induction l as [|x l IH]; simpl; [reflexivity|].
  rewrite Hq. destruct (q x); [reflexivity | exact IH].
Qed.

Lemma map_insert_desc {A} (f : A -> A) (key : A -> datetime) x l :
  (forall y, key (f y) = key y) ->
  map f (insert_desc key x l) = insert_desc key (f x) (map f l).
Proof.
  intro Hk. induction l as [|y l IH]; simpl; [reflexivity|].
  rewrite !Hk. destruct (key y <? key x); simpl; [reflexivity|].
  rewrite IH. reflexivity.
Qed.

Lemma map_sort_desc {A} (f : A -> A) (key : A -> datetime) l :
  (forall y, key (f y) = key y) ->
  map f (sort_desc key l) = sort_desc key (map f l).
Proof.
  intro Hk. unfold sort_desc. induction l as [|x l IH]; simpl; [reflexivity|].
  rewrite map_insert_desc by assumption. rewrite IH. reflexivity.
Qed.

Lemma count_documents_map {A} (f : A -> A) (q : A -> bool) l :
  (forall x, q (f x) = q x) ->
  count_documents q (map f l) = count_documents q l.
Proof.
  intro Hq. unfold count_documents.
  rewrite <- map_filter_commute by assumption.
  rewrite length_map. reflexivity.
Qed.

Lemma existsb_map {A} (f : A -> A) (q : A -> bool) l :
  (forall x, q (f x) = q x) ->
  existsb q (map f l) = existsb q l.
Proof.
  intro Hq. induction l as [|x l IH]; simpl; [reflexivity|].
  rewrite Hq, IH. reflexivity.
Qed.

(** The selection [to_list n (sort_desc key (find_all q _))] of a listing. *)
Lemma listing_forget_expiry n key q l :
  (forall a, key (forget_expiry a) = key a) ->
  (forall a, q (forget_expiry a) = q a) ->
  map forget_expiry
      (to_list n (sort_desc key (find_all q (map forget_expiry l))))
  = map forget_expiry (to_list n (sort_desc key (find_all q l))).
Proof.
  intros Hk Hq. unfold to_list, find_all.
  rewrite <- map_filter_commute by assumption.
  rewrite <- map_sort_desc by assumption.
  rewrite <- map_firstn. apply forget_expiry_idem.
Qed.

Ltac forget_expiry_done :=
  simpl; rewrite ?forget_expiry_world_idem; try reflexivity;
  unfold forget_expiry_world, forget_expiry_db, with_db; simpl;
  rewrite ?map_app, ?forget_expiry_idem; reflexivity.

Lemma get_current_user_forget_expiry c w :
  get_current_user c (forget_expiry_world w)
  = (fst (get_current_user c w), forget_expiry_world w).
Proof.
  unfold get_current_user. destruct c as [| | |[email|]]; try reflexivity.
  unfold_monad. simpl.
  destruct (find_one _ (users (db w))); reflexivity.
Qed.

Lemma register_forget_expiry user_data w :
  handler_up_to_expiry (fun x => x) (register user_data (forget_expiry_world w))
  = handler_up_to_expiry (fun x => x) (register user_data w).
Proof.
  unfold handler_up_to_expiry, register. unfold_monad. simpl.
  destruct (find_one _ (users (db w))); [forget_expiry_done|].
  destruct (String.eqb (UserRegistration.role user_data) "hospital_staff").
  - destruct (negb (str_truthy (UserRegistration.hospital_name user_data)));
      forget_expiry_done.
  - destruct (String.eqb (UserRegistration.role user_data) "donor");
      [|forget_expiry_done].
    destruct (negb (str_truthy (UserRegistration.blood_type user_data))
              || negb (str_truthy (UserRegistration.city user_data)));
      forget_expiry_done.
Qed.

Lemma login_forget_expiry login_data w :
  handler_up_to_expiry (fun x => x) (login login_data (forget_expiry_world w))
  = handler_up_to_expiry (fun x => x) (login login_data w).
Proof.
  unfold handler_up_to_expiry, login. unfold_monad. simpl.
  destruct (find_one _ (users (db w))) as [user|]; simpl;
    [destruct (pwd_verify w _ _)|]; forget_expiry_done.
Qed.

Lemma create_blood_alert_forget_expiry alert_data cu w :
  handler_up_to_expiry forget_expiry
    (create_blood_alert alert_data cu (forget_expiry_world w))
  = handler_up_to_expiry forget_expiry (create_blood_alert alert_data cu w).
Proof.
  unfold handler_up_to_expiry. rewrite !create_blood_alert_eq.
  destruct (negb (String.eqb (User.role cu) "hospital_staff"));
    [forget_expiry_done|].
  destruct (User.hospital_name cu) as [h|]; [|forget_expiry_done].
  destruct (bson_int_ok (BloodAlertCreate.units_needed alert_data));
    [|forget_expiry_done].
  simpl. rewrite !notify_matching_donors_eq. forget_expiry_done.
Qed.

Lemma get_blood_alerts_forget_expiry cu w :
  handler_up_to_expiry (map forget_expiry)
    (get_blood_alerts cu (forget_expiry_world w))
  = handler_up_to_expiry (map forget_expiry) (get_blood_alerts cu w).
Proof.
  unfold handler_up_to_expiry, get_blood_alerts. unfold_monad. simpl.
  destruct (String.eqb (User.role cu) "hospital_staff"); simpl;
    rewrite listing_forget_expiry by reflexivity; forget_expiry_done.
Qed.

Lemma get_alert_details_forget_expiry alert_id cu w :
  handler_up_to_expiry forget_expiry
    (get_alert_details alert_id cu (forget_expiry_world w))
  = handler_up_to_expiry forget_expiry (get_alert_details alert_id cu w).
Proof.
  unfold handler_up_to_expiry, get_alert_details, find_one. unfold_monad.
  simpl. rewrite map_find_commute by reflexivity.
  destruct (find _ (blood_alerts (db w))); forget_expiry_done.
Qed.

Lemma respond_to_alert_forget_expiry alert_id rd cu w :
  handler_up_to_expiry (fun x => x)
    (respond_to_alert alert_id rd cu (forget_expiry_world w))
  = handler_up_to_expiry (fun x => x) (respond_to_alert alert_id rd cu w).
Proof.
  unfold handler_up_to_expiry, respond_to_alert, find_one.
  destruct (negb (String.eqb (User.role cu) "donor"));
    [forget_expiry_done|].
  unfold_monad. simpl. rewrite map_find_commute by reflexivity.
  destruct (find _ (blood_alerts (db w))); [|forget_expiry_done].
  simpl. destruct (find _ (donor_responses (db w))); [forget_expiry_done|].
  destruct (String.eqb (DonorResponseCreate.response rd) "available");
    forget_expiry_done.
Qed.

Lemma get_alert_responses_forget_expiry alert_id cu w :
  handler_up_to_expiry (fun x => x)
    (get_alert_responses alert_id cu (forget_expiry_world w))
  = handler_up_to_expiry (fun x => x) (get_alert_responses alert_id cu w).
Proof.
  unfold handler_up_to_expiry, get_alert_responses, find_one.
  destruct (negb (String.eqb (User.role cu) "hospital_staff"));
    [forget_expiry_done|].
  unfold_monad. simpl. rewrite map_find_commute by reflexivity.
  destruct (find _ (blood_alerts (db w))); forget_expiry_done.
Qed.

Lemma lookup_forget_expiry (p q : BloodAlert.t -> bool) l :
  (forall a, p (forget_expiry a) = p a) ->
  (forall a, q (forget_expiry a) = q a) ->
  existsb p (filter q (map forget_expiry l)) = existsb p (filter q l).
Proof.
  intros Hp Hq. rewrite <- map_filter_commute by assumption.
  apply existsb_map. assumption.
Qed.

Lemma get_dashboard_stats_forget_expiry cu w :
  handler_up_to_expiry (fun x => x)
    (get_dashboard_stats cu (forget_expiry_world w))
  = handler_up_to_expiry (fun x => x) (get_dashboard_stats cu w).
Proof.
  unfold handler_up_to_expiry, get_dashboard_stats. unfold_monad. simpl.
  destruct (String.eqb (User.role cu) "hospital_staff"); simpl;
    rewrite !count_documents_map by reflexivity; [|forget_expiry_done].
  rewrite (filter_ext
             (fun r =>
                existsb (fun a => String.eqb (BloodAlert.hospital_id a)
                                             (User.id cu))
                        (filter (fun a => String.eqb (BloodAlert.id a)
                                            (DonorResponse.alert_id r))
                                (map forget_expiry (blood_alerts (db w)))))
             (fun r =>
                existsb (fun a => String.eqb (BloodAlert.hospital_id a)
                                             (User.id cu))
                        (filter (fun a => String.eqb (BloodAlert.id a)
                                            (DonorResponse.alert_id r))
                                (blood_alerts (db w)))))
    by (intro r; apply lookup_forget_expiry; reflexivity).
  forget_expiry_done.
Qed.

Lemma get_mock_emails_forget_expiry cu w :
  handler_up_to_expiry (fun x => x) (get_mock_emails cu (forget_expiry_world w))
  = handler_up_to_expiry (fun x => x) (get_mock_emails cu w).
Proof.
  unfold handler_up_to_expiry, get_mock_emails. unfold_monad. simpl.
  destruct (String.eqb (User.role cu) "donor"); forget_expiry_done.
Qed.

Lemma returned_forget_expiry {A} (m : M A) (g : A -> A) (f : A -> Response) w :
  (forall x y, g x = g y ->
               forget_expiry_response (f x) = forget_expiry_response (f y)) ->
  handler_up_to_expiry g (m (forget_expiry_world w))
  = handler_up_to_expiry g (m w) ->
  outcome_up_to_expiry ((x <- m ;; ret (f x)) (forget_expiry_world w))
  = outcome_up_to_expiry ((x <- m ;; ret (f x)) w).
Proof.
  intros Hf Hm. unfold outcome_up_to_expiry, handler_up_to_expiry in *.
  unfold bind, ret.
  destruct (m (forget_expiry_world w)) as [[x|e] w1];
    destruct (m w) as [[y|e'] w2]; simpl in *;
    pose proof (f_equal fst Hm) as H1; pose proof (f_equal snd Hm) as H2;
    simpl in H1, H2; rewrite H2; try discriminate H1.
  - injection H1 as H1. rewrite (Hf _ _ H1). reflexivity.
  - injection H1 as ->. reflexivity.
Qed.

Lemma authenticated_forget_expiry {A} c (k : User.t -> M A) (g : A -> A)
  (f : A -> Response) w :
  (forall x y, g x = g y ->
               forget_expiry_response (f x) = forget_expiry_response (f y)) ->
  (forall cu, handler_up_to_expiry g (k cu (forget_expiry_world w))
              = handler_up_to_expiry g (k cu w)) ->
  outcome_up_to_expiry
    ((current_user <- get_current_user c ;;
      x <- k current_user ;; ret (f x)) (forget_expiry_world w))
  = outcome_up_to_expiry
      ((current_user <- get_current_user c ;;
        x <- k current_user ;; ret (f x)) w).
Proof.
  intros Hf Hk. pose proof (get_current_user_world c w) as Hw.
  unfold bind at 1 3. rewrite get_current_user_forget_expiry.
  destruct (get_current_user c w) as [[cu|e] w1]; simpl in Hw; subst w1;
    simpl.
  - apply (returned_forget_expiry _ g); [assumption | apply Hk].
  - unfold outcome_up_to_expiry. simpl.
    rewrite forget_expiry_world_idem. reflexivity.
Qed.

Lemma handle_forget_expiry r w :
  outcome_up_to_expiry (handle r (forget_expiry_world w))
  = outcome_up_to_expiry (handle r w).
Proof.
  destruct r; unfold handle.
  - apply (returned_forget_expiry _ (fun x => x));
      [intros x y ->; reflexivity | apply register_forget_expiry].
  - apply (returned_forget_expiry _ (fun x => x));
      [intros x y ->; reflexivity | apply login_forget_expiry].
  - apply (authenticated_forget_expiry _ _ (fun x => x));
      [intros x y ->; reflexivity|].
    intro cu. unfold handler_up_to_expiry, get_current_user_info, ret. simpl.
    rewrite forget_expiry_world_idem. reflexivity.
  - apply (authenticated_forget_expiry _ _ forget_expiry);
      [intros x y Hxy; simpl; rewrite Hxy; reflexivity|].
    intro cu. apply create_blood_alert_forget_expiry.
  - apply (authenticated_forget_expiry _ _ (map forget_expiry));
      [intros x y Hxy; simpl; rewrite Hxy; reflexivity|].
    intro cu. apply get_blood_alerts_forget_expiry.
  - apply (authenticated_forget_expiry _ _ forget_expiry);
      [intros x y Hxy; simpl; rewrite Hxy; reflexivity|].
    intro cu. apply get_alert_details_forget_expiry.
  - apply (authenticated_forget_expiry _ _ (fun x => x));
      [intros x y ->; reflexivity|].
    intro cu. apply respond_to_alert_forget_expiry.
  - apply (authenticated_forget_expiry _ _ (fun x => x));
      [intros x y ->; reflexivity|].
    intro cu. apply get_alert_responses_forget_expiry.
  - apply (authenticated_forget_expiry _ _ (fun x => x));
      [intros x y ->; reflexivity|].
    intro cu. apply get_dashboard_stats_forget_expiry.
  - apply (authenticated_forget_expiry _ _ (fun x => x));
      [intros x y ->; reflexivity|].
    intro cu. apply get_mock_emails_forget_expiry.
Qed.

(** C7: expiry is never enforced.  A donor's [respond_to_alert] succeeds as
    soon as the alert exists and the donor has not answered it yet, whatever
    the alert's [expires_at] and [status] and whatever the time; and for
    every request, two worlds that differ only in the [expires_at] values of
    their alerts give the same outcome (the same success or exception, the
    same payload and the same resulting world) up to those values. *)
Theorem expiry_never_enforced :
  (forall alert_id rd cu a w,
     User.role cu = "donor" ->
     In a (blood_alerts (db w)) -> BloodAlert.id a = alert_id ->
     (forall r, In r (donor_responses (db w)) ->
                DonorResponse.alert_id r = alert_id ->
                DonorResponse.donor_id r <> User.id cu) ->
     exists p w', respond_to_alert alert_id rd cu w = (Ok p, w'))
  /\ (forall r w1 w2,
        forget_expiry_world w1 = forget_expiry_world w2 ->
        outcome_up_to_expiry (handle r w1) = outcome_up_to_expiry (handle r w2)).
Proof.
  split.
  - intros alert_id rd cu a w Hrole Hin Hid Hnew.
    destruct (proj2 (find_some_iff (alert_query alert_id) (blood_alerts (db w))))
      as [a' Ha'].
    { exists a. split; [assumption|]. apply String.eqb_eq. assumption. }
    do 2 eexists. eapply respond_to_alert_ok; [eassumption | eassumption |].
    destruct (find_one (response_query alert_id (User.id cu))
                       (donor_responses (db w))) as [r|] eqn:Hr;
      [|reflexivity].
    apply find_some in Hr. destruct Hr as [Hinr Hq].
    apply response_query_key in Hq. inversion Hq.
    exfalso. eapply Hnew; eassumption.
  - intros r w1 w2 Hw.
    rewrite <- (handle_forget_expiry r w1), <- (handle_forget_expiry r w2), Hw.
    reflexivity.
Qed.

(** ** A sample run *)

Example clinic_users :
  get_current_user staff_credentials clinic_world = (Ok staff_user, clinic_world)
  /\ get_current_user dana_credentials clinic_world = (Ok dana_user, clinic_world)
  /\ get_current_user eli_credentials clinic_world = (Ok eli_user, clinic_world).
Proof. split; [|split]; vm_compute; reflexivity. Qed.

Example clinic_alert :
  map BloodAlert.id (blood_alerts (db clinic_world)) = ["uuid-3"]
  /\ map BloodAlert.expires_at (blood_alerts (db clinic_world))
     = [Some (bson_datetime (1700000007123456 + timedelta_hours 2))].
Proof. split; vm_compute; reflexivity. Qed.

(** Eli is eligible in the words of the specification, yet the alert was
    announced to Dana only: [register] stores the missing date as [null],
    which neither clause of the donor query accepts. *)
Example null_donation_date_not_notified :
  existsb (fun u => String.eqb (UserDoc.email u) "eli@mail.example"
                    && eligible "O+" 1700000008123456 u)
          (users (db clinic_world)) = true
  /\ map MockEmailNotification.to_email (email_notifications (db clinic_world))
     = ["dana@mail.example"].
Proof. split; vm_compute; reflexivity. Qed.

(** ** The theorems at the sample run *)

Ltac computed := vm_compute; reflexivity.

Ltac distinct_ids :=
  vm_compute; repeat constructor; simpl; intuition discriminate.

Lemma respond_to_alert_once_witness :
  (((exists detail,
       fst (respond_to_alert "uuid-3" accept dana_user accepted_world)
       = Raise (HTTPException 400 detail))
    <-> (exists r, In r (donor_responses (db accepted_world))
                   /\ DonorResponse.alert_id r = "uuid-3"
                   /\ DonorResponse.donor_id r = User.id dana_user))
   /\ (forall detail,
         fst (respond_to_alert "uuid-3" accept dana_user accepted_world)
         = Raise (HTTPException 400 detail) ->
         snd (respond_to_alert "uuid-3" accept dana_user accepted_world)
         = accepted_world))
  /\ one_response_per_pair
       (donor_responses
          (db (run [POST_respond dana_credentials "uuid-3" accept;
                    POST_respond eli_credentials "uuid-3" maybe]
                   accepted_world))).
Proof.
  split.
  - apply (proj1 respond_to_alert_once "uuid-3" accept dana_user
                 accepted_world).
    + computed.
    + vm_compute. eexists. split; [left; reflexivity | reflexivity].
  - apply (proj2 (proj2 respond_to_alert_once)). distinct_ids.
Defined.

Lemma available_response_clears_availability_witness :
  exists doc',
    find_one (fun u => String.eqb (UserDoc.id u) (User.id dana_user))
             (users (db accepted_world)) = Some doc'
    /\ get_current_user dana_credentials accepted_world
       = (Ok (User.of_doc doc'), accepted_world)
    /\ UserDoc.is_available doc' = false.
Proof.
  apply (available_response_clears_availability dana_credentials "uuid-3"
           accept dana_user
           ("Response recorded successfully",
            new_response "uuid-3" accept dana_user clinic_world)
           clinic_world accepted_world).
  - distinct_ids.
  - computed.
  - computed.
  - computed.
Defined.

Lemma create_blood_alert_expiry_witness :
  exists a w',
    create_blood_alert alert_request staff_user clinic_world = (Ok a, w')
    /\ (exists ns,
          blood_alerts (db w')
          = blood_alerts (db clinic_world) ++ [bson_blood_alert a]
          /\ email_notifications (db w')
             = email_notifications (db clinic_world) ++ ns)
    /\ BloodAlert.expires_at a
       = Some (clock clinic_world (S (clock_reads clinic_world))
               + timedelta_hours
                   (if String.eqb (BloodAlertCreate.urgency_level alert_request)
                                  "critical" then 2
                    else if String.eqb
                              (BloodAlertCreate.urgency_level alert_request)
                              "high" then 6
                    else 24))
    /\ BloodAlert.expires_at (bson_blood_alert a)
       = option_map bson_datetime (BloodAlert.expires_at a)
    /\ BloodAlert.created_at a = clock clinic_world (clock_reads clinic_world).
Proof.
  apply (create_blood_alert_expiry alert_request staff_user "General Hospital"
           clinic_world); computed.
Defined.

(** C9: [respond_to_alert] validates nothing about the response value.  For
    every string, once the role, alert and duplicate checks pass, it stores a
    [DonorResponse] carrying the string as given, and only the exact string
    "available" triggers the update of the user record; so the hospital
    dashboard can report more [total_responses] than [available_responses]
    and [not_available_responses] together, as it does after a donor of the
    sample run has answered "maybe". *)
Theorem respond_to_alert_unvalidated :
  (forall alert_id rd cu a w,
     User.role cu = "donor" ->
     find_one (alert_query alert_id) (blood_alerts (db w)) = Some a ->
     find_one (response_query alert_id (User.id cu)) (donor_responses (db w))
     = None ->
     exists msg r w',
       respond_to_alert alert_id rd cu w = (Ok (msg, r), w')
       /\ DonorResponse.response r = DonorResponseCreate.response rd
       /\ donor_responses (db w')
          = donor_responses (db w) ++ [bson_donor_response r]
       /\ DonorResponse.response (bson_donor_response r)
          = DonorResponseCreate.response rd
       /\ (DonorResponseCreate.response rd <> "available" ->
           users (db w') = users (db w))
       /\ (DonorResponseCreate.response rd = "available" ->
           users (db w')
           = update_one (fun u => String.eqb (UserDoc.id u) (User.id cu))
               (UserDoc.set_donation false
                  (bson_datetime (clock w (S (clock_reads w)))))
               (users (db w))))
  /\ (exists stats,
        fst (handle (GET_dashboard_stats staff_credentials) maybe_world)
        = Ok (StatsResponse (inl stats))
        /\ total_responses stats
           > available_responses stats + not_available_responses stats).
Proof.
  split.
  - intros. apply respond_to_alert_any_string with (a := a); assumption.
  - eexists. split; [vm_compute; reflexivity|]. vm_compute. reflexivity.
Qed.

Lemma respond_to_alert_unvalidated_witness :
  exists msg r w',
    respond_to_alert "uuid-3" maybe eli_user clinic_world = (Ok (msg, r), w')
    /\ DonorResponse.response r = DonorResponseCreate.response maybe
    /\ donor_responses (db w')
       = donor_responses (db clinic_world) ++ [bson_donor_response r]
    /\ DonorResponse.response (bson_donor_response r)
       = DonorResponseCreate.response maybe
    /\ (DonorResponseCreate.response maybe <> "available" ->
        users (db w') = users (db clinic_world))
    /\ (DonorResponseCreate.response maybe = "available" ->
        users (db w')
        = update_one (fun u => String.eqb (UserDoc.id u) (User.id eli_user))
            (UserDoc.set_donation false
               (bson_datetime
                  (clock clinic_world (S (clock_reads clinic_world)))))
            (users (db clinic_world))).
Proof.
  apply (proj1 respond_to_alert_unvalidated "uuid-3" maybe eli_user
               (bson_blood_alert
                  (created_alert alert_request staff_user "General Hospital"
                     (run [POST_register staff_registration;
                           POST_register dana_registration;
                           POST_register eli_registration] initial_world)))
               clinic_world).
  - computed.
  - computed.
  - computed.
Defined.

Lemma matching_ignores_location_witness :
  map forget_location
      (matching_donors (alert_with_radius (S754_finite false 25 0))
                       registered_world)
  = map forget_location
        (matching_donors (alert_with_radius (S754_finite false 1 0))
                         relocated_world)
  /\ notifications_added (alert_with_radius (S754_finite false 25 0))
                         registered_world
     = notifications_added (alert_with_radius (S754_finite false 1 0))
                           relocated_world
  /\ email_notifications
       (db (snd (notify_matching_donors
                   (alert_with_radius (S754_finite false 25 0))
                   registered_world)))
     = email_notifications
         (db (snd (notify_matching_donors
                     (alert_with_radius (S754_finite false 1 0))
                     relocated_world))).
Proof.
  apply (proj2 matching_ignores_location
               (alert_with_radius (S754_finite false 25 0))
               (alert_with_radius (S754_finite false 1 0))
               registered_world relocated_world); computed.
Defined.

Lemma expiry_never_enforced_witness :
  (exists p w', respond_to_alert "uuid-3" accept eli_user stale_world = (Ok p, w'))
  /\ outcome_up_to_expiry
       (handle (POST_respond eli_credentials "uuid-3" accept) clinic_world)
     = outcome_up_to_expiry
         (handle (POST_respond eli_credentials "uuid-3" accept) expired_world).
Proof.
  split.
  - apply (proj1 expiry_never_enforced "uuid-3" accept eli_user
                 (BloodAlert.mk "uuid-3" "uuid-0" "General Hospital" "O+" 3
                    "critical" None (mkGeoJSON "Point" [Int 0; Int 0])
                    (S754_finite false 25 0) "cancelled" 1700000006123000
                    (Some 0))
                 stale_world).
    + computed.
    + vm_compute. left. reflexivity.
    + computed.
    + vm_compute. intros r [].
  - apply (proj2 expiry_never_enforced). computed.
Defined.

Lemma respond_to_alert_frame_witness :
  blood_alerts (db accepted_world) = blood_alerts (db clinic_world)
  /\ (DonorResponseCreate.response accept <> "available" ->
      users (db accepted_world) = users (db clinic_world))
  /\ (DonorResponseCreate.response accept = "available" ->
      let now := clock clinic_world (S (clock_reads clinic_world)) in
      exists before doc doc' after,
        users (db clinic_world) = before ++ doc :: after
        /\ users (db accepted_world) = before ++ doc' :: after
        /\ UserDoc.id doc = User.id dana_user
        /\ UserDoc.email doc = User.email dana_user
        /\ UserDoc.is_available doc' = false
        /\ UserDoc.last_donation_date doc' = Val (bson_datetime now)
        /\ now - 1000 < bson_datetime now <= now
        /\ same_but_donation doc doc'
        /\ forall blood_type query_time,
             query_time <= now + timedelta_days 90 ->
             recency_clause query_time doc' = false
             /\ donor_query blood_type (query_time - timedelta_days 90) doc'
                = false).
Proof.
  apply (respond_to_alert_frame dana_credentials "uuid-3" accept dana_user
           ("Response recorded successfully",
            new_response "uuid-3" accept dana_user clinic_world)
           clinic_world accepted_world).
  - distinct_ids.
  - computed.
  - computed.
Defined.

Lemma get_alert_details_any_user_witness :
  (exists a,
     get_alert_details "uuid-3" eli_user clinic_world = (Ok a, clinic_world)
     /\ In a (blood_alerts (db clinic_world)) /\ BloodAlert.id a = "uuid-3")
  /\ (exists a,
        handle (GET_alert dana_credentials "uuid-3") clinic_world
        = (Ok (AlertResponse a), clinic_world)
        /\ In a (blood_alerts (db clinic_world)) /\ BloodAlert.id a = "uuid-3").
Proof.
  assert (Hstored : exists a, In a (blood_alerts (db clinic_world))
                              /\ BloodAlert.id a = "uuid-3").
  { vm_compute. eexists. split; [left; reflexivity | reflexivity]. }
  split.
  - apply (proj1 (proj2 (get_alert_details_any_user "uuid-3" clinic_world))
                 eli_user Hstored).
  - apply (proj2 (proj2 (proj2 (get_alert_details_any_user "uuid-3"
                                  clinic_world)))
                 dana_credentials dana_user); [computed | exact Hstored].
Defined.

(** ** User ids stay distinct *)

Lemma ids_step_refl w : ids_step w w.
Proof. apply ids_kept; auto. Qed.

Lemma update_one_ids q a d l :
  map UserDoc.id (update_one q (UserDoc.set_donation a d) l)
  = map UserDoc.id l.
Proof.
  induction l as [|u l IH]; simpl; [reflexivity|].
  destruct (q u); simpl; [reflexivity|]. rewrite IH. reflexivity.
Qed.

Lemma returned_world {A B} (m : M A) (f : A -> B) w :
  snd ((x <- m ;; ret (f x)) w) = snd (m w).
Proof. unfold bind, ret. destruct (m w) as [[x|e] w']; reflexivity. Qed.

Lemma register_ids user_data w : ids_step w (snd (register user_data w)).
Proof.
  unfold register. unfold_monad. cbv beta.
  destruct (find_one _ (users (db w))); [apply ids_step_refl|].
  destruct (String.eqb (UserRegistration.role user_data) "hospital_staff").
  - destruct (negb (str_truthy (UserRegistration.hospital_name user_data)));
      [apply ids_step_refl|].
    simpl. eapply ids_extended; simpl; try reflexivity. lia.
  - destruct (String.eqb (UserRegistration.role user_data) "donor");
      [|apply ids_step_refl].
    destruct (negb (str_truthy (UserRegistration.blood_type user_data))
              || negb (str_truthy (UserRegistration.city user_data)));
      [apply ids_step_refl|].
    simpl. eapply ids_extended; simpl; try reflexivity. lia.
Qed.

Lemma login_ids login_data w : ids_step w (snd (login login_data w)).
Proof.
  unfold login. unfold_monad. simpl.
  destruct (find_one _ (users (db w))) as [user|]; [|apply ids_step_refl].
  simpl. destruct (pwd_verify w _ _); simpl; apply ids_kept; auto.
Qed.

Lemma create_blood_alert_ids alert_data cu w :
  ids_step w (snd (create_blood_alert alert_data cu w)).
Proof.
  rewrite create_blood_alert_eq.
  destruct (negb (String.eqb (User.role cu) "hospital_staff"));
    [apply ids_step_refl|].
  destruct (User.hospital_name cu) as [h|];
    [|apply ids_kept; simpl; auto].
  destruct (bson_int_ok (BloodAlertCreate.units_needed alert_data));
    [|apply ids_kept; simpl; auto].
  simpl. rewrite notify_matching_donors_eq.
  apply ids_kept; simpl; try reflexivity. lia.
Qed.

Lemma respond_to_alert_ids alert_id rd cu w :
  ids_step w (snd (respond_to_alert alert_id rd cu w)).
Proof.
  destruct (respond_to_alert_outcome alert_id rd cu w); simpl;
    try apply ids_step_refl.
  unfold responded_world.
  destruct (String.eqb (DonorResponseCreate.response rd) "available");
    apply ids_kept; simpl; rewrite ?update_one_ids; auto.
Qed.

Lemma handle_ids_step r w : ids_step w (snd (handle r w)).
Proof.
  destruct r; unfold handle.
  - rewrite returned_world. apply register_ids.
  - rewrite returned_world. apply login_ids.
  - destruct (authenticated_world c get_current_user_info UserResponse w)
      as [-> | (cu & _ & ->)]; apply ids_step_refl.
  - destruct (authenticated_world c (create_blood_alert alert_data)
                                  AlertResponse w)
      as [-> | (cu & _ & ->)];
      [apply ids_step_refl | apply create_blood_alert_ids].
  - destruct (authenticated_world c get_blood_alerts AlertsResponse w)
      as [-> | (cu & _ & ->)]; [apply ids_step_refl|].
    rewrite get_blood_alerts_world. apply ids_step_refl.
  - destruct (authenticated_world c (get_alert_details alert_id)
                                  AlertResponse w)
      as [-> | (cu & _ & ->)]; [apply ids_step_refl|].
    rewrite get_alert_details_world. apply ids_step_refl.
  - destruct (authenticated_world c (respond_to_alert alert_id response_data)
                (fun p => RespondResponse (fst p) (snd p)) w)
      as [-> | (cu & _ & ->)];
      [apply ids_step_refl | apply respond_to_alert_ids].
  - destruct (authenticated_world c (get_alert_responses alert_id)
                                  ResponsesResponse w)
      as [-> | (cu & _ & ->)]; [apply ids_step_refl|].
    rewrite get_alert_responses_world. apply ids_step_refl.
  - destruct (authenticated_world c get_dashboard_stats StatsResponse w)
      as [-> | (cu & _ & ->)]; [apply ids_step_refl|].
    rewrite get_dashboard_stats_world. apply ids_step_refl.
  - destruct (authenticated_world c get_mock_emails EmailsResponse w)
      as [-> | (cu & _ & ->)]; [apply ids_step_refl|].
    rewrite get_mock_emails_world. apply ids_step_refl.
Qed.

Lemma ids_step_issued w w' :
  (forall i j, uuid_source w i = uuid_source w j -> i = j) ->
  ids_step w w' -> ids_issued w -> ids_issued w'.
Proof.
  intros Hinj Hstep [Hnd Hissued].
  assert (Hold : forall n,
            (uuid_reads w <= n)%nat ->
            Forall (fun u => exists k, (k < n)%nat
                                       /\ UserDoc.id u = uuid_source w k)
                   (users (db w))).
  { intros n Hn. eapply Forall_impl; [|exact Hissued].
    intros u (k & Hk & Hu). exists k. split; [lia | assumption]. }
  destruct Hstep as [Hids Hsrc Hreads | u Husers Hid Hsrc Hreads];
    unfold ids_issued; rewrite Hsrc.
  - rewrite Hids. split; [assumption|].
    rewrite Forall_forall. intros u Hu.
    assert (Hin : In (UserDoc.id u) (map UserDoc.id (users (db w)))).
    { rewrite <- Hids. apply in_map. assumption. }
    apply in_map_iff in Hin. destruct Hin as (u0 & Hu0 & Hin0).
    rewrite Forall_forall in Hissued.
    destruct (Hissued u0 Hin0) as (k & Hk & Hid).
    exists k. split; [lia | congruence].
  - rewrite Husers, map_app. simpl. split.
    + apply NoDup_app; [assumption | repeat constructor; simpl; tauto |].
      intros x Hx [<- | []].
      apply in_map_iff in Hx. destruct Hx as (u0 & Hu0 & Hin0).
      rewrite Forall_forall in Hissued.
      destruct (Hissued u0 Hin0) as (k & Hk & Hid0).
      assert (k = uuid_reads w) by (apply Hinj; congruence). lia.
    + apply Forall_app. split; [apply Hold; lia|].
      constructor; [|constructor]. exists (uuid_reads w). auto.
Qed.

(** With a UUID source that never repeats itself, the user ids stay
    distinct over every run of the API. *)
Lemma run_ids_issued rs :
  forall w,
    (forall i j, uuid_source w i = uuid_source w j -> i = j) ->
    ids_issued w -> ids_issued (run rs w).
Proof.
  induction rs as [|r rs IH]; intros w Hinj Hw; simpl; [assumption|].
  pose proof (handle_ids_step r w) as Hstep.
  apply IH.
  - destruct Hstep as [_ Hsrc _ | u _ _ Hsrc _]; rewrite Hsrc; assumption.
  - eapply ids_step_issued; eassumption.
Qed.

(** ** Registration, case by case *)

Lemma register_eq user_data w :
  register user_data w
  = match find_one (email_query (UserRegistration.email user_data))
                   (users (db w)) with
    | Some _ => (Raise (HTTPException 400 "Email already registered"), w)
    | None =>
        if role_fields_ok user_data then
          (Ok (mkToken (UserRegistration.email user_data)
                       (clock w (S (clock_reads w))
                        + timedelta_minutes ACCESS_TOKEN_EXPIRE_MINUTES),
               User.of_doc (registered_doc user_data w)),
           registered_world_of user_data w)
        else
          (Raise
             (HTTPException 400
                (if String.eqb (UserRegistration.role user_data)
                               "hospital_staff"
                 then "Hospital name is required for hospital staff"
                 else if String.eqb (UserRegistration.role user_data) "donor"
                 then "Blood type and city are required for donors"
                 else "Role must be 'hospital_staff' or 'donor'")), w)
    end.
Proof.
  unfold register, role_fields_ok, registered_world_of, registered_doc,
    email_query.
  unfold_monad. cbv beta.
  destruct (find_one _ (users (db w))); [reflexivity|].
  destruct (String.eqb (UserRegistration.role user_data) "hospital_staff").
  - destruct (str_truthy (UserRegistration.hospital_name user_data));
      reflexivity.
  - destruct (String.eqb (UserRegistration.role user_data) "donor");
      [|reflexivity].
    destruct (str_truthy (UserRegistration.blood_type user_data));
      destruct (str_truthy (UserRegistration.city user_data)); reflexivity.
Qed.

(** ** One request at a time, in detail *)

Lemma sent_notifications_status up a clk uuids l :
  forall cr ur,
    Forall (fun n => MockEmailNotification.status n = "sent")
           (sent_notifications up a l clk uuids cr ur).
Proof.
  induction l as [|u l IH]; intros cr ur; simpl; constructor;
    [reflexivity | apply IH].
Qed.

Lemma current_user_stored c w cu :
  get_current_user c w = (Ok cu, w) ->
  exists doc, In doc (users (db w)) /\ cu = User.of_doc doc
              /\ c = Payload (Some (UserDoc.email doc)).
Proof.
  intro H. apply get_current_user_ok_inv in H.
  destruct H as (_ & email & doc & -> & Hfind & ->).
  apply find_some in Hfind. destruct Hfind as [Hin Heq].
  apply String.eqb_eq in Heq. subst email. eauto.
Qed.

Lemma register_api_step user_data w :
  api_step w (db (snd (register user_data w))).
Proof.
  rewrite register_eq.
  destruct (find_one _ (users (db w))) eqn:Hfind; [apply api_read|].
  destruct (role_fields_ok user_data) eqn:Hok; [|apply api_read].
  simpl. apply api_register; assumption.
Qed.

Lemma create_blood_alert_api_step alert_data doc w :
  In doc (users (db w)) ->
  api_step w (db (snd (create_blood_alert alert_data (User.of_doc doc) w))).
Proof.
  intro Hin. rewrite create_blood_alert_eq.
  destruct (String.eqb (User.role (User.of_doc doc)) "hospital_staff")
    eqn:Hrole; simpl; [|apply api_read].
  destruct (UserDoc.hospital_name doc) as [h|]; [|exact (api_read w)].
  destruct (bson_int_ok (BloodAlertCreate.units_needed alert_data));
    [|exact (api_read w)].
  simpl. rewrite notify_matching_donors_eq. simpl.
  apply String.eqb_eq in Hrole.
  eapply api_alert with (doc := doc); try reflexivity; try assumption.
  - apply (sent_notifications_addressed (unicode_upper w)
             (created_alert alert_data (User.of_doc doc) h w)).
  - apply sent_notifications_status.
Qed.

Lemma respond_to_alert_api_step alert_id rd doc w :
  In doc (users (db w)) ->
  api_step w (db (snd (respond_to_alert alert_id rd (User.of_doc doc) w))).
Proof.
  intro Hin.
  destruct (respond_to_alert_outcome alert_id rd (User.of_doc doc) w)
    as [ | | | a Hrole Ha Hr]; simpl; try apply api_read.
  apply find_some in Ha. destruct Ha as [Hina Hida].
  apply String.eqb_eq in Hida.
  unfold responded_world.
  destruct (String.eqb (DonorResponseCreate.response rd) "available") eqn:Hav;
    simpl.
  - apply String.eqb_eq in Hav.
    apply (api_respond w doc a
             (bson_donor_response
                (new_response alert_id rd (User.of_doc doc) w))); simpl;
      try assumption; try (repeat split; reflexivity).
    right. exists (bson_datetime (clock w (S (clock_reads w)))). auto.
  - apply String.eqb_neq in Hav.
    apply (api_respond w doc a
             (bson_donor_response
                (new_response alert_id rd (User.of_doc doc) w))); simpl;
      try assumption; try (repeat split; reflexivity).
    left. auto.
Qed.

Lemma handle_api_step r w : api_step w (db (snd (handle r w))).
Proof.
  destruct r; unfold handle.
  - rewrite returned_world. apply register_api_step.
  - rewrite returned_world, login_db. apply api_read.
  - destruct (authenticated_world c get_current_user_info UserResponse w)
      as [-> | (cu & _ & ->)]; apply api_read.
  - destruct (authenticated_world c (create_blood_alert alert_data)
                                  AlertResponse w)
      as [-> | (cu & Hcu & ->)]; [apply api_read|].
    destruct (current_user_stored _ _ _ Hcu) as (doc & Hin & -> & _).
    apply create_blood_alert_api_step; assumption.
  - destruct (authenticated_world c get_blood_alerts AlertsResponse w)
      as [-> | (cu & _ & ->)]; [apply api_read|].
    rewrite get_blood_alerts_world. apply api_read.
  - destruct (authenticated_world c (get_alert_details alert_id)
                                  AlertResponse w)
      as [-> | (cu & _ & ->)]; [apply api_read|].
    rewrite get_alert_details_world. apply api_read.
  - destruct (authenticated_world c (respond_to_alert alert_id response_data)
                (fun p => RespondResponse (fst p) (snd p)) w)
      as [-> | (cu & Hcu & ->)]; [apply api_read|].
    destruct (current_user_stored _ _ _ Hcu) as (doc & Hin & -> & _).
    apply respond_to_alert_api_step; assumption.
  - destruct (authenticated_world c (get_alert_responses alert_id)
                                  ResponsesResponse w)
      as [-> | (cu & _ & ->)]; [apply api_read|].
    rewrite get_alert_responses_world. apply api_read.
  - destruct (authenticated_world c get_dashboard_stats StatsResponse w)
      as [-> | (cu & _ & ->)]; [apply api_read|].
    rewrite get_dashboard_stats_world. apply api_read.
  - destruct (authenticated_world c get_mock_emails EmailsResponse w)
      as [-> | (cu & _ & ->)]; [apply api_read|].
    rewrite get_mock_emails_world. apply api_read.
Qed.

(** ** Invariants of the store over a run *)

Lemma run_db_invariant (I : DB -> Prop) :
  (forall w d', api_step w d' -> I (db w) -> I d') ->
  forall rs w, I (db w) -> I (db (run rs w)).
Proof.
  intros Hstep rs. induction rs as [|r rs IH]; intros w Hw; simpl;
    [assumption|].
  apply IH. eapply Hstep; [apply handle_api_step | assumption].
Qed.

Lemma update_one_map {A B} (f : A -> B) q upd l :
  (forall x, f (upd x) = f x) ->
  map f (update_one q upd l) = map f l.
Proof.
  intro Hf. induction l as [|u l IH]; simpl; [reflexivity|].
  destruct (q u); simpl; [rewrite Hf | rewrite IH]; reflexivity.
Qed.

(** Whatever [update_one] does with a donation, every record is still there
    with the same fields but the two of the donation. *)
Lemma update_one_keeps q a d l u :
  In u l ->
  exists u', In u' (update_one q (UserDoc.set_donation a d) l)
             /\ same_but_donation u u'.
Proof.
  assert (Hrefl : forall x, same_but_donation x x).
  { intro x. repeat split. }
  induction l as [|x l IH]; simpl; [contradiction|].
  intros [-> | Hin].
  - destruct (q u); simpl.
    + exists (UserDoc.set_donation a d u). split; [auto|]. repeat split.
    + exists u. auto.
  - destruct (q x); simpl.
    + exists u. auto.
    + destruct (IH Hin) as (u' & Hin' & Hsame). exists u'. auto.
Qed.

Lemma find_one_email_none email l :
  find_one (email_query email) l = None ->
  ~ In email (map UserDoc.email l).
Proof.
  intros Hfind Hin. apply in_map_iff in Hin. destruct Hin as (u & Hu & Hin).
  pose proof (find_none _ _ Hfind u Hin) as Hq.
  unfold email_query in Hq. rewrite Hu, String.eqb_refl in Hq. discriminate.
Qed.

Lemma registered_doc_valid user_data w :
  role_fields_ok user_data = true ->
  user_valid (bson_user (registered_doc user_data w)).
Proof.
  unfold role_fields_ok, user_valid. simpl.
  destruct (String.eqb (UserRegistration.role user_data) "hospital_staff")
    eqn:Hs.
  - apply String.eqb_eq in Hs. auto.
  - destruct (String.eqb (UserRegistration.role user_data) "donor") eqn:Hd;
      [|discriminate].
    apply String.eqb_eq in Hd. rewrite andb_true_iff. intros [? ?]. auto.
Qed.

Lemma set_donation_valid a d u :
  user_valid u -> user_valid (UserDoc.set_donation a d u).
Proof. intro H. exact H. Qed.

Lemma update_one_Forall {A} (P : A -> Prop) q upd l :
  (forall x, P x -> P (upd x)) ->
  Forall P l -> Forall P (update_one q upd l).
Proof.
  intros Hupd Hl. induction Hl as [|x l Hx Hl IH]; simpl; [constructor|].
  destruct (q x); constructor; auto.
Qed.

(** X1: a registration under an e-mail address that is already stored is
    refused with status 400 and stores nothing; so the stored e-mail
    addresses stay pairwise distinct over every run of the API. *)
Theorem registration_keeps_emails_distinct :
  (forall user_data w,
     (exists u, In u (users (db w))
                /\ UserDoc.email u = UserRegistration.email user_data) ->
     register user_data w
     = (Raise (HTTPException 400 "Email already registered"), w))
  /\ (forall rs w,
        NoDup (map UserDoc.email (users (db w))) ->
        NoDup (map UserDoc.email (users (db (run rs w))))).
Proof.
  split.
  - intros user_data w (u & Hin & Hu). rewrite register_eq.
    destruct (find_one _ (users (db w))) eqn:Hfind; [reflexivity|].
    pose proof (find_none _ _ Hfind u Hin) as Hq.
    unfold email_query in Hq. rewrite Hu, String.eqb_refl in Hq. discriminate.
  - intros rs.
    apply (run_db_invariant (fun d => NoDup (map UserDoc.email (users d)))).
    intros w d' Hstep Hnd.
    destruct Hstep as [ | user_data Hfind _ | | doc a r us _ _ _ _ _ _ Hus];
      simpl; try assumption.
    + rewrite map_app. simpl.
      apply NoDup_app; [assumption | repeat constructor; simpl; tauto |].
      intros e He [<- | []].
      apply (find_one_email_none _ _ Hfind). assumption.
    + destruct Hus as [[_ ->] | (now & _ & ->)]; [assumption|].
      rewrite update_one_map by reflexivity. assumption.
Qed.

(** X2: a registration that fails stores nothing, one with a role other
    than "hospital_staff" and "donor" always fails with status 400, and
    every user document stays valid over every run: a hospital-staff record
    has a hospital name, a donor record has a blood type and a city. *)
Theorem stored_users_are_valid :
  (forall user_data w e,
     fst (register user_data w) = Raise e ->
     snd (register user_data w) = w
     /\ exists detail, e = HTTPException 400 detail)
  /\ (forall user_data w,
        UserRegistration.role user_data <> "hospital_staff" ->
        UserRegistration.role user_data <> "donor" ->
        exists detail,
          register user_data w = (Raise (HTTPException 400 detail), w))
  /\ (forall rs w,
        Forall user_valid (users (db w)) ->
        Forall user_valid (users (db (run rs w)))).
Proof.
  split; [|split].
  - intros user_data w e. rewrite register_eq.
    destruct (find_one _ (users (db w))); simpl.
    + intro H. inversion H. eauto.
    + destruct (role_fields_ok user_data); simpl; [discriminate|].
      intro H. inversion H. eauto.
  - intros user_data w Hs Hd. rewrite register_eq.
    apply String.eqb_neq in Hs. apply String.eqb_neq in Hd.
    unfold role_fields_ok. rewrite Hs, Hd.
    destruct (find_one _ (users (db w))); eauto.
  - intros rs.
    apply (run_db_invariant (fun d => Forall user_valid (users d))).
    intros w d' Hstep Hv.
    destruct Hstep as [ | user_data _ Hok | | doc a r us _ _ _ _ _ _ Hus];
      simpl; try assumption.
    + apply Forall_app. split; [assumption|].
      constructor; [|constructor]. apply registered_doc_valid. assumption.
    + destruct Hus as [[_ ->] | (now & _ & ->)]; [assumption|].
      apply update_one_Forall; [|assumption].
      intros x Hx. apply set_donation_valid. assumption.
Qed.

(** ** Accounts and authentication *)

Lemma authenticated_run {A} c (k : User.t -> M A) (f : A -> Response) cu w :
  get_current_user c w = (Ok cu, w) ->
  (current_user <- get_current_user c ;;
   x <- k current_user ;; ret (f x)) w
  = match k cu w with
    | (Ok x, w') => (Ok (f x), w')
    | (Raise e, w') => (Raise e, w')
    end.
Proof. intro Hcu. unfold bind, ret. rewrite Hcu. reflexivity. Qed.

(** X3: in a store of valid users, a POST /alerts request of an
    authenticated hospital-staff user succeeds whenever [units_needed] fits
    in 8 bytes, and stores the alert, encoded, under that user's id and
    hospital name; when [units_needed] does not fit, the request fails with
    the store's [OverflowError] and stores nothing; and the same request of
    any other authenticated user is refused with status 403 and changes
    nothing: the validation error for a missing hospital name cannot
    occur. *)
Theorem staff_create_alert_outcome
  (c : credentials) (alert_data : BloodAlertCreate.t) (cu : User.t)
  (w : World) :
  Forall user_valid (users (db w)) ->
  get_current_user c w = (Ok cu, w) ->
  (User.role cu = "hospital_staff" ->
   bson_int_ok (BloodAlertCreate.units_needed alert_data) = true ->
   exists a w',
     handle (POST_alerts c alert_data) w = (Ok (AlertResponse a), w')
     /\ In (bson_blood_alert a) (blood_alerts (db w'))
     /\ BloodAlert.hospital_id a = User.id cu
     /\ User.hospital_name cu = Some (BloodAlert.hospital_name a))
  /\ (User.role cu = "hospital_staff" ->
      bson_int_ok (BloodAlertCreate.units_needed alert_data) = false ->
      exists w',
        handle (POST_alerts c alert_data) w = (Raise OverflowError, w')
        /\ db w' = db w)
  /\ (User.role cu <> "hospital_staff" ->
      handle (POST_alerts c alert_data) w
      = (Raise (HTTPException 403 "Only hospital staff can create alerts"),
         w)).
Proof.
  intros Hvalid Hcu.
  destruct (current_user_stored _ _ _ Hcu) as (doc & Hin & -> & _).
  rewrite Forall_forall in Hvalid. specialize (Hvalid doc Hin).
  unfold handle. rewrite !(authenticated_run _ _ _ _ _ Hcu).
  rewrite create_blood_alert_eq.
  assert (Hname : UserDoc.role doc = "hospital_staff" ->
                  exists h, UserDoc.hospital_name doc = Some h).
  { intro Hrole. destruct Hvalid as [[_ Hname] | [Hdonor _]]; [|congruence].
    destruct (UserDoc.hospital_name doc) as [h|]; [eauto | discriminate]. }
  split; [|split].
  - intros Hrole Hunits. destruct (Hname Hrole) as [h Hh].
    simpl in Hrole. simpl User.role. simpl User.hospital_name.
    rewrite Hrole, Hh, Hunits. simpl.
    rewrite notify_matching_donors_eq. simpl.
    do 2 eexists. split; [reflexivity|]. simpl.
    split; [apply in_or_app; right; left; reflexivity|]. auto.
  - intros Hrole Hunits. destruct (Hname Hrole) as [h Hh].
    simpl in Hrole. simpl User.role. simpl User.hospital_name.
    rewrite Hrole, Hh, Hunits. simpl.
    eexists. split; reflexivity.
  - intro Hrole. apply String.eqb_neq in Hrole. rewrite Hrole. reflexivity.
Qed.

Lemma get_current_user_email email w :
  get_current_user (Payload (Some email)) w
  = match find_one (email_query email) (users (db w)) with
    | Some user => (Ok (User.of_doc user), w)
    | None => (Raise (HTTPException 401 "User not found"), w)
    end.
Proof.
  unfold get_current_user, email_query. unfold_monad.
  destruct (find_one _ (users (db w))); reflexivity.
Qed.

Lemma login_eq login_data w :
  login login_data w
  = match find_one (email_query (UserLogin.email login_data))
                   (users (db w)) with
    | Some user =>
        if pwd_verify w (UserLogin.password login_data)
                      (UserDoc.password user)
        then (Ok (mkToken (UserLogin.email login_data)
                          (clock w (clock_reads w)
                           + timedelta_minutes ACCESS_TOKEN_EXPIRE_MINUTES),
                  User.of_doc user),
              mkWorld (db w) (clock w) (S (clock_reads w)) (uuid_source w)
                      (uuid_reads w) (pwd_hash w) (pwd_verify w) (unicode_upper w))
        else (Raise (HTTPException 401 "Invalid email or password"), w)
    | None => (Raise (HTTPException 401 "Invalid email or password"), w)
    end.
Proof.
  unfold login, email_query. unfold_monad.
  destruct (find_one _ (users (db w))) as [user|]; [|reflexivity].
  simpl. destruct (pwd_verify w _ _); reflexivity.
Qed.

Lemma of_doc_bson_user (d : UserDoc.t) :
  User.of_doc (bson_user d) = as_stored (User.of_doc d).
Proof.
  unfold User.of_doc, bson_user, as_stored. simpl.
  destruct (UserDoc.last_donation_date d); reflexivity.
Qed.

(** X4: a successful registration can be used at once.  The token names the
    registered e-mail address, these credentials resolve to the user that
    [register] returned as the store keeps it (with its datetimes cut to the
    millisecond, and otherwise field for field the same), who is available,
    and a login with the e-mail address succeeds, returning that stored user,
    exactly for the passwords the password context verifies against the
    stored hash, being refused with status 401 for the others. *)
Theorem register_then_authenticate
  (user_data : UserRegistration.t) (tok : access_token) (u : User.t)
  (w w' : World) :
  register user_data w = (Ok (tok, u), w') ->
  sub tok = UserRegistration.email user_data
  /\ get_current_user (Payload (Some (sub tok))) w' = (Ok (as_stored u), w')
  /\ User.email u = UserRegistration.email user_data
  /\ User.is_available u = true
  /\ User.created_at u - 1000 < User.created_at (as_stored u)
     <= User.created_at u
  /\ forall password,
       let login_data :=
         UserLogin.mk (UserRegistration.email user_data) password in
       if pwd_verify w password
                     (pwd_hash w (UserRegistration.password user_data))
       then exists tok' w'',
              login login_data w' = (Ok (tok', as_stored u), w'')
              /\ sub tok' = UserRegistration.email user_data
              /\ db w'' = db w'
       else login login_data w'
            = (Raise (HTTPException 401 "Invalid email or password"), w').
Proof.
  rewrite register_eq.
  destruct (find_one _ (users (db w))) eqn:Hfind; [discriminate|].
  destruct (role_fields_ok user_data); [|discriminate].
  intro H. inversion H; subst. clear H.
  assert (Hlookup :
            find_one (email_query (UserRegistration.email user_data))
                     (users (db (registered_world_of user_data w)))
            = Some (bson_user (registered_doc user_data w))).
  { simpl. unfold find_one. apply find_after.
    - apply Forall_forall. intros y Hy. exact (find_none _ _ Hfind y Hy).
    - unfold email_query. simpl. apply String.eqb_refl. }
  split; [reflexivity|]. split.
  { simpl sub. rewrite get_current_user_email, Hlookup, of_doc_bson_user.
    reflexivity. }
  split; [reflexivity|]. split; [reflexivity|].
  split; [apply bson_datetime_bounds|].
  intros password login_data. unfold login_data. rewrite login_eq.
  simpl UserLogin.email. simpl UserLogin.password.
  rewrite Hlookup, of_doc_bson_user. simpl.
  destruct (pwd_verify w password _); [|reflexivity].
  do 2 eexists. split; [reflexivity|]. split; reflexivity.
Qed.

(** X5: [login] never changes the store.  It succeeds exactly when a user
    is stored under the e-mail address and the password context verifies
    the password against that user's hash, returning that user and a token
    for the address that expires 1440 minutes after the time read; an
    unknown address and a wrong password are refused alike, with status 401
    and the same detail. *)
Theorem login_outcome (login_data : UserLogin.t) (w : World) :
  db (snd (login login_data w)) = db w
  /\ match find_one (email_query (UserLogin.email login_data))
                    (users (db w)) with
     | Some user =>
         if pwd_verify w (UserLogin.password login_data)
                       (UserDoc.password user)
         then fst (login login_data w)
              = Ok (mkToken (UserLogin.email login_data)
                            (clock w (clock_reads w)
                             + timedelta_minutes 1440),
                    User.of_doc user)
         else login login_data w
              = (Raise (HTTPException 401 "Invalid email or password"), w)
     | None =>
         login login_data w
         = (Raise (HTTPException 401 "Invalid email or password"), w)
     end.
Proof.
  split; [apply login_db|]. rewrite login_eq.
  destruct (find_one _ (users (db w))) as [user|]; [|reflexivity].
  destruct (pwd_verify w _ _); reflexivity.
Qed.

Lemma get_current_user_raise c w e :
  fst (get_current_user c w) = Raise e ->
  exists detail, e = HTTPException (refusal_status c) detail.
Proof.
  unfold get_current_user. destruct c as [| | |[email|]]; unfold_monad; simpl.
  - intro H. inversion H. eauto.
  - intro H. inversion H. eauto.
  - intro H. inversion H. eauto.
  - destruct (find_one _ (users (db w))); simpl; [discriminate|].
    intro H. inversion H. eauto.
  - intro H. inversion H. eauto.
Qed.

(** X6: every route but registration and login is behind authentication.
    The credentials are accepted exactly when they are a bearer token that
    decodes to a payload whose subject is the e-mail address of a stored
    user; otherwise the request is refused and the world is left as it was,
    with status 403 when the request presents no bearer token and with
    status 401 when it presents one. *)
Theorem protected_routes_need_a_stored_user
  (r : Request) (c : credentials) (w : World) :
  credentials_of r = Some c ->
  ((exists cu, get_current_user c w = (Ok cu, w))
   <-> (exists email doc,
          c = Payload (Some email)
          /\ find_one (email_query email) (users (db w)) = Some doc))
  /\ ((forall cu, get_current_user c w <> (Ok cu, w)) ->
      exists detail,
        handle r w
        = (Raise (HTTPException (if bearer c then 401 else 403) detail), w)).
Proof.
  intro Hc. split.
  - split.
    + intros [cu Hcu]. apply get_current_user_ok_inv in Hcu.
      destruct Hcu as (_ & email & doc & -> & Hfind & _). eauto.
    + intros (email & doc & -> & Hfind). exists (User.of_doc doc).
      rewrite get_current_user_email, Hfind. reflexivity.
  - intro Hno.
    pose proof (get_current_user_world c w) as Hw.
    destruct (get_current_user c w) as [[cu|e] w1] eqn:Hcu; simpl in Hw;
      subst w1.
    + exfalso. apply (Hno cu). reflexivity.
    + destruct (get_current_user_raise c w e) as [detail ->];
        [rewrite Hcu; reflexivity|].
      exists detail.
      destruct r; simpl in Hc; try discriminate; inversion Hc; subst;
        unfold handle; unfold bind at 1; rewrite Hcu; reflexivity.
Qed.

(** ** References between the collections *)

Lemma api_step_users_kept w d' :
  api_step w d' -> users_kept (users (db w)) (users d').
Proof.
  assert (Hrefl : forall x, same_but_donation x x).
  { intro x. repeat split. }
  intros Hstep u Hin.
  destruct Hstep as [ | user_data _ _ | | doc a r us _ _ _ _ _ _ Hus]; simpl;
    try (exists u; auto; fail).
  - exists u. split; [apply in_or_app; auto | auto].
  - destruct Hus as [[_ ->] | (now & _ & ->)]; [exists u; auto|].
    apply update_one_keeps. assumption.
Qed.

Lemma api_step_alerts_kept w d' a :
  api_step w d' -> In a (blood_alerts (db w)) -> In a (blood_alerts d').
Proof.
  intros Hstep Hin. destruct Hstep; simpl; try assumption.
  apply in_or_app. auto.
Qed.

Lemma stored_user_with_kept w d' id role :
  api_step w d' -> stored_user_with (db w) id role ->
  stored_user_with d' id role.
Proof.
  intros Hstep (u & Hin & Hid & Hrole).
  destruct (api_step_users_kept _ _ Hstep u Hin) as (u' & Hin' & Hsame).
  exists u'. unfold same_but_donation in Hsame. intuition congruence.
Qed.

Lemma donor_kept w d' u r :
  api_step w d' -> In u (users (db w)) -> UserDoc.role u = "donor" ->
  response_of u r ->
  exists u', In u' (users d') /\ UserDoc.role u' = "donor" /\ response_of u' r.
Proof.
  intros Hstep Hin Hrole Hr.
  destruct (api_step_users_kept _ _ Hstep u Hin) as (u' & Hin' & Hsame).
  exists u'. unfold same_but_donation in Hsame. unfold response_of in *.
  intuition congruence.
Qed.

Lemma in_firstn {A} n (l : list A) x : In x (firstn n l) -> In x l.
Proof.
  intro H. rewrite <- (firstn_skipn n l). apply in_or_app. auto.
Qed.

Lemma matched_donor {A} (q : A -> bool) n l u :
  In u (to_list n (find_all q l)) -> In u l /\ q u = true.
Proof.
  unfold to_list, find_all. intro Hin.
  apply in_firstn in Hin. apply filter_In in Hin. exact Hin.
Qed.

Lemma donor_query_role blood_type t u :
  donor_query blood_type t u = true ->
  UserDoc.role u = "donor"
  /\ UserDoc.blood_type u = Some blood_type
  /\ UserDoc.is_available u = true
  /\ (UserDoc.last_donation_date u = Missing
      \/ exists d, UserDoc.last_donation_date u = Val d /\ d < t).
Proof.
  unfold donor_query. rewrite !andb_true_iff, orb_true_iff.
  intros [[[Hrole Hbt] Hav] Hdate].
  apply String.eqb_eq in Hrole.
  split; [assumption|]. split.
  - destruct (UserDoc.blood_type u) as [b|]; simpl in Hbt; [|discriminate].
    apply String.eqb_eq in Hbt. congruence.
  - split.
    + destruct (UserDoc.is_available u); [reflexivity | discriminate].
    + destruct (UserDoc.last_donation_date u) as [| |d]; simpl in Hdate.
      * auto.
      * destruct Hdate; discriminate.
      * right. exists d. split; [reflexivity|].
        destruct Hdate as [Hlt | ?]; [|discriminate].
        apply Z.ltb_lt in Hlt. pose proof (bson_datetime_bounds t). lia.
Qed.

Lemma notified_users a ms ns :
  notifies_exactly a ms ns ->
  Forall (fun n =>
            MockEmailNotification.alert_id n = BloodAlert.id a
            /\ exists u, In u ms
                         /\ UserDoc.email u = MockEmailNotification.to_email n
                         /\ UserDoc.name u = MockEmailNotification.to_name n)
         ns.
Proof.
  unfold notifies_exactly.
  induction 1 as [|u n ms ns (He & Hn & Ha) _ IH]; constructor.
  - split; [assumption|]. exists u. simpl. auto.
  - eapply Forall_impl; [|exact IH].
    intros n' (Ha' & u' & Hin & Hrest). split; [assumption|].
    exists u'. simpl. auto.
Qed.

(** X7: over every run of the API, every stored alert is owned by a stored
    user with the role "hospital_staff": alerts are created by such users
    only, and no user is ever removed or given another id or role. *)
Theorem alerts_stay_owned_by_staff (rs : list Request) (w : World) :
  alerts_owned (db w) -> alerts_owned (db (run rs w)).
Proof.
  revert w. apply (run_db_invariant alerts_owned).
  intros w d' Hstep Hown. unfold alerts_owned in *.
  assert (Hold : Forall (fun a => stored_user_with d' (BloodAlert.hospital_id a)
                                                   "hospital_staff")
                        (blood_alerts (db w))).
  { eapply Forall_impl; [|exact Hown].
    intros a Ha. eapply stored_user_with_kept; eassumption. }
  destruct Hstep as [ | | doc a t ns Hin Hrole Hid _ _ _ _ | ]; simpl in *;
    try assumption.
  apply Forall_app. split; [assumption|].
  constructor; [|constructor]. exists doc. auto.
Qed.

(** X8: over every run of the API, every stored response answers a stored
    alert and was written by a stored donor, and the name, e-mail address
    and phone it shows are that donor's stored ones. *)
Theorem responses_stay_linked (rs : list Request) (w : World) :
  responses_linked (db w) -> responses_linked (db (run rs w)).
Proof.
  revert w. apply (run_db_invariant responses_linked).
  intros w d' Hstep Hl. unfold responses_linked in *.
  assert (Hold : Forall (fun r =>
            (exists a, In a (blood_alerts d')
                       /\ BloodAlert.id a = DonorResponse.alert_id r)
            /\ exists u, In u (users d') /\ UserDoc.role u = "donor"
                         /\ response_of u r)
                        (donor_responses (db w))).
  { eapply Forall_impl; [|exact Hl].
    intros r [(a & Ha & Hid) (u & Hu & Hrole & Hr)]. split.
    - exists a. split; [eapply api_step_alerts_kept; eassumption | assumption].
    - eapply donor_kept; eassumption. }
  pose proof Hstep as Hstep'.
  destruct Hstep as [ | | | doc a r us Hin Hrole Hr Ha Hid _ _]; simpl in *;
    try assumption.
  apply Forall_app. split; [assumption|].
  constructor; [|constructor]. split.
  - exists a. auto.
  - apply (donor_kept _ _ doc r Hstep' Hin Hrole Hr).
Qed.

(** X9: over every run of the API, every stored notification has status
    "sent", is about a stored alert and is addressed, by e-mail address and
    name, to a stored donor. *)
Theorem notifications_stay_linked (rs : list Request) (w : World) :
  notifications_linked (db w) -> notifications_linked (db (run rs w)).
Proof.
  revert w. apply (run_db_invariant notifications_linked).
  intros w d' Hstep Hl. unfold notifications_linked in *.
  assert (Hold : Forall (fun n =>
            MockEmailNotification.status n = "sent"
            /\ (exists a, In a (blood_alerts d')
                          /\ BloodAlert.id a = MockEmailNotification.alert_id n)
            /\ exists u, In u (users d') /\ UserDoc.role u = "donor"
                         /\ UserDoc.email u = MockEmailNotification.to_email n
                         /\ UserDoc.name u = MockEmailNotification.to_name n)
                        (email_notifications (db w))).
  { eapply Forall_impl; [|exact Hl].
    intros n (Hs & (a & Ha & Hid) & (u & Hu & Hrole & He & Hn)).
    split; [assumption|]. split.
    - exists a. split; [eapply api_step_alerts_kept; eassumption | assumption].
    - destruct (api_step_users_kept _ _ Hstep u Hu) as (u' & Hin' & Hsame).
      exists u'. unfold same_but_donation in Hsame. intuition congruence. }
  destruct Hstep as [ | | doc a t ns _ _ _ _ _ Hns Hsent | ]; simpl in *;
    try assumption.
  apply Forall_app. split; [assumption|].
  apply notified_users in Hns.
  rewrite Forall_forall in *. intros n Hn.
  destruct (Hns n Hn) as (Ha & u & Hu & He & Hname).
  apply matched_donor in Hu. destruct Hu as [Hin Hq].
  apply donor_query_role in Hq. destruct Hq as (Hrole & _).
  split; [apply Hsent; assumption|]. split.
  - exists a. split; [apply in_or_app; right; left; reflexivity | auto].
  - exists u. auto.
Qed.

(** ** What a donation response does for good *)

Lemma never_matched_query blood_type t u :
  never_matched u -> donor_query blood_type t u = false.
Proof.
  unfold donor_query. intros [Hnull | Hav].
  - rewrite Hnull. simpl. apply andb_false_r.
  - rewrite Hav. simpl. rewrite andb_false_r. reflexivity.
Qed.

Lemma filter_none {A} (q : A -> bool) l :
  (forall x, In x l -> q x = false) -> filter q l = [].
Proof.
  induction l as [|x l IH]; simpl; intro H; [reflexivity|].
  rewrite (H x) by auto. apply IH. intros y Hy. apply H. auto.
Qed.

(** X10: a donor whose record has no last donation date (stored as [null]
    by [register]) or is marked unavailable never gets a notification
    again: over every run of the API the notifications addressed to that
    e-mail address are the ones that were already stored, and the record
    stays out of reach of the donor query. *)
Theorem unmatched_donor_is_never_notified
  (email : string) (rs : list Request) (w : World) :
  shielded email (db w) ->
  shielded email (db (run rs w))
  /\ filter (sent_to email) (email_notifications (db (run rs w)))
     = filter (sent_to email) (email_notifications (db w)).
Proof.
  intro Hw.
  apply (run_db_invariant
           (fun d => shielded email d
                     /\ filter (sent_to email) (email_notifications d)
                        = filter (sent_to email)
                                 (email_notifications (db w))));
    [|split; [assumption | reflexivity]].
  clear rs Hw. intros w1 d' Hstep [[Hex Hall] Hsent].
  assert (Hex' : exists u, In u (users d') /\ UserDoc.email u = email).
  { destruct Hex as (u & Hin & He).
    destruct (api_step_users_kept _ _ Hstep u Hin) as (u' & Hin' & Hsame).
    exists u'. unfold same_but_donation in Hsame. intuition congruence. }
  destruct Hstep as [ | user_data Hfind _ | doc a t ns _ _ _ _ _ Hns _
                      | doc a r us _ _ _ _ _ _ Hus]; simpl in *.
  - split; [split; assumption | assumption].
  - split; [|assumption]. split; [assumption|].
    apply Forall_app. split; [assumption|].
    constructor; [|constructor]. simpl. intro He.
    destruct Hex as (u & Hin & Hu).
    pose proof (find_none _ _ Hfind u Hin) as Hq.
    unfold email_query in Hq. rewrite Hu, <- He, String.eqb_refl in Hq.
    discriminate.
  - split; [split; assumption|].
    rewrite filter_app, Hsent, (filter_none (sent_to email) ns);
      [apply app_nil_r|].
    intros n Hn. apply notified_users in Hns.
    rewrite Forall_forall in Hns.
    destruct (Hns n Hn) as (_ & u & Hu & He & _).
    apply matched_donor in Hu. destruct Hu as [Hin Hq].
    unfold sent_to. apply String.eqb_neq. intro Heq.
    rewrite Forall_forall in Hall.
    rewrite never_matched_query in Hq; [discriminate|].
    apply Hall; [assumption | congruence].
  - split; [|assumption]. split; [assumption|].
    destruct Hus as [[_ ->] | (now & _ & ->)]; [assumption|].
    apply update_one_Forall; [|assumption].
    intros x _ _. right. reflexivity.
Qed.

Lemma user_evolves_trans u1 u2 u3 :
  user_evolves u1 u2 -> user_evolves u2 u3 -> user_evolves u1 u3.
Proof.
  intros [-> | (H12 & Hav2 & Hd2)] [-> | (H23 & Hav3 & Hd3)].
  - left. reflexivity.
  - right. auto.
  - right. auto.
  - right. split; [|auto].
    unfold same_but_donation in *. intuition congruence.
Qed.

Lemma Forall2_user_evolves_refl l : Forall2 user_evolves l l.
Proof. induction l; constructor; [left; reflexivity | assumption]. Qed.

Lemma Forall2_user_evolves_trans l1 :
  forall l2 l3,
    Forall2 user_evolves l1 l2 -> Forall2 user_evolves l2 l3 ->
    Forall2 user_evolves l1 l3.
Proof.
  induction l1 as [|x l1 IH]; intros l2 l3 H12 H23.
  - inversion H12; subst. inversion H23; subst. constructor.
  - inversion H12; subst. inversion H23; subst. constructor.
    + eapply user_evolves_trans; eassumption.
    + eapply IH; eassumption.
Qed.

Lemma update_one_evolves q d l :
  Forall2 user_evolves l (update_one q (UserDoc.set_donation false d) l).
Proof.
  induction l as [|x l IH]; simpl; [constructor|].
  destruct (q x); constructor.
  - right. split; [repeat split|]. split; [reflexivity|]. exists d.
    reflexivity.
  - apply Forall2_user_evolves_refl.
  - left. reflexivity.
  - assumption.
Qed.

Lemma api_step_users_evolve w d' :
  api_step w d' ->
  exists kept added,
    users d' = kept ++ added /\ Forall2 user_evolves (users (db w)) kept.
Proof.
  intros [ | user_data _ _ | | doc a r us _ _ _ _ _ _ Hus]; simpl.
  - exists (users (db w)), []. rewrite app_nil_r.
    split; [reflexivity | apply Forall2_user_evolves_refl].
  - exists (users (db w)), [bson_user (registered_doc user_data w)].
    split; [reflexivity | apply Forall2_user_evolves_refl].
  - exists (users (db w)), []. rewrite app_nil_r.
    split; [reflexivity | apply Forall2_user_evolves_refl].
  - destruct Hus as [[_ ->] | (now & _ & ->)].
    + exists (users (db w)), []. rewrite app_nil_r.
      split; [reflexivity | apply Forall2_user_evolves_refl].
    + eexists. exists []. rewrite app_nil_r.
      split; [reflexivity | apply update_one_evolves].
Qed.

(** X11: no request removes or reorders users or touches the identity of
    one.  After any run of the API the users stored before are still there,
    in place, each either unchanged or changed by donations only (same
    e-mail address, password hash, name, role, id and all other fields,
    [is_available] false and [last_donation_date] a date), followed by the
    users registered since; so a user once unavailable is never made
    available again. *)
Theorem users_only_change_by_donation (rs : list Request) (w : World) :
  exists kept added,
    users (db (run rs w)) = kept ++ added
    /\ Forall2 user_evolves (users (db w)) kept
    /\ Forall2 (fun u u' => same_but_donation u u'
                            /\ (UserDoc.is_available u = false ->
                                UserDoc.is_available u' = false))
               (users (db w)) kept.
Proof.
  assert (H : exists kept added,
             users (db (run rs w)) = kept ++ added
             /\ Forall2 user_evolves (users (db w)) kept).
  { revert w. induction rs as [|r rs IH]; intro w; simpl.
    - exists (users (db w)), []. rewrite app_nil_r.
      split; [reflexivity | apply Forall2_user_evolves_refl].
    - destruct (api_step_users_evolve _ _ (handle_api_step r w))
        as (kept0 & added0 & Heq0 & H0).
      destruct (IH (snd (handle r w))) as (kept1 & added1 & Heq1 & H1).
      rewrite Heq0 in H1. apply Forall2_app_inv_l in H1.
      destruct H1 as (k1 & k2 & Hk1 & Hk2 & ->).
      exists k1, (k2 ++ added1). rewrite Heq1, app_assoc.
      split; [reflexivity|].
      eapply Forall2_user_evolves_trans; eassumption. }
  destruct H as (kept & added & Heq & Hev).
  exists kept, added. split; [assumption|]. split; [assumption|].
  eapply Forall2_impl; [|exact Hev].
  intros u u' [-> | (Hsame & Hav & _)].
  - split; [repeat split | auto].
  - auto.
Qed.

(** ** Listings: the newest documents first *)

Lemma insert_desc_perm {A} (key : A -> datetime) x l :
  Permutation (insert_desc key x l) (x :: l).
Proof.
  induction l as [|y l IH]; simpl; [reflexivity|].
  destruct (key y <? key x); [reflexivity|].
  rewrite IH. apply perm_swap.
Qed.

Lemma sort_desc_perm {A} (key : A -> datetime) l :
  Permutation (sort_desc key l) l.
Proof.
  unfold sort_desc. induction l as [|x l IH]; simpl; [reflexivity|].
  rewrite insert_desc_perm. constructor. assumption.
Qed.

Lemma insert_desc_sorted {A} (key : A -> datetime) x l :
  newest_first key l -> newest_first key (insert_desc key x l).
Proof.
  unfold newest_first. induction 1 as [|y l Hl IH Hy]; simpl.
  - repeat constructor.
  - destruct (key y <? key x) eqn:Hlt.
    + apply Z.ltb_lt in Hlt. constructor; [constructor; assumption|].
      constructor; [lia|].
      eapply Forall_impl; [|exact Hy]. simpl. intros z Hz. lia.
    + apply Z.ltb_ge in Hlt. constructor; [assumption|].
      eapply Permutation_Forall;
        [symmetry; apply insert_desc_perm | constructor; assumption].
Qed.

Lemma sort_desc_sorted {A} (key : A -> datetime) l :
  newest_first key (sort_desc key l).
Proof.
  unfold sort_desc. induction l as [|x l IH]; simpl.
  - constructor.
  - apply insert_desc_sorted. assumption.
Qed.

Lemma listing_spec {A} n (key : A -> datetime) q coll :
  listing_of n key q coll (to_list n (sort_desc key (find_all q coll))).
Proof.
  unfold listing_of, to_list, find_all.
  set (sorted := sort_desc key (filter q coll)).
  assert (Hperm : Permutation sorted (filter q coll))
    by apply sort_desc_perm.
  split; [apply firstn_le_length|]. split.
  - apply Forall_forall. intros x Hx. apply in_firstn in Hx.
    apply (Permutation_in _ Hperm) in Hx. apply filter_In in Hx. exact Hx.
  - exists (skipn n sorted). rewrite firstn_skipn.
    split; [assumption|]. split; [apply sort_desc_sorted|].
    intro Hlen. apply skipn_all2.
    rewrite (Permutation_length Hperm). assumption.
Qed.

(** X12: [get_blood_alerts] always succeeds and changes nothing.  A
    hospital-staff user gets the alerts stored under that user's id, at most
    100 of them; any other user gets the alerts of the user's blood type
    with status "active", at most 50.
    Either way the listing is newest first and, when cut, keeps the newest
    ones. *)
Theorem get_blood_alerts_listing (cu : User.t) (w : World) :
  exists l,
    get_blood_alerts cu w = (Ok l, w)
    /\ if String.eqb (User.role cu) "hospital_staff" then
         listing_of 100 BloodAlert.created_at
           (fun a => String.eqb (BloodAlert.hospital_id a) (User.id cu))
           (blood_alerts (db w)) l
       else
         listing_of 50 BloodAlert.created_at
           (fun a => opt_str_eqb (User.blood_type cu) (BloodAlert.blood_type a)
                     && String.eqb (BloodAlert.status a) "active")
           (blood_alerts (db w)) l.
Proof.
  unfold get_blood_alerts. unfold_monad.
  destruct (String.eqb (User.role cu) "hospital_staff"); eexists;
    (split; [reflexivity | apply listing_spec]).
Qed.

Lemma get_alert_responses_owned alert_id cu w :
  User.role cu = "hospital_staff" ->
  (exists a, In a (blood_alerts (db w)) /\ BloodAlert.id a = alert_id
             /\ BloodAlert.hospital_id a = User.id cu) ->
  exists l,
    get_alert_responses alert_id cu w = (Ok l, w)
    /\ listing_of 100 DonorResponse.responded_at
         (fun r => String.eqb (DonorResponse.alert_id r) alert_id)
         (donor_responses (db w)) l.
Proof.
  unfold get_alert_responses.
  intros Hrole (a & Hin & Hid & Hown). apply String.eqb_eq in Hrole.
  rewrite Hrole. unfold_monad. simpl.
  destruct (find_one _ (blood_alerts (db w))) as [a'|] eqn:Hfind.
  - eexists. split; [reflexivity | apply listing_spec].
  - pose proof (find_none _ _ Hfind a Hin) as Hq. simpl in Hq.
    rewrite Hid, Hown, !String.eqb_refl in Hq. discriminate.
Qed.

(** X13: the responses to an alert are shown to its owner only.
    [get_alert_responses] refuses every user who is not hospital staff with
    status 403, and a hospital-staff user with status 404 when no stored
    alert has both the id asked for and that user's id as owner, be the
    alert missing or another hospital's; the owner gets the responses stored
    for the alert, newest first, at most 100.  The world is never
    changed. *)
Theorem get_alert_responses_access
  (alert_id : string) (cu : User.t) (w : World) :
  (User.role cu <> "hospital_staff" ->
   get_alert_responses alert_id cu w
   = (Raise (HTTPException 403 "Access denied"), w))
  /\ (User.role cu = "hospital_staff" ->
      (forall a, In a (blood_alerts (db w)) -> BloodAlert.id a = alert_id ->
                 BloodAlert.hospital_id a <> User.id cu) ->
      get_alert_responses alert_id cu w
      = (Raise (HTTPException 404 "Alert not found or access denied"), w))
  /\ (User.role cu = "hospital_staff" ->
      (exists a, In a (blood_alerts (db w)) /\ BloodAlert.id a = alert_id
                 /\ BloodAlert.hospital_id a = User.id cu) ->
      exists l,
        get_alert_responses alert_id cu w = (Ok l, w)
        /\ listing_of 100 DonorResponse.responded_at
             (fun r => String.eqb (DonorResponse.alert_id r) alert_id)
             (donor_responses (db w)) l).
Proof.
  split; [|split; [|apply get_alert_responses_owned]];
    unfold get_alert_responses.
  - intro Hrole. apply String.eqb_neq in Hrole. rewrite Hrole. reflexivity.
  - intros Hrole Hnone. apply String.eqb_eq in Hrole. rewrite Hrole.
    unfold_monad. simpl.
    destruct (find_one _ (blood_alerts (db w))) as [a|] eqn:Hfind;
      [|reflexivity].
    apply find_some in Hfind. destruct Hfind as [Hin Hq].
    apply andb_true_iff in Hq. destruct Hq as [Hid Hown].
    apply String.eqb_eq in Hid. apply String.eqb_eq in Hown.
    exfalso. exact (Hnone a Hin Hid Hown).
Qed.

(** X14: [get_mock_emails] always succeeds and changes nothing.  A donor
    gets the notifications addressed to the donor's own e-mail address, at
    most 50; every other user gets the notifications of the whole store,
    whatever alert or hospital they are about, at most 100.  Either way the
    listing is newest first and, when cut, keeps the newest ones. *)
Theorem get_mock_emails_listing (cu : User.t) (w : World) :
  exists l,
    get_mock_emails cu w = (Ok l, w)
    /\ if String.eqb (User.role cu) "donor" then
         listing_of 50 MockEmailNotification.sent_at
           (sent_to (User.email cu)) (email_notifications (db w)) l
       else
         listing_of 100 MockEmailNotification.sent_at (fun _ => true)
           (email_notifications (db w)) l.
Proof.
  unfold get_mock_emails. unfold_monad.
  destruct (String.eqb (User.role cu) "donor"); eexists;
    (split; [reflexivity | apply listing_spec]).
Qed.

(** X15: a recorded response reaches the owner of the alert.  After a
    donor's [respond_to_alert] call has succeeded, the listing the alert's
    owner gets from [get_alert_responses] contains the new response as the
    store keeps it: with [responded_at] cut to the millisecond, and with the
    donor's name, e-mail address and phone and the response and message as
    sent, provided fewer than 100 responses were stored for the alert
    before. *)
Theorem recorded_response_reaches_owner
  (alert_id : string) (rd : DonorResponseCreate.t) (donor staff : User.t)
  (msg : string) (r : DonorResponse.t) (w w' : World) :
  respond_to_alert alert_id rd donor w = (Ok (msg, r), w') ->
  User.role staff = "hospital_staff" ->
  (exists a, In a (blood_alerts (db w)) /\ BloodAlert.id a = alert_id
             /\ BloodAlert.hospital_id a = User.id staff) ->
  (List.length (filter (fun r => String.eqb (DonorResponse.alert_id r) alert_id)
                       (donor_responses (db w))) < 100)%nat ->
  exists l stored,
    get_alert_responses alert_id staff w' = (Ok l, w')
    /\ In stored l
    /\ stored = bson_donor_response r
    /\ DonorResponse.id stored = DonorResponse.id r
    /\ DonorResponse.responded_at stored
       = bson_datetime (DonorResponse.responded_at r)
    /\ DonorResponse.responded_at r - 1000 < DonorResponse.responded_at stored
       <= DonorResponse.responded_at r
    /\ DonorResponse.alert_id stored = alert_id
    /\ DonorResponse.donor_id stored = User.id donor
    /\ DonorResponse.donor_name stored = User.name donor
    /\ DonorResponse.donor_email stored = User.email donor
    /\ DonorResponse.donor_phone stored = User.phone donor
    /\ DonorResponse.response stored = DonorResponseCreate.response rd
    /\ DonorResponse.message stored = DonorResponseCreate.message rd.
Proof.
  intros Hresp Hrole Hown Hfew.
  apply respond_to_alert_ok_inv in Hresp.
  destruct Hresp as (_ & _ & _ & Hp & ->). inversion Hp; subst. clear Hp.
  assert (Halerts : blood_alerts (db (responded_world alert_id rd donor w))
                    = blood_alerts (db w)).
  { unfold responded_world.
    destruct (String.eqb (DonorResponseCreate.response rd) "available");
      reflexivity. }
  assert (Hresps : donor_responses (db (responded_world alert_id rd donor w))
                   = donor_responses (db w)
                     ++ [bson_donor_response
                           (new_response alert_id rd donor w)]).
  { unfold responded_world.
    destruct (String.eqb (DonorResponseCreate.response rd) "available");
      reflexivity. }
  destruct (get_alert_responses_owned alert_id staff
              (responded_world alert_id rd donor w) Hrole)
    as (l & Hl & _ & _ & rest & Hperm & _ & Hall).
  { rewrite Halerts. assumption. }
  exists l, (bson_donor_response (new_response alert_id rd donor w)).
  split; [assumption|].
  split; [|repeat split; apply bson_datetime_bounds].
  rewrite Hresps, filter_app in Hperm, Hall. simpl in Hperm, Hall.
  rewrite String.eqb_refl in Hperm, Hall.
  rewrite Hall, app_nil_r in Hperm.
  - eapply Permutation_in; [symmetry; exact Hperm|].
    apply in_or_app. right. left. reflexivity.
  - rewrite length_app. simpl. lia.
Qed.

(** ** Creating an alert *)

(** X16: an alert can be fetched as soon as it is created.  When
    [create_blood_alert] succeeds and the id it drew is not the id of an
    alert stored before, [get_alert_details] returns to every user, under
    the new alert's id, the alert as the store keeps it: [created_at] and
    [expires_at] are those of the alert [create_blood_alert] returned cut to
    the millisecond, and the alert has status "active", the creating user as
    owner and the blood type, units, urgency, description and radius of the
    request. *)
Theorem created_alert_can_be_fetched
  (alert_data : BloodAlertCreate.t) (cu : User.t) (a : BloodAlert.t)
  (w w' : World) :
  create_blood_alert alert_data cu w = (Ok a, w') ->
  (forall a0, In a0 (blood_alerts (db w)) ->
              BloodAlert.id a0 <> uuid_source w (uuid_reads w)) ->
  exists stored,
    (forall cu', get_alert_details (BloodAlert.id a) cu' w' = (Ok stored, w'))
    /\ stored = bson_blood_alert a
    /\ BloodAlert.id stored = BloodAlert.id a
    /\ BloodAlert.created_at stored = bson_datetime (BloodAlert.created_at a)
    /\ BloodAlert.expires_at stored
       = option_map bson_datetime (BloodAlert.expires_at a)
    /\ BloodAlert.status stored = "active"
    /\ BloodAlert.hospital_id stored = User.id cu
    /\ BloodAlert.blood_type stored = BloodAlertCreate.blood_type alert_data
    /\ BloodAlert.units_needed stored
       = BloodAlertCreate.units_needed alert_data
    /\ BloodAlert.urgency_level stored
       = BloodAlertCreate.urgency_level alert_data
    /\ BloodAlert.description stored = BloodAlertCreate.description alert_data
    /\ BloodAlert.radius_km stored = BloodAlertCreate.radius_km alert_data.
Proof.
  intros Hc Hfresh.
  destruct (create_blood_alert_db _ _ _ _ _ Hc)
    as [[_ [e He]] | (h & ns & _ & _ & _ & Ha & Hdb)]; [discriminate|].
  inversion Ha; subst a. clear Ha.
  exists (bson_blood_alert (created_alert alert_data cu h w)).
  split; [|repeat split].
  intro cu'. unfold get_alert_details. unfold_monad. rewrite Hdb. simpl.
  unfold find_one. rewrite find_after; [reflexivity | | apply String.eqb_refl].
  apply Forall_forall. intros a0 Hin. apply String.eqb_neq.
  apply Hfresh. assumption.
Qed.

(** X17: [create_blood_alert] notifies nobody but matching donors.  The
    notifications it appends are at most 100, each for the new alert and
    addressed to a stored user who has the role "donor" and the alert's
    blood type, is available, and whose last donation date is absent or a
    date more than 90 days before the time read for the query; when it
    fails it appends none. *)
Theorem create_blood_alert_notifies_matching_donors_only
  (alert_data : BloodAlertCreate.t) (cu : User.t)
  (res : result BloodAlert.t) (w w' : World) :
  create_blood_alert alert_data cu w = (res, w') ->
  exists ns,
    email_notifications (db w') = email_notifications (db w) ++ ns
    /\ (List.length ns <= 100)%nat
    /\ (forall e, res = Raise e -> ns = [])
    /\ Forall
         (fun n =>
            (exists a, res = Ok a
                       /\ MockEmailNotification.alert_id n = BloodAlert.id a)
            /\ exists u,
                 In u (users (db w))
                 /\ MockEmailNotification.to_email n = UserDoc.email u
                 /\ MockEmailNotification.to_name n = UserDoc.name u
                 /\ UserDoc.role u = "donor"
                 /\ UserDoc.blood_type u
                    = Some (BloodAlertCreate.blood_type alert_data)
                 /\ UserDoc.is_available u = true
                 /\ (UserDoc.last_donation_date u = Missing
                     \/ exists d,
                          UserDoc.last_donation_date u = Val d
                          /\ d < clock w (S (S (clock_reads w)))
                                 - timedelta_days 90))
         ns.
Proof.
  rewrite create_blood_alert_eq.
  destruct (negb (String.eqb (User.role cu) "hospital_staff")).
  { intro H. inversion H; subst. exists []. rewrite app_nil_r.
    repeat split; auto. simpl. lia. }
  destruct (User.hospital_name cu) as [h|].
  2:{ intro H. inversion H; subst. exists []. rewrite app_nil_r.
      repeat split; auto. simpl. lia. }
  destruct (bson_int_ok (BloodAlertCreate.units_needed alert_data)).
  2:{ intro H. inversion H; subst. exists []. rewrite app_nil_r.
      repeat split; auto. simpl. lia. }
  simpl. rewrite notify_matching_donors_eq. simpl.
  intro H. inversion H; subst. clear H.
  set (a := created_alert alert_data cu h w).
  set (ms := matching_donors a (alert_inserted a w)).
  eexists. split; [reflexivity|].
  pose proof (sent_notifications_addressed (unicode_upper w) a (clock w)
                (uuid_source w) ms
                (S (S (S (clock_reads w)))) (S (uuid_reads w))) as Hns.
  split; [|split; [discriminate|]].
  - rewrite <- (Forall2_length Hns). unfold ms, matching_donors, to_list.
    apply firstn_le_length.
  - apply notified_users in Hns. eapply Forall_impl; [|exact Hns].
    intros n (Ha & u & Hu & He & Hn). split; [exists a; auto|].
    unfold ms, matching_donors in Hu. apply matched_donor in Hu.
    destruct Hu as [Hin Hq]. apply donor_query_role in Hq.
    destruct Hq as (Hrole & Hbt & Hav & Hdate).
    exists u. simpl in Hin. repeat split; auto.
Qed.

(** ** Dashboard counts *)

Lemma incr_count_keys k g :
  map fst (incr_count k g)
  = if existsb (String.eqb k) (map fst g) then map fst g
    else map fst g ++ [k].
Proof.
  induction g as [|[k' n] g IH]; simpl; [reflexivity|].
  rewrite (String.eqb_sym k k').
  destruct (String.eqb k' k); simpl; [reflexivity|].
  rewrite IH. destruct (existsb _ (map fst g)); reflexivity.
Qed.

Lemma incr_count_ok k g : groups_ok g -> groups_ok (incr_count k g).
Proof.
  intros [Hnd Hpos]. split.
  - rewrite incr_count_keys.
    destruct (existsb (String.eqb k) (map fst g)) eqn:Hex; [assumption|].
    apply NoDup_app; [assumption | repeat constructor; simpl; tauto |].
    intros x Hx [<- | []].
    assert (existsb (String.eqb k) (map fst g) = true); [|congruence].
    apply existsb_exists. exists k. split; [assumption|].
    apply String.eqb_refl.
  - clear Hnd. induction Hpos as [|[k' n] g Hn Hpos IH]; simpl.
    + repeat constructor.
    + destruct (String.eqb k' k); constructor; simpl in *; auto; lia.
Qed.

Lemma incr_count_sum k g : sum_values (incr_count k g) = sum_values g + 1.
Proof.
  induction g as [|[k' n] g IH]; simpl; [reflexivity|].
  destruct (String.eqb k' k); simpl; [lia|]. rewrite IH. lia.
Qed.

Lemma incr_count_get k' k g :
  dict_get k' 0 (incr_count k g)
  = dict_get k' 0 g + (if String.eqb k k' then 1 else 0).
Proof.
  induction g as [|[k0 n] g IH]; simpl.
  - rewrite (String.eqb_sym k k'). destruct (String.eqb k' k); lia.
  - destruct (String.eqb k0 k) eqn:H0; simpl.
    + apply String.eqb_eq in H0. subst k0.
      destruct (String.eqb k k'); lia.
    + destruct (String.eqb k0 k') eqn:H1; [|exact IH].
      apply String.eqb_eq in H1. subst k0.
      rewrite String.eqb_sym, H0. lia.
Qed.

Lemma group_count_from g l :
  groups_ok g ->
  let g' := fold_left (fun g k => incr_count k g) l g in
  groups_ok g'
  /\ sum_values g' = sum_values g + Z.of_nat (List.length l)
  /\ (forall k, dict_get k 0 g' = dict_get k 0 g + occurrences k l)
  /\ incl (map fst g') (map fst g ++ l).
Proof.
  revert g. induction l as [|x l IH]; intros g Hg; simpl.
  - split; [assumption|]. split; [lia|]. split.
    + intro k. unfold occurrences. simpl. lia.
    + rewrite app_nil_r. apply incl_refl.
  - destruct (IH (incr_count x g) (incr_count_ok x g Hg))
      as (Hok & Hsum & Hget & Hincl).
    split; [assumption|]. split; [rewrite Hsum, incr_count_sum; lia|]. split.
    + intro k. rewrite Hget, incr_count_get. unfold occurrences. simpl.
      rewrite (String.eqb_sym k x). destruct (String.eqb x k); simpl; lia.
    + intros k Hk. apply Hincl in Hk. apply in_app_or in Hk.
      apply in_or_app. destruct Hk as [Hk | Hk]; [|right; right; assumption].
      rewrite incr_count_keys in Hk.
      destruct (existsb _ (map fst g)); [left; assumption|].
      apply in_app_or in Hk. destruct Hk as [Hk | [<- | []]];
        [left; assumption | right; left; reflexivity].
Qed.

Lemma group_count_spec l :
  groups_ok (group_count l)
  /\ sum_values (group_count l) = Z.of_nat (List.length l)
  /\ (forall k, dict_get k 0 (group_count l) = occurrences k l)
  /\ incl (map fst (group_count l)) l.
Proof.
  destruct (group_count_from [] l) as (Hok & Hsum & Hget & Hincl).
  { split; constructor. }
  unfold group_count. auto.
Qed.

Lemma groups_ok_firstn n g : groups_ok g -> groups_ok (firstn n g).
Proof.
  intros [Hnd Hpos]. rewrite <- (firstn_skipn n g) in Hnd, Hpos.
  rewrite map_app in Hnd. apply NoDup_app_remove_r in Hnd.
  apply Forall_app in Hpos. split; [assumption | apply Hpos].
Qed.

Lemma sum_values_nonneg g :
  Forall (fun kv : string * Z => 0 < snd kv) g -> 0 <= sum_values g.
Proof. induction 1; simpl; lia. Qed.

Lemma sum_values_app g1 g2 :
  sum_values (g1 ++ g2) = sum_values g1 + sum_values g2.
Proof. induction g1 as [|kv g1 IH]; simpl; [reflexivity | rewrite IH; lia]. Qed.

Lemma sum_values_firstn n g :
  Forall (fun kv : string * Z => 0 < snd kv) g ->
  sum_values (firstn n g) <= sum_values g.
Proof.
  intro Hpos. rewrite <- (firstn_skipn n g) at 2. rewrite sum_values_app.
  rewrite <- (firstn_skipn n g) in Hpos. apply Forall_app in Hpos.
  pose proof (sum_values_nonneg _ (proj2 Hpos)). lia.
Qed.

Lemma dict_get_nonneg k g :
  Forall (fun kv : string * Z => 0 < snd kv) g -> 0 <= dict_get k 0 g.
Proof.
  induction 1 as [|[k' n] g Hn _ IH]; simpl; [lia|].
  destruct (String.eqb k' k); simpl in *; lia.
Qed.

Lemma dict_get_firstn k n g :
  Forall (fun kv : string * Z => 0 < snd kv) g ->
  dict_get k 0 (firstn n g) <= dict_get k 0 g.
Proof.
  revert g. induction n as [|n IH]; intros g Hpos; simpl.
  - apply dict_get_nonneg. assumption.
  - destruct g as [|[k' v] g]; simpl; [lia|].
    inversion Hpos; subst. destruct (String.eqb k' k); [lia | auto].
Qed.

Lemma dict_get_absent k g :
  ~ In k (map fst g) -> dict_get k 0 g = 0.
Proof.
  induction g as [|[k' n] g IH]; simpl; intro H; [reflexivity|].
  destruct (String.eqb k' k) eqn:Hk.
  - apply String.eqb_eq in Hk. tauto.
  - apply IH. tauto.
Qed.

Lemma dict_get_le_sum k g :
  Forall (fun kv : string * Z => 0 < snd kv) g ->
  dict_get k 0 g <= sum_values g.
Proof.
  induction 1 as [|[k' n] g Hn Hpos IH]; simpl; [lia|].
  pose proof (sum_values_nonneg g Hpos).
  destruct (String.eqb k' k); simpl in *; lia.
Qed.

Lemma two_keys_le_sum k1 k2 g :
  Forall (fun kv : string * Z => 0 < snd kv) g -> k1 <> k2 ->
  dict_get k1 0 g + dict_get k2 0 g <= sum_values g.
Proof.
  intros Hpos Hneq. induction Hpos as [|[k n] g Hn Hpos IH]; simpl; [lia|].
  pose proof (dict_get_le_sum k1 g Hpos).
  pose proof (dict_get_le_sum k2 g Hpos).
  destruct (String.eqb k k1) eqn:E1; destruct (String.eqb k k2) eqn:E2;
    simpl in *; try lia.
  apply String.eqb_eq in E1. apply String.eqb_eq in E2. congruence.
Qed.

Lemma count_documents_and {A} (p q : A -> bool) l :
  0 <= count_documents (fun x => p x && q x) l <= count_documents p l.
Proof.
  unfold count_documents. split; [lia|].
  apply inj_le. induction l as [|x l IH]; simpl; [lia|].
  destruct (p x); destruct (q x); simpl; lia.
Qed.

Lemma group_count_length l :
  (List.length (group_count l) <= List.length (nodup string_dec l))%nat.
Proof.
  destruct (group_count_spec l) as ([Hnd _] & _ & _ & Hincl).
  rewrite <- (length_map fst (group_count l)).
  apply NoDup_incl_length; [assumption|].
  intros k Hk. apply nodup_In. apply Hincl. assumption.
Qed.

(** X18: what the dashboard reports.  For a hospital-staff user
    [active_alerts] never exceeds [total_alerts], the number of alerts the
    user owns; [available_responses] and [not_available_responses] together
    never exceed [total_responses], which never exceeds the number of
    responses stored for the user's alerts; and all three are exact as long
    as those responses use at most 10 distinct values, the number of groups
    the aggregation reads.  For any other user [available_responses] never
    exceeds [total_responses], the number of responses stored under the
    user's id, and [last_donation] is the user's last donation date.  The
    world is not changed. *)
Theorem dashboard_counts (cu : User.t) (w : World) :
  if String.eqb (User.role cu) "hospital_staff" then
    exists stats,
      get_dashboard_stats cu w = (Ok (inl stats), w)
      /\ let mine :=
           map DonorResponse.response
               (responses_to_hospital (User.id cu) (db w)) in
         total_alerts stats
         = count_documents
             (fun a => String.eqb (BloodAlert.hospital_id a) (User.id cu))
             (blood_alerts (db w))
         /\ 0 <= active_alerts stats <= total_alerts stats
         /\ 0 <= available_responses stats <= occurrences "available" mine
         /\ 0 <= not_available_responses stats
            <= occurrences "not_available" mine
         /\ available_responses stats + not_available_responses stats
            <= total_responses stats
         /\ total_responses stats <= Z.of_nat (List.length mine)
         /\ ((List.length (nodup string_dec mine) <= 10)%nat ->
             total_responses stats = Z.of_nat (List.length mine)
             /\ available_responses stats = occurrences "available" mine
             /\ not_available_responses stats
                = occurrences "not_available" mine)
  else
    exists stats,
      get_dashboard_stats cu w = (Ok (inr stats), w)
      /\ donor_total_responses stats
         = count_documents
             (fun r => String.eqb (DonorResponse.donor_id r) (User.id cu))
             (donor_responses (db w))
      /\ 0 <= donor_available_responses stats <= donor_total_responses stats
      /\ last_donation stats = User.last_donation_date cu.
Proof.
  unfold get_dashboard_stats. unfold_monad.
  destruct (String.eqb (User.role cu) "hospital_staff").
  - eexists. split; [reflexivity|]. cbv zeta. simpl.
    fold (responses_to_hospital (User.id cu) (db w)).
    set (mine := map DonorResponse.response
                     (responses_to_hospital (User.id cu) (db w))).
    destruct (group_count_spec mine) as ([Hnd Hpos] & Hsum & Hget & _).
    pose proof (groups_ok_firstn 10 _ (conj Hnd Hpos)) as [_ Hpos10].
    unfold to_list.
    split; [reflexivity|]. split; [apply count_documents_and|].
    split; [split; [apply dict_get_nonneg; assumption|];
            rewrite <- Hget; apply dict_get_firstn; assumption|].
    split; [split; [apply dict_get_nonneg; assumption|];
            rewrite <- Hget; apply dict_get_firstn; assumption|].
    split; [apply two_keys_le_sum; [assumption | discriminate]|].
    split; [rewrite <- Hsum; apply sum_values_firstn; assumption|].
    intro Hfew. rewrite firstn_all2.
    + rewrite Hsum, !Hget. auto.
    + pose proof (group_count_length mine). lia.
  - eexists. split; [reflexivity|]. simpl.
    split; [reflexivity|]. split; [apply count_documents_and|].
    destruct (User.last_donation_date cu); reflexivity.
Qed.

(** ** Failures *)

Lemma http_error code detail :
  code = 400 \/ code = 401 \/ code = 403 \/ code = 404 ->
  api_error (HTTPException code detail).
Proof. intro H. right. right. eauto. Qed.

Lemma refusal_status_error c detail :
  api_error (HTTPException (refusal_status c) detail).
Proof.
  apply http_error. unfold refusal_status. destruct (bearer c); auto.
Qed.

Lemma authenticated_failure {A} c (k : User.t -> M A) (f : A -> Response) w e :
  (forall cu e', fst (k cu w) = Raise e' ->
                 snd (k cu w) = failure_world e' w /\ api_error e') ->
  fst ((current_user <- get_current_user c ;;
        x <- k current_user ;; ret (f x)) w) = Raise e ->
  snd ((current_user <- get_current_user c ;;
        x <- k current_user ;; ret (f x)) w) = failure_world e w
  /\ api_error e.
Proof.
  intros Hk. pose proof (get_current_user_world c w) as Hw.
  destruct (get_current_user c w) as [[cu|e0] w1] eqn:Hcu; simpl in Hw;
    subst w1.
  - rewrite (authenticated_run _ _ _ _ _ Hcu).
    specialize (Hk cu).
    destruct (k cu w) as [[x|e1] w2]; simpl in *; [discriminate|].
    intro H. inversion H; subst. apply Hk. reflexivity.
  - unfold bind at 1 3. rewrite Hcu. simpl.
    intro H. inversion H; subst.
    destruct (get_current_user_raise c w e) as [detail ->];
      [rewrite Hcu; reflexivity|].
    split; [reflexivity | apply refusal_status_error].
Qed.

Lemma never_fails {A} (m : M A) w :
  (exists x, m w = (Ok x, w)) ->
  forall e', fst (m w) = Raise e' ->
             snd (m w) = failure_world e' w /\ api_error e'.
Proof. intros [x ->] e' H. discriminate H. Qed.

Lemma failure_world_db e w : db (failure_world e w) = db w.
Proof. destruct e; reflexivity. Qed.

(** X19: a request that fails stores nothing.  Whenever [handle] raises, the
    four collections are exactly as before.  What is raised is an HTTP error
    with status 400, 401, 403 or 404, and then the clock and the UUID source
    are as before too; or the validation error of [create_blood_alert], after
    one UUID and one reading of the clock have been drawn; or the overflow
    error of the store, after one UUID and two readings. *)
Theorem failed_requests_change_nothing (r : Request) (w : World)
  (e : exception) :
  fst (handle r w) = Raise e ->
  db (snd (handle r w)) = db w
  /\ snd (handle r w) = failure_world e w
  /\ api_error e.
Proof.
  intro Hraise.
  assert (H : snd (handle r w) = failure_world e w /\ api_error e);
    [|destruct H as [Hw He]; rewrite Hw, failure_world_db; auto].
  revert Hraise.
  destruct r; unfold handle.
  - unfold bind, ret. rewrite register_eq.
    destruct (find_one _ (users (db w))); simpl.
    + intro H. inversion H. split; [reflexivity | apply http_error; auto].
    + destruct (role_fields_ok user_data); simpl; [discriminate|].
      intro H. inversion H. split; [reflexivity | apply http_error; auto].
  - unfold bind, ret. rewrite login_eq.
    destruct (find_one _ (users (db w))) as [user|]; simpl.
    + destruct (pwd_verify w _ _); simpl; [discriminate|].
      intro H. inversion H. split; [reflexivity | apply http_error; auto].
    + intro H. inversion H. split; [reflexivity | apply http_error; auto].
  - apply authenticated_failure. intros cu e'.
    apply never_fails. eexists. reflexivity.
  - apply authenticated_failure. intros cu e'.
    rewrite create_blood_alert_eq.
    destruct (negb (String.eqb (User.role cu) "hospital_staff")); simpl.
    + intro H. inversion H. split; [reflexivity | apply http_error; auto].
    + destruct (User.hospital_name cu); simpl.
      * destruct (bson_int_ok (BloodAlertCreate.units_needed alert_data));
          simpl; [discriminate|].
        intro H. inversion H.
        split; [reflexivity | right; left; reflexivity].
      * intro H. inversion H. split; [reflexivity | left; reflexivity].
  - apply authenticated_failure. intros cu e'.
    apply never_fails. unfold get_blood_alerts. unfold_monad.
    destruct (String.eqb (User.role cu) "hospital_staff"); eexists;
      reflexivity.
  - apply authenticated_failure. intros cu e'.
    unfold get_alert_details. unfold_monad.
    destruct (find_one _ (blood_alerts (db w))); simpl; [discriminate|].
    intro H. inversion H. split; [reflexivity | apply http_error; auto].
  - apply authenticated_failure. intros cu e'.
    destruct (respond_to_alert_outcome alert_id response_data cu w); simpl;
      try discriminate;
      intro Hraise; inversion Hraise;
      (split; [reflexivity | apply http_error; auto]).
  - apply authenticated_failure. intros cu e'.
    unfold get_alert_responses.
    destruct (negb (String.eqb (User.role cu) "hospital_staff")); simpl.
    + intro H. inversion H. split; [reflexivity | apply http_error; auto].
    + unfold_monad. simpl.
      destruct (find_one _ (blood_alerts (db w))); simpl; [discriminate|].
      intro H. inversion H. split; [reflexivity | apply http_error; auto].
  - apply authenticated_failure. intros cu e'.
    apply never_fails. unfold get_dashboard_stats. unfold_monad.
    destruct (String.eqb (User.role cu) "hospital_staff"); eexists;
      reflexivity.
  - apply authenticated_failure. intros cu e'.
    apply never_fails. unfold get_mock_emails. unfold_monad.
    destruct (String.eqb (User.role cu) "donor"); eexists; reflexivity.
Qed.

Lemma listing_complete {A} n (key : A -> datetime) (q : A -> bool) coll x :
  In x coll -> q x = true ->
  (List.length (filter q coll) <= n)%nat ->
  In x (to_list n (sort_desc key (find_all q coll))).
Proof.
  intros Hin Hq Hlen.
  destruct (listing_spec n key q coll) as (_ & _ & rest & Hperm & _ & Hall).
  rewrite (Hall Hlen), app_nil_r in Hperm.
  eapply Permutation_in; [symmetry; exact Hperm|].
  apply filter_In. auto.
Qed.

(** X20: a new alert shows up in the listings.  After [create_blood_alert]
    has succeeded, [get_blood_alerts] shows the new alert, as the store keeps
    it (with [created_at] and [expires_at] cut to the millisecond), to its
    creator, provided the creator owned fewer than 100 alerts before, and to
    every user who is not hospital staff and has the alert's blood type,
    provided fewer than 50 active alerts of that blood type were stored
    before. *)
Theorem created_alert_is_listed
  (alert_data : BloodAlertCreate.t) (cu : User.t) (a : BloodAlert.t)
  (w w' : World) :
  create_blood_alert alert_data cu w = (Ok a, w') ->
  ((List.length
      (filter (fun a0 => String.eqb (BloodAlert.hospital_id a0) (User.id cu))
              (blood_alerts (db w))) < 100)%nat ->
   exists l, get_blood_alerts cu w' = (Ok l, w')
             /\ In (bson_blood_alert a) l)
  /\ (forall donor,
        User.role donor <> "hospital_staff" ->
        User.blood_type donor = Some (BloodAlertCreate.blood_type alert_data) ->
        (List.length
           (filter (fun a0 =>
                      opt_str_eqb (User.blood_type donor)
                                  (BloodAlert.blood_type a0)
                      && String.eqb (BloodAlert.status a0) "active")
                   (blood_alerts (db w))) < 50)%nat ->
        exists l, get_blood_alerts donor w' = (Ok l, w')
                  /\ In (bson_blood_alert a) l).
Proof.
  intro Hc.
  destruct (create_blood_alert_db _ _ _ _ _ Hc)
    as [[_ [e He]] | (h & ns & Hrole & _ & _ & Ha & Hdb)]; [discriminate|].
  inversion Ha; subst a. clear Ha.
  set (a := bson_blood_alert (created_alert alert_data cu h w)) in *.
  assert (Hin : In a (blood_alerts (db w'))).
  { rewrite Hdb. simpl. apply in_or_app. right. left. reflexivity. }
  split.
  - intro Hfew. unfold get_blood_alerts. unfold_monad.
    rewrite Hrole. simpl. eexists. split; [reflexivity|].
    apply listing_complete; [assumption | apply String.eqb_refl |].
    rewrite Hdb. simpl. rewrite filter_app, length_app. simpl.
    rewrite String.eqb_refl. simpl. lia.
  - intros donor Hdonor Hbt Hfew. unfold get_blood_alerts. unfold_monad.
    apply String.eqb_neq in Hdonor. rewrite Hdonor.
    eexists. split; [reflexivity|].
    apply listing_complete; [assumption | rewrite Hbt; simpl;
                              rewrite String.eqb_refl; reflexivity |].
    rewrite Hdb. simpl. rewrite filter_app, length_app. simpl.
    rewrite Hbt. simpl. rewrite String.eqb_refl. simpl.
    rewrite Hbt in Hfew. simpl in Hfew. lia.
Qed.

(** ** More of the sample run *)

Ltac valid_users :=
  vm_compute;
  repeat (apply Forall_cons;
          [first [left; repeat split; reflexivity
                 | right; repeat split; reflexivity] |]);
  apply Forall_nil.

Ltac stored_first :=
  vm_compute; eexists; split; [left; reflexivity | repeat split; reflexivity].

Lemma registration_keeps_emails_distinct_witness :
  register dana_registration clinic_world
  = (Raise (HTTPException 400 "Email already registered"), clinic_world)
  /\ NoDup (map UserDoc.email (users (db (run sample_requests initial_world)))).
Proof.
  split.
  - apply (proj1 registration_keeps_emails_distinct).
    vm_compute. eexists. split; [right; left; reflexivity | reflexivity].
  - apply (proj2 registration_keeps_emails_distinct). vm_compute. constructor.
Defined.

Lemma stored_users_are_valid_witness :
  (snd (register dana_registration clinic_world) = clinic_world
   /\ exists detail,
        HTTPException 400 "Email already registered"
        = HTTPException 400 detail)
  /\ (exists detail,
        register admin_registration clinic_world
        = (Raise (HTTPException 400 detail), clinic_world))
  /\ Forall user_valid (users (db (run sample_requests initial_world))).
Proof.
  split; [|split].
  - apply (proj1 stored_users_are_valid dana_registration clinic_world).
    computed.
  - apply (proj1 (proj2 stored_users_are_valid)); vm_compute; discriminate.
  - apply (proj2 (proj2 stored_users_are_valid)). vm_compute. constructor.
Defined.

Lemma staff_create_alert_outcome_witness :
  (exists a w',
     handle (POST_alerts staff_credentials alert_request) clinic_world
     = (Ok (AlertResponse a), w')
     /\ In (bson_blood_alert a) (blood_alerts (db w'))
     /\ BloodAlert.hospital_id a = User.id staff_user
     /\ User.hospital_name staff_user = Some (BloodAlert.hospital_name a))
  /\ (exists w',
        handle (POST_alerts staff_credentials huge_request) clinic_world
        = (Raise OverflowError, w')
        /\ db w' = db clinic_world)
  /\ handle (POST_alerts dana_credentials alert_request) clinic_world
     = (Raise (HTTPException 403 "Only hospital staff can create alerts"),
        clinic_world).
Proof.
  split; [|split].
  - apply (staff_create_alert_outcome staff_credentials alert_request
             staff_user clinic_world);
      [valid_users | computed | computed | computed].
  - apply (staff_create_alert_outcome staff_credentials huge_request
             staff_user clinic_world);
      [valid_users | computed | computed | computed].
  - apply (staff_create_alert_outcome dana_credentials alert_request
             dana_user clinic_world); [valid_users | computed |].
    vm_compute. discriminate.
Defined.

(** The user read back from the store is not the user [register]
    returned. *)
Example registered_user_as_stored :
  as_stored dana_as_registered = dana_user
  /\ User.created_at dana_as_registered <> User.created_at dana_user
  /\ User.last_donation_date dana_as_registered
     <> User.last_donation_date dana_user.
Proof. split; [reflexivity|]. split; discriminate. Qed.

Lemma register_then_authenticate_witness :
  get_current_user (Payload (Some "dana@mail.example")) two_users_world
  = (Ok (as_stored dana_as_registered), two_users_world)
  /\ User.is_available dana_as_registered = true
  /\ (exists tok' w'',
        login (UserLogin.mk "dana@mail.example" "DonorPass1") two_users_world
        = (Ok (tok', as_stored dana_as_registered), w'')
        /\ sub tok' = "dana@mail.example"
        /\ db w'' = db two_users_world)
  /\ login (UserLogin.mk "dana@mail.example" "guess") two_users_world
     = (Raise (HTTPException 401 "Invalid email or password"),
        two_users_world).
Proof.
  destruct (register_then_authenticate dana_registration
              (mkToken "dana@mail.example" 1700086403123456)
              dana_as_registered one_user_world two_users_world)
    as (_ & Hauth & _ & Hav & _ & Hlogin); [computed|].
  split; [exact Hauth|]. split; [exact Hav|]. split.
  - exact (Hlogin "DonorPass1").
  - exact (Hlogin "guess").
Defined.

Lemma protected_routes_need_a_stored_user_witness :
  (exists detail,
     handle (GET_alerts InvalidToken) clinic_world
     = (Raise (HTTPException 401 detail), clinic_world))
  /\ (exists detail,
        handle (GET_alerts NoCredentials) clinic_world
        = (Raise (HTTPException 403 detail), clinic_world)).
Proof.
  split.
  - apply (proj2 (protected_routes_need_a_stored_user (GET_alerts InvalidToken)
                    InvalidToken clinic_world eq_refl)).
    intros cu H. discriminate H.
  - apply (proj2 (protected_routes_need_a_stored_user
                    (GET_alerts NoCredentials) NoCredentials clinic_world
                    eq_refl)).
    intros cu H. discriminate H.
Defined.

Lemma alerts_stay_owned_by_staff_witness :
  alerts_owned (db (run sample_requests initial_world)).
Proof.
  apply (alerts_stay_owned_by_staff sample_requests initial_world).
  vm_compute. constructor.
Defined.

Lemma responses_stay_linked_witness :
  responses_linked (db (run sample_requests initial_world)).
Proof.
  apply (responses_stay_linked sample_requests initial_world).
  vm_compute. constructor.
Defined.

Lemma notifications_stay_linked_witness :
  notifications_linked (db (run sample_requests initial_world)).
Proof.
  apply (notifications_stay_linked sample_requests initial_world).
  vm_compute. constructor.
Defined.

Lemma unmatched_donor_is_never_notified_witness :
  shielded "eli@mail.example"
    (db (run [POST_alerts staff_credentials alert_request;
              POST_alerts staff_credentials alert_request] registered_world))
  /\ filter (sent_to "eli@mail.example")
       (email_notifications
          (db (run [POST_alerts staff_credentials alert_request;
                    POST_alerts staff_credentials alert_request]
                   registered_world)))
     = filter (sent_to "eli@mail.example")
         (email_notifications (db registered_world)).
Proof.
  apply (unmatched_donor_is_never_notified "eli@mail.example").
  split.
  - vm_compute. eexists.
    split; [right; right; left; reflexivity | reflexivity].
  - vm_compute.
    repeat (apply Forall_cons;
            [intro H; first [discriminate H | left; reflexivity] |]).
    apply Forall_nil.
Defined.

Lemma get_alert_responses_access_witness :
  get_alert_responses "uuid-3" dana_user maybe_world
  = (Raise (HTTPException 403 "Access denied"), maybe_world)
  /\ get_alert_responses "uuid-9" staff_user maybe_world
     = (Raise (HTTPException 404 "Alert not found or access denied"),
        maybe_world)
  /\ exists l,
       get_alert_responses "uuid-3" staff_user maybe_world = (Ok l, maybe_world)
       /\ listing_of 100 DonorResponse.responded_at
            (fun r => String.eqb (DonorResponse.alert_id r) "uuid-3")
            (donor_responses (db maybe_world)) l.
Proof.
  split; [|split].
  - apply (proj1 (get_alert_responses_access "uuid-3" dana_user maybe_world)).
    vm_compute. discriminate.
  - apply (proj1 (proj2 (get_alert_responses_access "uuid-9" staff_user
                           maybe_world))); [computed|].
    vm_compute. intros a [<- | []] H. discriminate H.
  - apply (proj2 (proj2 (get_alert_responses_access "uuid-3" staff_user
                           maybe_world))); [computed | stored_first].
Defined.

(** The response to Eli's "maybe" as [respond_to_alert] returns it, and as
    it is listed afterwards. *)
Example recorded_response_as_stored :
  DonorResponse.responded_at (new_response "uuid-3" maybe eli_user clinic_world)
  = 1700000010123456
  /\ DonorResponse.responded_at
       (bson_donor_response (new_response "uuid-3" maybe eli_user clinic_world))
     = 1700000010123000.
Proof. split; vm_compute; reflexivity. Qed.

Lemma recorded_response_reaches_owner_witness :
  exists l,
    get_alert_responses "uuid-3" staff_user maybe_world = (Ok l, maybe_world)
    /\ In (bson_donor_response
             (new_response "uuid-3" maybe eli_user clinic_world)) l.
Proof.
  destruct (recorded_response_reaches_owner "uuid-3" maybe eli_user staff_user
              "Response recorded successfully"
              (new_response "uuid-3" maybe eli_user clinic_world)
              clinic_world maybe_world)
    as (l & stored & Hl & Hin & Hstored & _).
  - computed.
  - computed.
  - stored_first.
  - apply Nat.ltb_lt. computed.
  - exists l. split; [exact Hl|]. rewrite <- Hstored. exact Hin.
Defined.

(** The second alert as [create_blood_alert] returns it, and as it is
    fetched afterwards. *)
Example created_alert_as_stored :
  BloodAlert.created_at second_alert = 1700000010123456
  /\ BloodAlert.expires_at second_alert = Some 1700007211123456
  /\ BloodAlert.created_at (bson_blood_alert second_alert) = 1700000010123000
  /\ BloodAlert.expires_at (bson_blood_alert second_alert)
     = Some 1700007211123000.
Proof. repeat split; vm_compute; reflexivity. Qed.

Lemma created_alert_can_be_fetched_witness :
  get_alert_details (BloodAlert.id second_alert) eli_user second_alert_world
  = (Ok (bson_blood_alert second_alert), second_alert_world)
  /\ get_alert_details (BloodAlert.id second_alert) staff_user
       second_alert_world
     = (Ok (bson_blood_alert second_alert), second_alert_world).
Proof.
  destruct (created_alert_can_be_fetched alert_request staff_user second_alert
              clinic_world second_alert_world)
    as (stored & Hget & Hstored & _).
  - computed.
  - vm_compute. intros a0 [<- | []] H. discriminate H.
  - rewrite <- Hstored. split; apply Hget.
Defined.

Lemma create_blood_alert_notifies_matching_donors_only_witness :
  exists ns,
    email_notifications (db clinic_world)
    = email_notifications (db registered_world) ++ ns
    /\ (List.length ns <= 100)%nat
    /\ (forall e,
          Ok (created_alert alert_request staff_user "General Hospital"
                registered_world) = Raise e ->
          ns = [])
    /\ Forall
         (fun n =>
            (exists a,
               Ok (created_alert alert_request staff_user "General Hospital"
                     registered_world) = Ok a
               /\ MockEmailNotification.alert_id n = BloodAlert.id a)
            /\ exists u,
                 In u (users (db registered_world))
                 /\ MockEmailNotification.to_email n = UserDoc.email u
                 /\ MockEmailNotification.to_name n = UserDoc.name u
                 /\ UserDoc.role u = "donor"
                 /\ UserDoc.blood_type u
                    = Some (BloodAlertCreate.blood_type alert_request)
                 /\ UserDoc.is_available u = true
                 /\ (UserDoc.last_donation_date u = Missing
                     \/ exists d,
                          UserDoc.last_donation_date u = Val d
                          /\ d < clock registered_world
                                   (S (S (clock_reads registered_world)))
                                 - timedelta_days 90))
         ns.
Proof.
  apply (create_blood_alert_notifies_matching_donors_only alert_request
           staff_user
           (Ok (created_alert alert_request staff_user "General Hospital"
                  registered_world))
           registered_world clinic_world).
  computed.
Defined.

Lemma dashboard_counts_witness :
  exists stats,
    get_dashboard_stats staff_user maybe_world = (Ok (inl stats), maybe_world)
    /\ total_responses stats = 1
    /\ available_responses stats = 0
    /\ not_available_responses stats = 0.
Proof.
  destruct (dashboard_counts staff_user maybe_world)
    as (stats & Hstats & _ & _ & _ & _ & _ & _ & Hexact).
  destruct Hexact as (Htotal & Havail & Hnot).
  { apply Nat.leb_le. computed. }
  exists stats. split; [exact Hstats|].
  rewrite Htotal, Havail, Hnot. repeat split; computed.
Defined.

Lemma failed_requests_change_nothing_witness :
  (db (snd (handle (POST_respond staff_credentials "uuid-3" accept)
                   clinic_world))
   = db clinic_world
   /\ snd (handle (POST_respond staff_credentials "uuid-3" accept)
                  clinic_world)
      = failure_world (HTTPException 403 "Only donors can respond to alerts")
          clinic_world
   /\ api_error (HTTPException 403 "Only donors can respond to alerts"))
  /\ (db (snd (handle (POST_alerts staff_credentials huge_request)
                      clinic_world))
      = db clinic_world
      /\ snd (handle (POST_alerts staff_credentials huge_request)
                     clinic_world)
         = failure_world OverflowError clinic_world
      /\ api_error OverflowError).
Proof.
  split.
  - apply (failed_requests_change_nothing
             (POST_respond staff_credentials "uuid-3" accept) clinic_world
             (HTTPException 403 "Only donors can respond to alerts")).
    computed.
  - apply (failed_requests_change_nothing
             (POST_alerts staff_credentials huge_request) clinic_world
             OverflowError).
    computed.
Defined.

Lemma created_alert_is_listed_witness :
  (exists l,
     get_blood_alerts staff_user second_alert_world
     = (Ok l, second_alert_world)
     /\ In (bson_blood_alert second_alert) l)
  /\ (exists l,
        get_blood_alerts dana_user second_alert_world
        = (Ok l, second_alert_world)
        /\ In (bson_blood_alert second_alert) l).
Proof.
  destruct (created_alert_is_listed alert_request staff_user second_alert
              clinic_world second_alert_world)
    as [Howner Hdonor]; [computed|].
  split.
  - apply Howner. apply Nat.ltb_lt. computed.
  - apply (Hdonor dana_user).
    + vm_compute. discriminate.
    + computed.
    + apply Nat.ltb_lt. computed.
Defined.
